(** * django-flag: the flag models ([flag/models.py])

    A shallow embedding of [FlaggedContentManager], [FlaggedContent],
    [FlagInstanceManager], [FlagInstance] and [add_flag], over an explicit
    store that stands for the two database tables and for what leaves the
    process (signals and mails).  Python exceptions are results of a small
    state-and-exception monad; the store survives a raised exception, as
    the database does. *)

From Stdlib Require Import ZArith String List Bool Lia DecimalString Sorted
  Permutation.
Import ListNotations.
Local Open Scope string_scope.
Local Open Scope Z_scope.
Local Open Scope list_scope.

(** ** Values of the host framework *)

(** Primary key of an [auth.User]. *)
Definition User := Z.

(** A [ContentType] row: [(app_label, model)]. *)
Definition ContentType := (string * string)%type.

(** A flaggable object: its content type and its [id]. *)
Record ContentObject := mkContentObject {
  co_content_type : ContentType;
  co_id : Z
}.

(** An entry of [SEND_MAILS_TO]: a bare address or a [(name, address)] pair. *)
Inductive Recipient :=
| Address (address : string)
| NamedAddress (name address : string).

(** Python truth value of an integer-or-[None] setting or argument. *)
Definition truthy (v : option Z) : bool :=
  match v with
  | Some z => negb (z =? 0)
  | None => false
  end.

(** Python truth value of a string-or-[None] field. *)
Definition truthy_str (v : option string) : bool :=
  match v with
  | Some s => negb (s =? "")%string
  | None => false
  end.

(** Python truth value of an [id]: unsaved objects have [None]. *)
Definition truthy_id (v : option nat) : bool :=
  match v with
  | Some (S _) => true
  | _ => false
  end.

(** ** Settings ([flag.settings]) *)

(** Modelled from the spec: the per-model settings that
    [flag_settings.get_for_model(content_object, name)] resolves; the module
    [flag/settings.py] is not part of the sources at hand.  One record holds
    the value of every recognised name for one content object. *)
Record ModelSettings := mkModelSettings {
  LIMIT_FOR_OBJECT : option Z;
  LIMIT_SAME_OBJECT_FOR_USER : option Z;
  ALLOW_COMMENTS : bool;
  SEND_MAILS : bool;
  SEND_MAILS_TO : list Recipient;
  SEND_MAILS_FROM : string;
  SEND_MAILS_RULES : list (Z * Z)
}.

(** Modelled from the spec: the global settings [MODELS] and [STATUSES], the
    resolver [get_for_model], and the one fact about the outside world the
    models depend on, whether the generic foreign key of an aggregate still
    resolves to an object. *)
Record Settings := mkSettings {
  MODELS : option (list string);
  STATUSES : list (Z * string);
  get_for_model : option ContentObject -> ModelSettings;
  object_exists : ContentType -> Z -> bool
}.

(** Modelled from the spec: [flag.utils.get_content_type_tuple], which
    returns [(app_label, model)] for an object and raises on anything it
    cannot read; [None] stands for the raise. *)
Definition get_content_type_tuple (content_type : option ContentObject)
  : option (string * string) :=
  option_map co_content_type content_type.

(** ** Exceptions ([flag.exceptions] and the ORM) *)

(** Modelled from the spec: the four exception classes of
    [flag/exceptions.py], under the names the models raise them by and with
    their message; the others are the errors of the ORM and of Python that
    the methods can run into. *)
Inductive Exception :=
| ModelCannotBeFlaggedException (msg : string)
| ContentFlaggedEnoughException (msg : string)
| ContentAlreadyFlaggedByUserException (msg : string)
| FlagCommentException (msg : string)
| DoesNotExist
| IntegrityError
| DatabaseError
| IndexError
| AttributeError.

(** ** The two models *)

Module FlaggedContent.
Record t := mk {
  id : option nat;
  content_type : ContentType;
  object_id : Z;
  creator : option User;
  status : Z;
  moderator : option User;
  count : Z
}.

Definition set_id (self : t) (v : option nat) : t :=
  mk v (content_type self) (object_id self) (creator self) (status self)
     (moderator self) (count self).
Definition set_status (self : t) (v : Z) : t :=
  mk (id self) (content_type self) (object_id self) (creator self) v
     (moderator self) (count self).
Definition set_moderator (self : t) (v : option User) : t :=
  mk (id self) (content_type self) (object_id self) (creator self)
     (status self) v (count self).
Definition set_count (self : t) (v : Z) : t :=
  mk (id self) (content_type self) (object_id self) (creator self)
     (status self) (moderator self) v.
End FlaggedContent.

Module FlagInstance.
(** The Python object: it holds its aggregate as an object. *)
Record t := mk {
  id : option nat;
  flagged_content : FlaggedContent.t;
  user : User;
  comment : option string;
  status : Z
}.

(** The table row: it holds the aggregate's key. *)
Record row := mk_row {
  row_id : nat;
  flagged_content_id : nat;
  row_user : User;
  row_comment : option string;
  row_status : Z
}.

Definition set_id (self : t) (v : option nat) : t :=
  mk v (flagged_content self) (user self) (comment self) (status self).
Definition set_flagged_content (self : t) (v : FlaggedContent.t) : t :=
  mk (id self) v (user self) (comment self) (status self).
End FlagInstance.

(** ** The store *)

(** What leaves the process: a [content_flagged] signal, or one call of
    [django.core.mail.send_mail] (subject and body are rendered from the
    flag by templates and are not modelled). *)
Inductive Effect :=
| content_flagged (flagged_content : FlaggedContent.t)
                  (flagged_instance : FlagInstance.t)
| send_mail (from_email : string) (recipient_list : list string)
            (flag : FlagInstance.t).

Record Store := mkStore {
  flagged_contents : list FlaggedContent.t;
  flag_instances : list FlagInstance.row;
  outbox : list Effect
}.

Definition empty_store : Store := mkStore [] [] [].

(** ** State and exceptions *)

Inductive Result (A : Type) :=
| Return (a : A)
| Raise (e : Exception).
Arguments Return {A} a.
Arguments Raise {A} e.

Definition M (A : Type) : Type := Store -> Result A * Store.

Definition ret {A} (a : A) : M A := fun st => (Return a, st).
Definition raise {A} (e : Exception) : M A := fun st => (Raise e, st).
Definition bind {A B} (m : M A) (k : A -> M B) : M B :=
  fun st =>
    match m st with
    | (Return a, st') => k a st'
    | (Raise e, st') => (Raise e, st')
    end.
Definition lift {A} (r : Result A) : M A := fun st => (r, st).
Definition read {A} (f : Store -> A) : M A := fun st => (Return (f st), st).
Definition emit (e : Effect) : M unit :=
  fun st => (Return tt,
             mkStore (flagged_contents st) (flag_instances st)
                     (outbox st ++ [e])).

Notation "x <- m ;; k" := (bind m (fun x => k))
  (at level 61, m at next level, right associativity).
Notation "m ;;; k" := (bind m (fun _ => k))
  (at level 61, right associativity).

(** ** The ORM, as far as the models use it

    A row is found by primary key; a save without a key inserts under the
    next free key, a save with a key updates the row or inserts it when
    absent; [unique_together] and the foreign key of a flag are enforced.
    The timestamps [when_updated] and [when_added] are left out.

    The table of users and the ranges of the integer columns are not in
    the store: a [User] stands for a stored user, and a status, a count or
    an object id for a number its column takes.  Where the database of the
    program refuses a row on these grounds, with [IntegrityError], the
    saves below store it; the receivers of the signal and the rendering of
    the mail are outside the store as well.  So the properties of [add]
    and [add_flag] say what a call that returns has done and what an
    exception of [flag.exceptions] means, not that no other exception can
    come. *)

Definition has_pk (i : nat) (r : FlaggedContent.t) : bool :=
  match FlaggedContent.id r with
  | Some j => Nat.eqb i j
  | None => false
  end.

Definition same_pk (self r : FlaggedContent.t) : bool :=
  match FlaggedContent.id self with
  | Some i => has_pk i r
  | None => false
  end.

Definition content_type_eqb (a b : ContentType) : bool :=
  (fst a =? fst b)%string && (snd a =? snd b)%string.

(** The lookup of [get_or_create]: [content_type] and [object_id]. *)
Definition for_object (content_type : ContentType) (object_id : Z)
  (r : FlaggedContent.t) : bool :=
  content_type_eqb (FlaggedContent.content_type r) content_type
  && (FlaggedContent.object_id r =? object_id).

(** [Meta.unique_together = [("content_type", "object_id")]]. *)
Definition unique_together (self : FlaggedContent.t)
  (rows : list FlaggedContent.t) : bool :=
  forallb (fun r =>
             negb (for_object (FlaggedContent.content_type self)
                              (FlaggedContent.object_id self) r)
             || same_pk self r) rows.

Definition next_id (ids : list nat) : nat := S (fold_right Nat.max 0%nat ids).

Definition FlaggedContent_ids (rows : list FlaggedContent.t) : list nat :=
  flat_map (fun r => match FlaggedContent.id r with
                     | Some i => [i]
                     | None => []
                     end) rows.

Definition with_flagged_contents (st : Store) (rows : list FlaggedContent.t)
  : Store :=
  mkStore rows (flag_instances st) (outbox st).

Definition with_flag_instances (st : Store) (rows : list FlagInstance.row)
  : Store :=
  mkStore (flagged_contents st) rows (outbox st).

(** [models.Model.save] on a [FlaggedContent].  [F_count] is the pending
    expression of the [count] attribute: [None] when the attribute holds a
    plain number, [Some f] when it holds [models.F('count')] combined into
    [f], which the database evaluates on the stored value. *)
Definition Model_save_FlaggedContent (self : FlaggedContent.t)
  (F_count : option (Z -> Z)) : M FlaggedContent.t :=
  fun st =>
    let rows := flagged_contents st in
    if negb (unique_together self rows) then (Raise IntegrityError, st)
    else
      match FlaggedContent.id self, F_count with
      | Some i, None =>
          if existsb (has_pk i) rows
          then (Return self,
                with_flagged_contents st
                  (map (fun r => if has_pk i r then self else r) rows))
          else (Return self, with_flagged_contents st (self :: rows))
      | Some i, Some f =>
          if existsb (has_pk i) rows
          then (Return self,
                with_flagged_contents st
                  (map (fun r =>
                          if has_pk i r
                          then FlaggedContent.set_count self
                                 (f (FlaggedContent.count r))
                          else r) rows))
          else (Raise DatabaseError, st)
      | None, None =>
          let self' :=
            FlaggedContent.set_id self
              (Some (next_id (FlaggedContent_ids rows))) in
          (Return self', with_flagged_contents st (self' :: rows))
      | None, Some _ => (Raise DatabaseError, st)
      end.

(** [FlaggedContent.objects.get(id=...)]. *)
Definition FlaggedContent_objects_get (id : option nat)
  : M FlaggedContent.t :=
  fun st =>
    match id with
    | Some i =>
        match find (has_pk i) (flagged_contents st) with
        | Some r => (Return r, st)
        | None => (Raise DoesNotExist, st)
        end
    | None => (Raise DoesNotExist, st)
    end.

Definition has_row_id (i : nat) (r : FlagInstance.row) : bool :=
  Nat.eqb i (FlagInstance.row_id r).

(** [models.Model.save] on a [FlagInstance]. *)
Definition Model_save_FlagInstance (self : FlagInstance.t)
  : M FlagInstance.t :=
  fun st =>
    match FlaggedContent.id (FlagInstance.flagged_content self) with
    | None => (Raise IntegrityError, st)
    | Some p =>
        if negb (existsb (has_pk p) (flagged_contents st))
        then (Raise IntegrityError, st)
        else
          let rows := flag_instances st in
          let row_of i :=
            FlagInstance.mk_row i p (FlagInstance.user self)
              (FlagInstance.comment self) (FlagInstance.status self) in
          match FlagInstance.id self with
          | Some i =>
              if existsb (has_row_id i) rows
              then (Return self,
                    with_flag_instances st
                      (map (fun r => if has_row_id i r then row_of i else r)
                           rows))
              else (Return self, with_flag_instances st (row_of i :: rows))
          | None =>
              let i := next_id (map FlagInstance.row_id rows) in
              (Return (FlagInstance.set_id self (Some i)),
               with_flag_instances st (row_of i :: rows))
          end
    end.

(** ** [FlaggedContentManager] *)

(** The generic foreign key [content_object] of an aggregate: the object
    when it still exists, [None] otherwise. *)
Definition content_object (cfg : Settings) (self : FlaggedContent.t)
  : option ContentObject :=
  if object_exists cfg (FlaggedContent.content_type self)
                       (FlaggedContent.object_id self)
  then Some (mkContentObject (FlaggedContent.content_type self)
                             (FlaggedContent.object_id self))
  else None.

Definition model_can_be_flagged (cfg : Settings)
  (content_type : option ContentObject) : bool :=
  match MODELS cfg with
  | None => true
  | Some models =>
      match get_content_type_tuple content_type with
      | None => false
      | Some (app_label, model) =>
          existsb (String.eqb (app_label ++ "." ++ model)%string) models
      end
  end.

Definition assert_model_can_be_flagged (cfg : Settings)
  (content_type : option ContentObject) : Result unit :=
  if negb (model_can_be_flagged cfg content_type)
  then Raise (ModelCannotBeFlaggedException "This model cannot be flagged")
  else Return tt.

(** [FlaggedContent.save]: the model check, then the inherited save.
    [F_count] is as in [Model_save_FlaggedContent]. *)
Definition FlaggedContent_save (cfg : Settings) (self : FlaggedContent.t)
  (F_count : option (Z -> Z)) : M FlaggedContent.t :=
  lift (assert_model_can_be_flagged cfg (content_object cfg self)) ;;;
  Model_save_FlaggedContent self F_count.

Definition get_or_create_for_object (cfg : Settings)
  (content_object : ContentObject) (content_creator : option User)
  (status : option Z) : M (FlaggedContent.t * bool) :=
  found <- read (fun st =>
                   find (for_object (co_content_type content_object)
                                    (co_id content_object))
                        (flagged_contents st)) ;;
  match found with
  | Some flagged_content => ret (flagged_content, false)
  | None =>
      let obj :=
        FlaggedContent.mk None (co_content_type content_object)
          (co_id content_object) content_creator
          (match status with Some s => s | None => 1 end) None 0 in
      flagged_content <- FlaggedContent_save cfg obj None ;;
      ret (flagged_content, true)
  end.

(** ** [FlaggedContent] *)

Definition content_settings (cfg : Settings) (self : FlaggedContent.t)
  : ModelSettings :=
  get_for_model cfg (content_object cfg self).

Definition int_of (v : option Z) : Z :=
  match v with
  | Some z => z
  | None => 0
  end.

(** [self.flag_instances.filter(user=user, status=1).count()]. *)
Definition by_user (p : nat) (user : User) (r : FlagInstance.row) : bool :=
  Nat.eqb (FlagInstance.flagged_content_id r) p
  && (FlagInstance.row_user r =? user)
  && (FlagInstance.row_status r =? 1).

Definition count_flags_by_user (self : FlaggedContent.t) (user : User)
  (st : Store) : Z :=
  match FlaggedContent.id self with
  | Some p => Z.of_nat (length (filter (by_user p user) (flag_instances st)))
  | None => 0
  end.

Definition can_be_flagged (cfg : Settings) (self : FlaggedContent.t) : bool :=
  let limit := LIMIT_FOR_OBJECT (content_settings cfg self) in
  if negb (truthy limit) then true
  else FlaggedContent.count self <? int_of limit.

Definition assert_can_be_flagged (cfg : Settings) (self : FlaggedContent.t)
  : Result unit :=
  if negb (can_be_flagged cfg self)
  then Raise (ContentFlaggedEnoughException "Flag limit raised")
  else Return tt.

Definition can_be_flagged_by_user (cfg : Settings) (self : FlaggedContent.t)
  (user : User) (st : Store) : bool :=
  if negb (can_be_flagged cfg self) then false
  else
    let limit := LIMIT_SAME_OBJECT_FOR_USER (content_settings cfg self) in
    if negb (truthy limit) then true
    else count_flags_by_user self user st <? int_of limit.

(** [%(count)d]. *)
Definition format_d (n : Z) : string := NilZero.string_of_int (Z.to_int n).

(** [ungettext] without a translation catalogue: the singular for 1, the
    plural for every other number. *)
Definition ungettext (singular plural : string) (n : Z) : string :=
  if n =? 1 then singular else plural.

(** The message of [ContentAlreadyFlaggedByUserException]: the chosen form
    with [%(count)d] filled in; only the plural form has the placeholder. *)
Definition already_flagged_message (count : Z) : string :=
  ungettext "You already flagged this"
            ("You already flagged this " ++ format_d count ++ " times")%string
            count.

Definition assert_can_be_flagged_by_user (cfg : Settings)
  (self : FlaggedContent.t) (user : User) (st : Store) : Result unit :=
  match assert_can_be_flagged cfg self with
  | Raise e => Raise e
  | Return _ =>
      let limit := LIMIT_SAME_OBJECT_FOR_USER (content_settings cfg self) in
      if negb (truthy limit) then Return tt
      else
        let count := count_flags_by_user self user st in
        if count >=? int_of limit
        then Raise (ContentAlreadyFlaggedByUserException
                      (already_flagged_message count))
        else Return tt
  end.

(** The loop over [SEND_MAILS_RULES] in [flag_added]: it keeps the rule it
    passed last and stops at the first rule the count has not reached. *)
Fixpoint walk_rules (count : Z) (rules : list (Z * Z)) (current : Z * Z)
  : Z * Z :=
  match rules with
  | [] => current
  | (min_count, step) :: rest =>
      if count >=? min_count then walk_rules count rest (min_count, step)
      else current
  end.

(** The value of [really_send_mails] once [flag_added] has run both the
    limit test and the rules. *)
Definition really_send_mails (settings : ModelSettings) (count : Z) : bool :=
  let limit := LIMIT_FOR_OBJECT settings in
  if truthy limit && (count >=? int_of limit) then true
  else
    let '(current_min_count, current_step) :=
      walk_rules count (SEND_MAILS_RULES settings) (0, 0) in
    negb (current_step =? 0)
    && ((count - current_min_count) mod current_step =? 0).

(** ** [FlagInstance.send_mails] *)

Definition recipient_address (recipient : Recipient) : string :=
  match recipient with
  | Address a => a
  | NamedAddress _ a => a
  end.

Definition FlagInstance_send_mails (cfg : Settings) (self : FlagInstance.t)
  : M unit :=
  let flagged_content := FlagInstance.flagged_content self in
  let recipients := SEND_MAILS_TO (content_settings cfg flagged_content) in
  if negb (SEND_MAILS (content_settings cfg flagged_content)
           && negb (Nat.eqb (length recipients) 0))
  then ret tt
  else
    match content_object cfg flagged_content with
    | None => raise AttributeError
    | Some _ =>
        emit (send_mail (SEND_MAILS_FROM (content_settings cfg flagged_content))
                        (map recipient_address recipients) self)
    end.

(** ** [FlaggedContent.flag_added]

    [flag_instance] is the flag whose [flagged_content] is [self] (the one
    call is [self.flagged_content.flag_added(self, ...)]), so the flag that
    goes into the signal and the mail sees the reloaded count. *)
Definition flag_added (cfg : Settings) (self : FlaggedContent.t)
  (flag_instance : FlagInstance.t) (send_signal send_mails : bool)
  : M FlaggedContent.t :=
  self <- (if FlaggedContent.status self =? 1
           then
             FlaggedContent_save cfg self (Some (fun count => count + 1)) ;;;
             new_self <- FlaggedContent_objects_get (FlaggedContent.id self) ;;
             ret (FlaggedContent.set_count self
                    (FlaggedContent.count new_self))
           else ret self) ;;
  let flag_instance := FlagInstance.set_flagged_content flag_instance self in
  (if send_signal then emit (content_flagged self flag_instance)
   else ret tt) ;;;
  (if send_mails && SEND_MAILS (content_settings cfg self)
   then
     if really_send_mails (content_settings cfg self)
                          (FlaggedContent.count self)
     then FlagInstance_send_mails cfg flag_instance
     else ret tt
   else ret tt) ;;;
  ret self.

(** ** [FlagInstance.save] *)

Definition check_comment (cfg : Settings) (self : FlagInstance.t)
  : Result unit :=
  let allow_comments :=
    ALLOW_COMMENTS (content_settings cfg (FlagInstance.flagged_content self)) in
  if allow_comments && negb (truthy_str (FlagInstance.comment self))
  then Raise (FlagCommentException "You must add a comment")
  else if negb allow_comments && truthy_str (FlagInstance.comment self)
  then Raise (FlagCommentException "You are not allowed to add a comment")
  else Return tt.

Definition FlagInstance_save (cfg : Settings) (self : FlagInstance.t)
  (send_signal send_mails : bool) : M FlagInstance.t :=
  let is_new := negb (truthy_id (FlagInstance.id self)) in
  (if is_new && (FlagInstance.status self =? 1)
   then fun st =>
          lift (assert_can_be_flagged_by_user cfg
                  (FlagInstance.flagged_content self)
                  (FlagInstance.user self) st) st
   else ret tt) ;;;
  (if is_new then lift (check_comment cfg self) else ret tt) ;;;
  self <- Model_save_FlagInstance self ;;
  if is_new
  then
    flagged_content <-
      flag_added cfg (FlagInstance.flagged_content self) self
                 send_signal send_mails ;;
    ret (FlagInstance.set_flagged_content self flagged_content)
  else ret self.

(** ** [FlagInstanceManager.add] and [add_flag] *)

Definition add (cfg : Settings) (user : User) (content_object : ContentObject)
  (content_creator : option User) (comment : option string)
  (status : option Z) (send_signal send_mails : bool) : M FlagInstance.t :=
  got <- get_or_create_for_object cfg content_object content_creator status ;;
  let flagged_content := fst got in
  flagged_content <-
    (if truthy status
     then
       let flagged_content :=
         FlaggedContent.set_status flagged_content (int_of status) in
       match STATUSES cfg with
       | [] => raise IndexError
       | (default, _) :: _ =>
           if negb (int_of status =? default)
           then ret (FlaggedContent.set_moderator flagged_content (Some user))
           else ret flagged_content
       end
     else ret flagged_content) ;;
  flagged_content <- FlaggedContent_save cfg flagged_content None ;;
  let flag_status :=
    if truthy status then int_of status
    else FlaggedContent.status flagged_content in
  FlagInstance_save cfg
    (FlagInstance.mk None flagged_content user comment flag_status)
    send_signal send_mails.

(** [content_type.get_object_for_this_type(id=object_id)], then [add]; the
    signal and the mails are on by default. *)
Definition add_flag (cfg : Settings) (flagger : User)
  (content_type : ContentType) (object_id : Z)
  (content_creator : option User) (comment : option string)
  (status : option Z) (send_signal send_mails : bool) : M FlagInstance.t :=
  if object_exists cfg content_type object_id
  then add cfg flagger (mkContentObject content_type object_id)
           content_creator comment status send_signal send_mails
  else raise DoesNotExist.

(** ** The lookups of [FlaggedContentManager], and [get_status_display] *)

(** The two ways a [Manager.get] can fail. *)
Inductive QueryError :=
| ObjectDoesNotExist
| MultipleObjectsReturned.

(** [Manager.get]: the one row that matches; none or several is an error. *)
Definition Manager_get (matches : FlaggedContent.t -> bool)
  (rows : list FlaggedContent.t) : FlaggedContent.t + QueryError :=
  match filter matches rows with
  | [r] => inl r
  | [] => inr ObjectDoesNotExist
  | _ :: _ :: _ => inr MultipleObjectsReturned
  end.

Definition get_for_object (content_object : ContentObject) (st : Store)
  : FlaggedContent.t + QueryError :=
  Manager_get (for_object (co_content_type content_object)
                          (co_id content_object))
              (flagged_contents st).

(** [Meta.ordering = ('-id',)]: a queryset comes out by descending key. *)
Definition pk_of (r : FlaggedContent.t) : nat :=
  match FlaggedContent.id r with
  | Some i => i
  | None => 0%nat
  end.

Fixpoint insert_by_id (r : FlaggedContent.t) (l : list FlaggedContent.t)
  : list FlaggedContent.t :=
  match l with
  | [] => [r]
  | x :: rest =>
      if Nat.leb (pk_of x) (pk_of r) then r :: l
      else x :: insert_by_id r rest
  end.

Definition order_by_id_desc (rows : list FlaggedContent.t)
  : list FlaggedContent.t :=
  fold_right insert_by_id [] rows.

(** What [filter_for_model] returns: the aggregates, or with
    [only_object_ids] their [object_id]s. *)
Inductive QuerySet :=
| Aggregates (rows : list FlaggedContent.t)
| ObjectIds (ids : list Z).

(** [filter_for_model]; [None] when [get_content_type_tuple] raises. *)
Definition filter_for_model (model : option ContentObject)
  (only_object_ids : bool) (st : Store) : option QuerySet :=
  match get_content_type_tuple model with
  | None => None
  | Some content_type =>
      let queryset :=
        order_by_id_desc
          (filter (fun r => content_type_eqb (FlaggedContent.content_type r)
                                             content_type)
                  (flagged_contents st)) in
      if only_object_ids
      then Some (ObjectIds (map FlaggedContent.object_id queryset))
      else Some (Aggregates queryset)
  end.

(** [dict(pairs)[key]]: the value of the last pair with that key; [None]
    stands for the [KeyError]. *)
Definition dict_get (pairs : list (Z * string)) (key : Z) : option string :=
  fold_left (fun found pair =>
               if fst pair =? key then Some (snd pair) else found)
            pairs None.

(** [get_status_display]; [statuses] is the value of the setting
    [STATUSES] resolved for the content object. *)
Definition get_status_display (statuses : list (Z * string))
  (self : FlaggedContent.t) : option string :=
  dict_get statuses (FlaggedContent.status self).

(** * Definitions for the properties *)

(** ** Parts of the methods, taken on their own *)

(** The first part of [flag_added]: the increment and the reload. *)
Definition count_step (cfg : Settings) (self : FlaggedContent.t)
  : M FlaggedContent.t :=
  if FlaggedContent.status self =? 1
  then
    FlaggedContent_save cfg self (Some (fun count => count + 1)) ;;;
    new_self <- FlaggedContent_objects_get (FlaggedContent.id self) ;;
    ret (FlaggedContent.set_count self (FlaggedContent.count new_self))
  else ret self.

(** The second part: the signal and the mails, for the reloaded [self]. *)
Definition notify_step (cfg : Settings) (self : FlaggedContent.t)
  (flag_instance : FlagInstance.t) (send_signal send_mails : bool)
  : M FlaggedContent.t :=
  let flag_instance := FlagInstance.set_flagged_content flag_instance self in
  (if send_signal then emit (content_flagged self flag_instance)
   else ret tt) ;;;
  (if send_mails && SEND_MAILS (content_settings cfg self)
   then
     if really_send_mails (content_settings cfg self)
                          (FlaggedContent.count self)
     then FlagInstance_send_mails cfg flag_instance
     else ret tt
   else ret tt) ;;;
  ret self.

(** What [FlagInstance.save] does to a new flag once the limits are behind
    it: the comment check, the insert, the call of [flag_added]. *)
Definition save_new (cfg : Settings) (self : FlagInstance.t)
  (send_signal send_mails : bool) : M FlagInstance.t :=
  lift (check_comment cfg self) ;;;
  self <- Model_save_FlagInstance self ;;
  flagged_content <-
    flag_added cfg (FlagInstance.flagged_content self) self
               send_signal send_mails ;;
  ret (FlagInstance.set_flagged_content self flagged_content).

(** Rewriting the rows of key [p], as both updates of the ORM do. *)
Definition rewrite_pk (p : nat) (g : FlaggedContent.t -> FlaggedContent.t)
  (rows : list FlaggedContent.t) : list FlaggedContent.t :=
  map (fun r => if has_pk p r then g r else r) rows.

(** The update [count = count + 1] on the rows of key [p]; every other
    column is written from [self]. *)
Definition bump (self : FlaggedContent.t) (p : nat)
  (rows : list FlaggedContent.t) : list FlaggedContent.t :=
  map (fun r => if has_pk p r
                then FlaggedContent.set_count self (FlaggedContent.count r + 1)
                else r) rows.

(** The signal [flag_added] sends, if asked for. *)
Definition signal_of (send_signal : bool) (self : FlaggedContent.t)
  (flag : FlagInstance.t) : list Effect :=
  if send_signal then [content_flagged self flag] else [].

(** The mail that [send_mails] hands to the mail transport, if any. *)
Definition mail_of (cfg : Settings) (flag : FlagInstance.t) : list Effect :=
  let s := content_settings cfg (FlagInstance.flagged_content flag) in
  if SEND_MAILS s && negb (Nat.eqb (length (SEND_MAILS_TO s)) 0)
  then [send_mail (SEND_MAILS_FROM s)
                  (map recipient_address (SEND_MAILS_TO s)) flag]
  else [].

(** Whether a result is a return. *)
Definition returns {A} (r : Result A) : bool :=
  match r with
  | Return _ => true
  | Raise _ => false
  end.

(** The exceptions of the two limits. *)
Definition limit_error (e : Exception) : bool :=
  match e with
  | ContentFlaggedEnoughException _
  | ContentAlreadyFlaggedByUserException _ => true
  | _ => false
  end.

(** The exception of the comment policy. *)
Definition comment_error (e : Exception) : bool :=
  match e with
  | FlagCommentException _ => true
  | _ => false
  end.

(** ** The mail rules *)

(** The rules the loop of [flag_added] passes before it stops: the initial
    run of rules whose [min_count] the count has reached. *)
Fixpoint reached (count : Z) (rules : list (Z * Z)) : list (Z * Z) :=
  match rules with
  | [] => []
  | rule :: rest =>
      if fst rule <=? count then rule :: reached count rest else []
  end.

(** The selection as the specification words it: the last rule of the list
    whose [min_count <= count], wherever it stands in the list. *)
Definition spec_selected_rule (count : Z) (rules : list (Z * Z)) : Z * Z :=
  last (filter (fun rule => fst rule <=? count) rules) (0, 0).

(** The decision as the specification words it: the limit is set and
    reached, or the selected rule has a step that divides the distance of
    the count to its [min_count]. *)
Definition spec_mail_sent (settings : ModelSettings) (count : Z) : bool :=
  (truthy (LIMIT_FOR_OBJECT settings)
   && (count >=? int_of (LIMIT_FOR_OBJECT settings)))
  || (let '(min_count, step) :=
        spec_selected_rule count (SEND_MAILS_RULES settings) in
      negb (step =? 0) && ((count - min_count) mod step =? 0)).

(** Rules listed by ascending [min_count]. *)
Definition ascending (rules : list (Z * Z)) : Prop :=
  StronglySorted (fun a b => fst a <= fst b) rules.

(** ** The flags of a user, and what a message names *)

(** The flags of status 1 that [user] has put on the aggregate of key [p],
    counted row by row over the flag table. *)
Fixpoint spec_user_flags (p : nat) (user : User)
  (rows : list FlagInstance.row) : Z :=
  match rows with
  | [] => 0
  | row :: rest =>
      (if Nat.eqb (FlagInstance.flagged_content_id row) p
          && (FlagInstance.row_user row =? user)
          && (FlagInstance.row_status row =? 1)
       then 1 else 0)
      + spec_user_flags p user rest
  end.

(** The same for an aggregate: one that has no key yet has no flags. *)
Definition spec_flags_of_user (self : FlaggedContent.t) (user : User)
  (st : Store) : Z :=
  match FlaggedContent.id self with
  | Some p => spec_user_flags p user (flag_instances st)
  | None => 0
  end.

(** The message has the number [n], as [%d] writes it, somewhere in it. *)
Definition mentions (n : Z) (message : string) : bool :=
  match index 0 (format_d n) message with
  | Some _ => true
  | None => false
  end.

(** ** Limits of zero *)

Definition drop_zero (v : option Z) : option Z :=
  if truthy v then v else None.

(** The same settings with every limit of [0] replaced by [None]. *)
Definition without_zero_limits (cfg : Settings) : Settings :=
  mkSettings (MODELS cfg) (STATUSES cfg)
    (fun o =>
       let s := get_for_model cfg o in
       mkModelSettings (drop_zero (LIMIT_FOR_OBJECT s))
         (drop_zero (LIMIT_SAME_OBJECT_FOR_USER s)) (ALLOW_COMMENTS s)
         (SEND_MAILS s) (SEND_MAILS_TO s) (SEND_MAILS_FROM s)
         (SEND_MAILS_RULES s))
    (object_exists cfg).

(** ** The count of an aggregate and the flags it counts *)

(** A flag row of status 1 under the aggregate of key [p]. *)
Definition is_flag_of (p : nat) (r : FlagInstance.row) : bool :=
  Nat.eqb (FlagInstance.flagged_content_id r) p
  && (FlagInstance.row_status r =? 1).

Definition flags_of (p : nat) (rows : list FlagInstance.row) : Z :=
  Z.of_nat (length (filter (is_flag_of p) rows)).

(** The [count] column of the aggregate of key [p]; 0 before it exists. *)
Definition stored_count (p : nat) (st : Store) : Z :=
  match find (has_pk p) (flagged_contents st) with
  | Some r => FlaggedContent.count r
  | None => 0
  end.

(** What one more flag row adds to the number of status-1 flags of [p]. *)
Definition one_more (row : FlagInstance.row) (p : nat) : Z :=
  if is_flag_of p row then 1 else 0.

Definition counts_agree (st : Store) : Prop :=
  forall r, In r (flagged_contents st) ->
    exists p, FlaggedContent.id r = Some p
              /\ FlaggedContent.count r = flags_of p (flag_instances st).

Definition flags_have_parent (st : Store) : Prop :=
  forall row, In row (flag_instances st) ->
    existsb (has_pk (FlagInstance.flagged_content_id row))
            (flagged_contents st) = true.

Definition consistent (st : Store) : Prop :=
  counts_agree st /\ flags_have_parent st.

(** No aggregate goes away from [st] to [st']. *)
Definition grows (st st' : Store) : Prop :=
  forall q, existsb (has_pk q) (flagged_contents st) = true ->
            existsb (has_pk q) (flagged_contents st') = true.

(** The stores that calls of [add] build from the empty store, whether the
    calls return or raise. *)
Inductive reachable : Store -> Prop :=
| reachable_empty : reachable empty_store
| reachable_add cfg user object creator comment status send_signal
                send_mails st :
    reachable st ->
    reachable (snd (add cfg user object creator comment status send_signal
                        send_mails st)).

(** ** The course of [add] *)

(** The assignment of [status] and [moderator] in [add]. *)
Definition add_status (cfg : Settings) (user : User) (status : option Z)
  (flagged_content : FlaggedContent.t) : Result FlaggedContent.t :=
  if truthy status
  then
    match STATUSES cfg with
    | [] => Raise IndexError
    | (default, _) :: _ =>
        Return
          (if negb (int_of status =? default)
           then FlaggedContent.set_moderator
                  (FlaggedContent.set_status flagged_content (int_of status))
                  (Some user)
           else FlaggedContent.set_status flagged_content (int_of status))
    end
  else Return flagged_content.

(** The aggregate [get_or_create_for_object] inserts when there is none. *)
Definition new_aggregate (object : ContentObject) (creator : option User)
  (status : option Z) (rows : list FlaggedContent.t) : FlaggedContent.t :=
  FlaggedContent.mk (Some (next_id (FlaggedContent_ids rows)))
    (co_content_type object) (co_id object) creator
    (match status with Some s => s | None => 1 end) None 0.

(** The aggregate as [flag_added] leaves it. *)
Definition final_aggregate (fc : FlaggedContent.t) : FlaggedContent.t :=
  if FlaggedContent.status fc =? 1
  then FlaggedContent.set_count fc (FlaggedContent.count fc + 1)
  else fc.

(** What the generic foreign key of an aggregate of [object] resolves to. *)
Definition content_object_of (cfg : Settings) (object : ContentObject)
  : option ContentObject :=
  if object_exists cfg (co_content_type object) (co_id object)
  then Some object else None.

(** [get_or_create_for_object] has returned [fc], and the aggregate table
    is [rows1]. *)
Definition aggregate_of (cfg : Settings) (object : ContentObject)
  (creator : option User) (status : option Z) (st : Store)
  (fc : FlaggedContent.t) (rows1 : list FlaggedContent.t) : Prop :=
  (find (for_object (co_content_type object) (co_id object))
        (flagged_contents st) = Some fc
   /\ rows1 = flagged_contents st)
  \/ (find (for_object (co_content_type object) (co_id object))
           (flagged_contents st) = None
      /\ model_can_be_flagged cfg (content_object_of cfg object) = true
      /\ fc = new_aggregate object creator status (flagged_contents st)
      /\ rows1 = fc :: flagged_contents st).

(** [add] stops between [get_or_create_for_object] and the save of the
    flag. *)
Definition stopped_by (cfg : Settings) (user : User)
  (object : ContentObject) (status : option Z) (fc : FlaggedContent.t)
  (rows1 : list FlaggedContent.t) (e : Exception) : Prop :=
  (add_status cfg user status fc = Raise e /\ e = IndexError)
  \/ (exists fc2,
        add_status cfg user status fc = Return fc2
        /\ ((model_can_be_flagged cfg (content_object_of cfg object) = false
             /\ e = ModelCannotBeFlaggedException
                      "This model cannot be flagged")
            \/ (model_can_be_flagged cfg (content_object_of cfg object) = true
                /\ unique_together fc2 rows1 = false
                /\ e = IntegrityError))).

(** [add] has saved the aggregate as [fc2], under the key [p]. *)
Definition saved_as (cfg : Settings) (user : User) (object : ContentObject)
  (status : option Z) (fc : FlaggedContent.t)
  (rows1 : list FlaggedContent.t) (fc2 : FlaggedContent.t) (p : nat) : Prop :=
  add_status cfg user status fc = Return fc2
  /\ FlaggedContent.id fc = Some p
  /\ model_can_be_flagged cfg (content_object_of cfg object) = true
  /\ unique_together fc2 rows1 = true.

(** The ways [add] ends on a store whose aggregates all have a key. *)
Inductive add_outcome (cfg : Settings) (user : User) (object : ContentObject)
  (creator : option User) (comment : option string) (status : option Z)
  (send_signal send_mails : bool) (st : Store)
  : Result FlagInstance.t -> Store -> Prop :=
| add_not_flaggable :
    find (for_object (co_content_type object) (co_id object))
         (flagged_contents st) = None ->
    model_can_be_flagged cfg (content_object_of cfg object) = false ->
    add_outcome cfg user object creator comment status send_signal send_mails
      st (Raise (ModelCannotBeFlaggedException "This model cannot be flagged"))
      st
| add_stopped fc rows1 e :
    aggregate_of cfg object creator status st fc rows1 ->
    stopped_by cfg user object status fc rows1 e ->
    add_outcome cfg user object creator comment status send_signal send_mails
      st (Raise e) (with_flagged_contents st rows1)
| add_refused fc rows1 fc2 p e :
    aggregate_of cfg object creator status st fc rows1 ->
    saved_as cfg user object status fc rows1 fc2 p ->
    let st3 :=
      with_flagged_contents st (rewrite_pk p (fun _ => fc2) rows1) in
    (FlaggedContent.status fc2 = 1
     /\ assert_can_be_flagged_by_user cfg fc2 user st3 = Raise e)
    \/ ((FlaggedContent.status fc2 = 1 ->
         assert_can_be_flagged_by_user cfg fc2 user st3 = Return tt)
        /\ check_comment cfg
             (FlagInstance.mk None fc2 user comment
                (FlaggedContent.status fc2)) = Raise e) ->
    add_outcome cfg user object creator comment status send_signal send_mails
      st (Raise e) st3
| add_inserted fc rows1 fc2 p r sent :
    aggregate_of cfg object creator status st fc rows1 ->
    saved_as cfg user object status fc rows1 fc2 p ->
    let st3 :=
      with_flagged_contents st (rewrite_pk p (fun _ => fc2) rows1) in
    let i := next_id (map FlagInstance.row_id (flag_instances st)) in
    let final := final_aggregate fc2 in
    let flag :=
      FlagInstance.mk (Some i) final user comment
        (FlaggedContent.status fc2) in
    (FlaggedContent.status fc2 = 1 ->
     assert_can_be_flagged_by_user cfg fc2 user st3 = Return tt) ->
    check_comment cfg
      (FlagInstance.mk None fc2 user comment (FlaggedContent.status fc2))
    = Return tt ->
    (r = Return flag
     /\ sent = signal_of send_signal final flag
               ++ (if send_mails
                      && really_send_mails (content_settings cfg final)
                                           (FlaggedContent.count final)
                   then mail_of cfg flag else []))
    \/ (r = Raise AttributeError
        /\ sent = signal_of send_signal final flag
        /\ content_object_of cfg object = None) ->
    add_outcome cfg user object creator comment status send_signal send_mails
      st r
      (mkStore (rewrite_pk p (fun _ => final) rows1)
               (FlagInstance.mk_row i p user comment
                  (FlaggedContent.status fc2)
                :: flag_instances st)
               (outbox st ++ sent)).

(** ** Keys *)

(** The pair [unique_together] is about. *)
Definition key_of (r : FlaggedContent.t) : ContentType * Z :=
  (FlaggedContent.content_type r, FlaggedContent.object_id r).

(** No two aggregates share a key or an object, no two flags share a key. *)
Definition well_keyed (st : Store) : Prop :=
  NoDup (map FlaggedContent.id (flagged_contents st))
  /\ NoDup (map key_of (flagged_contents st))
  /\ NoDup (map FlagInstance.row_id (flag_instances st)).

(** The stores that calls of [add] build under settings that stay the
    same. *)
Inductive reachable_with (cfg : Settings) : Store -> Prop :=
| reachable_with_empty : reachable_with cfg empty_store
| reachable_with_add user object creator comment status send_signal
                     send_mails st :
    reachable_with cfg st ->
    reachable_with cfg
      (snd (add cfg user object creator comment status send_signal
                send_mails st)).

(** ** Limits and models, row by row *)

(** The model of the aggregate can be flagged. *)
Definition flaggable (cfg : Settings) (r : FlaggedContent.t) : Prop :=
  model_can_be_flagged cfg (content_object cfg r) = true.

(** The count of the aggregate, and the number of status-1 flags of each
    user on it, are within the limits set for its object. *)
Definition within_limits (cfg : Settings) (st : Store)
  (r : FlaggedContent.t) : Prop :=
  (truthy (LIMIT_FOR_OBJECT (content_settings cfg r)) = true ->
   FlaggedContent.count r
   <= Z.max 0 (int_of (LIMIT_FOR_OBJECT (content_settings cfg r))))
  /\ (forall user,
        truthy (LIMIT_SAME_OBJECT_FOR_USER (content_settings cfg r)) = true ->
        count_flags_by_user r user st
        <= Z.max 0 (int_of (LIMIT_SAME_OBJECT_FOR_USER
                              (content_settings cfg r)))).

Definition rows_ok (cfg : Settings) (st : Store) : Prop :=
  forall r, In r (flagged_contents st) ->
            flaggable cfg r /\ within_limits cfg st r.

(** ** The conditions under which [add] takes a flag *)

(** The aggregate of [object] before the call, if there is one. *)
Definition aggregate_before (object : ContentObject) (st : Store)
  : option FlaggedContent.t :=
  find (for_object (co_content_type object) (co_id object))
       (flagged_contents st).

(** The status the aggregate has when the flag is made: the status given
    if it is true, else the status of the aggregate, which for a new
    aggregate is the status given (a [0]) or the default 1. *)
Definition status_for (status : option Z) (before : option FlaggedContent.t)
  : Z :=
  if truthy status then int_of status
  else match before with
       | Some fc => FlaggedContent.status fc
       | None => match status with Some s => s | None => 1 end
       end.

Definition count_before (before : option FlaggedContent.t) : Z :=
  match before with
  | Some fc => FlaggedContent.count fc
  | None => 0
  end.

Definition user_count_before (before : option FlaggedContent.t)
  (user : User) (st : Store) : Z :=
  match before with
  | Some fc => count_flags_by_user fc user st
  | None => 0
  end.

(** A limit is not set, or the number is below it. *)
Definition below (limit : option Z) (n : Z) : bool :=
  negb (truthy limit) || (n <? int_of limit).

(** Everything [add] checks before it stores a flag. *)
Definition accepts (cfg : Settings) (user : User) (object : ContentObject)
  (comment : option string) (status : option Z) (st : Store) : bool :=
  let settings := get_for_model cfg (content_object_of cfg object) in
  let before := aggregate_before object st in
  model_can_be_flagged cfg (content_object_of cfg object)
  && (negb (truthy status)
      || negb (Nat.eqb (length (STATUSES cfg)) 0))
  && (negb (status_for status before =? 1)
      || (below (LIMIT_FOR_OBJECT settings) (count_before before)
          && below (LIMIT_SAME_OBJECT_FOR_USER settings)
                   (user_count_before before user st)))
  && Bool.eqb (ALLOW_COMMENTS settings) (truthy_str comment).

(** ** Sample values *)

(** Every model can be flagged, comments are not allowed, mails go to one
    admin under the rules [(5,1); (10,5)]; the two limits are given. *)
Definition cfg_demo (limit limit_user : option Z) : Settings :=
  mkSettings None [(1, "flagged")]
    (fun _ => mkModelSettings limit limit_user false true
                [NamedAddress "admin" "admin@example.com"]
                "flag@example.com" [(5, 1); (10, 5)])
    (fun _ _ => true).

(** No limit, and the two rules in descending order. *)
Definition cfg_descending : Settings :=
  mkSettings None [(1, "flagged")]
    (fun _ => mkModelSettings None None false true
                [Address "admin@example.com"] "flag@example.com"
                [(10, 5); (5, 1)])
    (fun _ _ => true).

(** Only [auth.user] can be flagged. *)
Definition cfg_closed : Settings :=
  mkSettings (Some ["auth.user"]) [(1, "flagged")]
    (get_for_model (cfg_demo None None)) (fun _ _ => true).

Definition post_demo : ContentObject := mkContentObject ("blog", "post") 7.

(** The stored aggregate of [post_demo], with a given count. *)
Definition fc_demo (count : Z) : FlaggedContent.t :=
  FlaggedContent.mk (Some 1%nat) ("blog", "post") 7 None 1 None count.

Definition st_demo (count : Z) : Store := mkStore [fc_demo count] [] [].

(** A flag of user 1 with a key, and a flag of user 2 without one. *)
Definition flag_demo (count : Z) : FlagInstance.t :=
  FlagInstance.mk (Some 1%nat) (fc_demo count) 1 None 1.

Definition new_flag_demo (count : Z) (comment : option string) (status : Z)
  : FlagInstance.t :=
  FlagInstance.mk None (fc_demo count) 2 comment status.

(** The store after users 1, 2 and 3 have tried to flag [post_demo] under
    a limit of 2 flags for an object and 1 flag of a user on an object. *)
Definition after_three_attempts : Store :=
  let cfg := cfg_demo (Some 2) (Some 1) in
  snd (add cfg 3 post_demo None None None false false
         (snd (add cfg 2 post_demo None None None false false
                 (snd (add cfg 1 post_demo None None None false false
                         empty_store))))).

(** The store after user 1 has flagged [post_demo] twice. *)
Definition after_two_flags : Store :=
  let cfg := cfg_demo None (Some 2) in
  snd (add cfg 1 post_demo None None None false false
         (snd (add cfg 1 post_demo None None None false false empty_store))).

(** A user, who can be flagged under [cfg_closed], and a second post. *)
Definition user_demo : ContentObject := mkContentObject ("auth", "user") 3.

Definition post_other : ContentObject := mkContentObject ("blog", "post") 8.

(** The store after, under [cfg_closed], user 1 has tried to flag
    [post_demo] and has flagged [user_demo]. *)
Definition after_closed : Store :=
  snd (add cfg_closed 1 user_demo None None None false false
         (snd (add cfg_closed 1 post_demo None None None false false
                 empty_store))).

(** The store after user 1 has flagged [post_demo], [user_demo] and
    [post_other]. *)
Definition after_three_objects : Store :=
  let cfg := cfg_demo None None in
  snd (add cfg 1 post_other None None None false false
         (snd (add cfg 1 user_demo None None None false false
                 (snd (add cfg 1 post_demo None None None false false
                         empty_store))))).

(** On [after_three_attempts]: a moderator, user 3, gives [post_demo] the
    status 2; user 3 flags [post_demo], which has reached its limit; user 1
    flags [user_demo] with a comment, which is not allowed. *)
Definition moderation_demo : Result FlagInstance.t * Store :=
  add (cfg_demo (Some 2) (Some 1)) 3 post_demo None None (Some 2) true true
      after_three_attempts.

Definition moderation_flag_demo : FlagInstance.t :=
  match fst moderation_demo with
  | Return flag => flag
  | Raise _ => flag_demo 0
  end.

Definition one_too_many_demo : Result FlagInstance.t * Store :=
  add (cfg_demo (Some 2) (Some 1)) 3 post_demo None None None true true
      after_three_attempts.

Definition unwanted_comment_demo : Result FlagInstance.t * Store :=
  add (cfg_demo (Some 2) (Some 1)) 1 user_demo (Some 9) (Some "spam") None
      true true after_three_attempts.

Definition statuses_demo : list (Z * string) :=
  [(1, "flagged"); (2, "moderated"); (1, "flagged again")].

(** User 1 has flagged [post_demo] once. *)
Definition after_one_flag : Store :=
  snd (add (cfg_demo None (Some 1)) 1 post_demo None None None false false
         empty_store).

(** Two statuses; the rest as in [cfg_demo None None]. *)
Definition cfg_statuses : Settings :=
  mkSettings None [(1, "flagged"); (2, "moderated")]
    (get_for_model (cfg_demo None None)) (fun _ _ => true).

(** Users 1 to 5 have flagged [post_demo]; no signal, no mail. *)
Definition after_five_flags : Store :=
  fold_right
    (fun user st =>
       snd (add cfg_statuses user post_demo None None None false false st))
    empty_store [5; 4; 3; 2; 1].

(** User 9, a moderator, gives [post_demo] the status 2 through [add] and
    asks for the signal and the mails. *)
Definition status_update_demo : Result FlagInstance.t * Store :=
  add cfg_statuses 9 post_demo None None (Some 2) true true after_five_flags.

Definition status_update_flag_demo : FlagInstance.t :=
  match fst status_update_demo with
  | Return flag => flag
  | Raise _ => flag_demo 0
  end.

(** * Properties *)

(** ** The limits *)

Lemma truthy_false (v : option Z) :
  truthy v = false <-> v = None \/ v = Some 0.
Proof.
  destruct v as [z|]; simpl.
  - rewrite negb_false_iff, Z.eqb_eq. split.
    + intros ->. now right.
    + intros [H|H]; [discriminate | now injection H].
  - split; auto.
Qed.

Lemma content_settings_set_count cfg self c :
  content_settings cfg (FlaggedContent.set_count self c)
  = content_settings cfg self.
Proof. reflexivity. Qed.

(** C8.  [can_be_flagged] is true when no per-object limit is configured,
    and otherwise exactly when [count < limit].  "No limit" is what the
    method tests with [not limit]: the setting is [None] or [0].  With no
    limit the answer is true for every count. *)
Theorem can_be_flagged_spec (cfg : Settings) (self : FlaggedContent.t) :
  can_be_flagged cfg self
  = match LIMIT_FOR_OBJECT (content_settings cfg self) with
    | None => true
    | Some limit => (limit =? 0) || (FlaggedContent.count self <? limit)
    end
  /\ (truthy (LIMIT_FOR_OBJECT (content_settings cfg self)) = false ->
      forall count,
        can_be_flagged cfg (FlaggedContent.set_count self count) = true).
Proof.
  split.
  - unfold can_be_flagged.
    destruct (LIMIT_FOR_OBJECT (content_settings cfg self)) as [l|]; simpl.
    + now destruct (l =? 0).
    + reflexivity.
  - intros H c. unfold can_be_flagged.
    rewrite content_settings_set_count, H. reflexivity.
Qed.

Lemma can_be_flagged_spec_witness :
  truthy (LIMIT_FOR_OBJECT (content_settings (cfg_demo None None)
                                             (fc_demo 3))) = false
  /\ forall count,
       can_be_flagged (cfg_demo None None)
                      (FlaggedContent.set_count (fc_demo 3) count) = true.
Proof.
  split; [reflexivity|].
  apply (can_be_flagged_spec (cfg_demo None None) (fc_demo 3)).
  reflexivity.
Defined.

Lemma truthy_drop_zero v : truthy (drop_zero v) = truthy v.
Proof.
  unfold drop_zero. destruct (truthy v) eqn:E; [exact E | reflexivity].
Qed.

Lemma int_of_drop_zero v : truthy v = true -> int_of (drop_zero v) = int_of v.
Proof. unfold drop_zero. now intros ->. Qed.

Lemma can_be_flagged_without_zero cfg self :
  can_be_flagged (without_zero_limits cfg) self = can_be_flagged cfg self.
Proof.
  unfold can_be_flagged, content_settings, content_object. simpl.
  rewrite truthy_drop_zero.
  destruct (truthy (LIMIT_FOR_OBJECT _)) eqn:E; simpl; [|reflexivity].
  now rewrite int_of_drop_zero.
Qed.

(** C10.  A limit of [0] (any false value) is no limit.  With
    [LIMIT_FOR_OBJECT] false, [can_be_flagged] and its assertion succeed
    for every count; with [LIMIT_SAME_OBJECT_FOR_USER] false, the per-user
    test adds nothing to the per-object one; with both false all four
    succeed; and taking the zeros out of the settings changes no answer. *)
Theorem zero_limit_is_no_limit (cfg : Settings) (self : FlaggedContent.t)
  (user : User) (st : Store) :
  (truthy (LIMIT_FOR_OBJECT (content_settings cfg self)) = false ->
   can_be_flagged cfg self = true
   /\ assert_can_be_flagged cfg self = Return tt)
  /\ (truthy (LIMIT_SAME_OBJECT_FOR_USER (content_settings cfg self)) = false ->
      can_be_flagged_by_user cfg self user st = can_be_flagged cfg self
      /\ assert_can_be_flagged_by_user cfg self user st
         = assert_can_be_flagged cfg self)
  /\ (truthy (LIMIT_FOR_OBJECT (content_settings cfg self)) = false ->
      truthy (LIMIT_SAME_OBJECT_FOR_USER (content_settings cfg self)) = false ->
      can_be_flagged_by_user cfg self user st = true
      /\ assert_can_be_flagged_by_user cfg self user st = Return tt)
  /\ (can_be_flagged (without_zero_limits cfg) self = can_be_flagged cfg self
      /\ assert_can_be_flagged (without_zero_limits cfg) self
         = assert_can_be_flagged cfg self
      /\ can_be_flagged_by_user (without_zero_limits cfg) self user st
         = can_be_flagged_by_user cfg self user st
      /\ assert_can_be_flagged_by_user (without_zero_limits cfg) self user st
         = assert_can_be_flagged_by_user cfg self user st).
Proof.
  assert (A : truthy (LIMIT_FOR_OBJECT (content_settings cfg self)) = false ->
              can_be_flagged cfg self = true).
  { intros H. unfold can_be_flagged. now rewrite H. }
  assert (B : truthy (LIMIT_SAME_OBJECT_FOR_USER (content_settings cfg self))
              = false ->
              can_be_flagged_by_user cfg self user st = can_be_flagged cfg self
              /\ assert_can_be_flagged_by_user cfg self user st
                 = assert_can_be_flagged cfg self).
  { intros H. unfold can_be_flagged_by_user, assert_can_be_flagged_by_user.
    rewrite H. simpl. split.
    - now destruct (can_be_flagged cfg self).
    - destruct (assert_can_be_flagged cfg self) as [[]|e]; reflexivity. }
  repeat split.
  - now apply A.
  - unfold assert_can_be_flagged. rewrite (A H). reflexivity.
  - now apply B.
  - now apply B.
  - destruct (B H0) as [-> _]. now apply A.
  - destruct (B H0) as [_ ->]. unfold assert_can_be_flagged.
    rewrite (A H). reflexivity.
  - apply can_be_flagged_without_zero.
  - unfold assert_can_be_flagged. now rewrite can_be_flagged_without_zero.
  - unfold can_be_flagged_by_user. rewrite can_be_flagged_without_zero.
    unfold content_settings, content_object. simpl.
    rewrite truthy_drop_zero.
    destruct (truthy (LIMIT_SAME_OBJECT_FOR_USER _)) eqn:E; simpl;
      [|reflexivity].
    now rewrite int_of_drop_zero.
  - unfold assert_can_be_flagged_by_user, assert_can_be_flagged.
    rewrite can_be_flagged_without_zero.
    unfold content_settings, content_object. simpl.
    rewrite truthy_drop_zero.
    destruct (truthy (LIMIT_SAME_OBJECT_FOR_USER _)) eqn:E; simpl;
      [|reflexivity].
    now rewrite int_of_drop_zero.
Qed.

Lemma zero_limit_is_no_limit_witness :
  let cfg := cfg_demo (Some 0) (Some 0) in
  truthy (LIMIT_FOR_OBJECT (content_settings cfg (fc_demo 1000))) = false
  /\ truthy (LIMIT_SAME_OBJECT_FOR_USER (content_settings cfg (fc_demo 1000)))
     = false
  /\ can_be_flagged_by_user cfg (fc_demo 1000) 1 empty_store = true
  /\ assert_can_be_flagged_by_user cfg (fc_demo 1000) 1 empty_store
     = Return tt.
Proof.
  split; [reflexivity|]. split; [reflexivity|].
  apply (zero_limit_is_no_limit (cfg_demo (Some 0) (Some 0)) (fc_demo 1000)
           1 empty_store); reflexivity.
Defined.

(** ** [assert_can_be_flagged_by_user] *)

(** The plural form carries the count; the singular form, chosen for a
    count of 1, has no placeholder. *)
Lemma already_flagged_message_forms (count : Z) :
  already_flagged_message count
  = if count =? 1 then "You already flagged this"
    else ("You already flagged this " ++ format_d count ++ " times")%string.
Proof. reflexivity. Qed.

Lemma count_flags_by_user_spec (self : FlaggedContent.t) (user : User)
  (st : Store) :
  count_flags_by_user self user st = spec_flags_of_user self user st.
Proof.
  unfold count_flags_by_user, spec_flags_of_user.
  destruct (FlaggedContent.id self) as [p|]; [|reflexivity].
  induction (flag_instances st) as [|row rows IH]; [reflexivity|].
  simpl filter. simpl spec_user_flags. rewrite <- IH. unfold by_user.
  destruct (Nat.eqb (FlagInstance.flagged_content_id row) p
            && (FlagInstance.row_user row =? user)
            && (FlagInstance.row_status row =? 1)); simpl length; lia.
Qed.

Lemma substring_prefix (a b : string) :
  substring 0 (String.length a) (a ++ b) = a.
Proof.
  induction a as [|c a IH]; simpl.
  - now destruct b.
  - now rewrite IH.
Qed.

Lemma mentions_plural (n : Z) :
  mentions n ("You already flagged this " ++ format_d n ++ " times") = true.
Proof.
  unfold mentions.
  destruct (index 0 (format_d n) _) as [m|] eqn:E; [reflexivity|].
  exfalso.
  destruct (format_d n) as [|c d] eqn:D.
  - simpl in E. discriminate.
  - apply (index_correct3 0 25) in E; [|discriminate|lia].
    apply E. rewrite <- D. simpl. apply substring_prefix.
Qed.

(** C3 as the specification words it fails where the user has one flag:
    with [LIMIT_SAME_OBJECT_FOR_USER = 1] the second flag of the user is
    refused with the singular form of the message, and the singular form
    has no number in it. *)
Lemma singular_message_counterexample :
  count_flags_by_user (fc_demo 1) 1 after_one_flag = 1
  /\ assert_can_be_flagged_by_user (cfg_demo None (Some 1)) (fc_demo 1) 1
       after_one_flag
     = Raise (ContentAlreadyFlaggedByUserException "You already flagged this")
  /\ mentions 1 "You already flagged this" = false.
Proof. split; [reflexivity|]. split; reflexivity. Qed.

(** C3, as the code has it.  [assert_can_be_flagged_by_user] is decided
    by the count of the aggregate, the flags of status 1 that the user has
    on this aggregate in the flag table, and the two limits.  The
    per-object limit comes first: when it is set and the count has reached
    it, the exception is [ContentFlaggedEnoughException], whatever the user
    has done.  Only past that test the flags of the user count: when the
    per-user limit is set and their number has reached it, the exception is
    [ContentAlreadyFlaggedByUserException] with the pluralised message,
    which names that number unless the number is 1.  In every other case
    the method returns.  It returns exactly when [can_be_flagged_by_user]
    answers true. *)
Theorem assert_can_be_flagged_by_user_decided (cfg : Settings)
  (self : FlaggedContent.t) (user : User) (st : Store) :
  let limit := LIMIT_FOR_OBJECT (content_settings cfg self) in
  let limit_user := LIMIT_SAME_OBJECT_FOR_USER (content_settings cfg self) in
  let n := spec_flags_of_user self user st in
  assert_can_be_flagged_by_user cfg self user st
  = (if truthy limit && (int_of limit <=? FlaggedContent.count self)
     then Raise (ContentFlaggedEnoughException "Flag limit raised")
     else if truthy limit_user && (int_of limit_user <=? n)
     then Raise (ContentAlreadyFlaggedByUserException
                   (if n =? 1 then "You already flagged this"
                    else ("You already flagged this " ++ format_d n
                          ++ " times")%string))
     else Return tt)
  /\ (n <> 1 ->
      mentions n ("You already flagged this " ++ format_d n ++ " times")
      = true)
  /\ returns (assert_can_be_flagged_by_user cfg self user st)
     = can_be_flagged_by_user cfg self user st.
Proof.
  intros limit limit_user n.
  split; [|split].
  - unfold assert_can_be_flagged_by_user, assert_can_be_flagged,
      can_be_flagged.
    rewrite (count_flags_by_user_spec self user st).
    fold limit limit_user n.
    destruct (truthy limit); simpl.
    + rewrite Z.ltb_antisym.
      destruct (int_of limit <=? FlaggedContent.count self); simpl;
        [reflexivity|].
      destruct (truthy limit_user); simpl; [|reflexivity].
      rewrite Z.geb_leb. reflexivity.
    + destruct (truthy limit_user); simpl; [|reflexivity].
      rewrite Z.geb_leb. reflexivity.
  - intros _. apply mentions_plural.
  - unfold assert_can_be_flagged_by_user, assert_can_be_flagged,
      can_be_flagged_by_user.
    destruct (can_be_flagged cfg self); simpl; [|reflexivity].
    destruct (truthy (LIMIT_SAME_OBJECT_FOR_USER _)); simpl; [|reflexivity].
    rewrite Z.geb_leb, Z.ltb_antisym.
    now destruct (_ <=? _).
Qed.

Lemma assert_can_be_flagged_by_user_decided_witness :
  let cfg := cfg_demo None (Some 2) in
  spec_flags_of_user (fc_demo 2) 1 after_two_flags = 2
  /\ spec_flags_of_user (fc_demo 2) 2 after_two_flags = 0
  /\ assert_can_be_flagged_by_user cfg (fc_demo 2) 1 after_two_flags
     = Raise (ContentAlreadyFlaggedByUserException
                "You already flagged this 2 times")
  /\ assert_can_be_flagged_by_user cfg (fc_demo 2) 2 after_two_flags
     = Return tt
  /\ mentions 2 "You already flagged this 2 times" = true.
Proof.
  intros cfg. split; [reflexivity|]. split; [reflexivity|].
  split; [|split].
  - exact (proj1 (assert_can_be_flagged_by_user_decided cfg (fc_demo 2) 1
                    after_two_flags)).
  - exact (proj1 (assert_can_be_flagged_by_user_decided cfg (fc_demo 2) 2
                    after_two_flags)).
  - apply (proj1 (proj2 (assert_can_be_flagged_by_user_decided cfg
                           (fc_demo 2) 1 after_two_flags))).
    discriminate.
Defined.

(** The example of the specification, through [add]: with
    [LIMIT_SAME_OBJECT_FOR_USER = 2] the third flag of one user on an item
    is refused and the flag of another user is accepted. *)
Example third_flag_of_same_user_refused :
  fst (add (cfg_demo None (Some 2)) 1 post_demo None None None false false
         after_two_flags)
  = Raise (ContentAlreadyFlaggedByUserException
             "You already flagged this 2 times")
  /\ exists flag,
       fst (add (cfg_demo None (Some 2)) 2 post_demo None None None
              false false after_two_flags) = Return flag.
Proof. split; [reflexivity | eexists; reflexivity]. Qed.

(** ** Running the monad *)

Lemma bind_Return {A B} (m : M A) (k : A -> M B) st a st1 :
  m st = (Return a, st1) -> bind m k st = k a st1.
Proof. unfold bind. now intros ->. Qed.

Lemma bind_Raise {A B} (m : M A) (k : A -> M B) st e st1 :
  m st = (Raise e, st1) -> bind m k st = (Raise e, st1).
Proof. unfold bind. now intros ->. Qed.

Lemma bind_inv {A B} (m : M A) (k : A -> M B) st r st' :
  bind m k st = (r, st') ->
  (exists a st1, m st = (Return a, st1) /\ k a st1 = (r, st'))
  \/ (exists e, m st = (Raise e, st') /\ r = Raise e).
Proof.
  unfold bind. destruct (m st) as [[a|e] st1]; intros H.
  - left. eauto.
  - right. injection H as <- <-. eauto.
Qed.

(** ** What each operation leaves alone *)

Lemma Model_save_FlaggedContent_frame self F st r st' :
  Model_save_FlaggedContent self F st = (r, st') ->
  flag_instances st' = flag_instances st /\ outbox st' = outbox st.
Proof.
  unfold Model_save_FlaggedContent.
  destruct (negb (unique_together self (flagged_contents st))).
  - intros H. injection H as <- <-. auto.
  - destruct (FlaggedContent.id self) as [i|], F as [f|];
      try destruct (existsb (has_pk i) (flagged_contents st));
      intros H; injection H as <- <-; auto.
Qed.

Lemma FlaggedContent_save_frame cfg self F st r st' :
  FlaggedContent_save cfg self F st = (r, st') ->
  flag_instances st' = flag_instances st /\ outbox st' = outbox st.
Proof.
  unfold FlaggedContent_save, bind, lift.
  destruct (assert_model_can_be_flagged cfg (content_object cfg self)).
  - apply Model_save_FlaggedContent_frame.
  - intros H. injection H as <- <-. auto.
Qed.

Lemma FlaggedContent_objects_get_frame id st r st' :
  FlaggedContent_objects_get id st = (r, st') -> st' = st.
Proof.
  unfold FlaggedContent_objects_get.
  destruct id as [i|]; [destruct (find (has_pk i) (flagged_contents st))|];
    intros H; now injection H as <- <-.
Qed.

Lemma Model_save_FlagInstance_frame self st r st' :
  Model_save_FlagInstance self st = (r, st') ->
  flagged_contents st' = flagged_contents st /\ outbox st' = outbox st.
Proof.
  unfold Model_save_FlagInstance.
  destruct (FlaggedContent.id (FlagInstance.flagged_content self)) as [p|].
  - destruct (negb (existsb (has_pk p) (flagged_contents st))).
    + intros H. injection H as <- <-. auto.
    + destruct (FlagInstance.id self) as [i|];
        [destruct (existsb (has_row_id i) (flag_instances st))|];
        intros H; injection H as <- <-; auto.
  - intros H. injection H as <- <-. auto.
Qed.

Lemma FlagInstance_send_mails_effect cfg flag st r st' :
  FlagInstance_send_mails cfg flag st = (r, st') ->
  flagged_contents st' = flagged_contents st
  /\ flag_instances st' = flag_instances st
  /\ (r = Return tt -> outbox st' = outbox st ++ mail_of cfg flag).
Proof.
  unfold FlagInstance_send_mails, mail_of.
  destruct (SEND_MAILS _ && negb (Nat.eqb (length (SEND_MAILS_TO _)) 0));
    simpl.
  - destruct (content_object cfg (FlagInstance.flagged_content flag)).
    + intros H. injection H as <- <-. simpl. auto.
    + intros H. injection H as <- <-. repeat split. discriminate.
  - intros H. injection H as <- <-. repeat split.
    now rewrite app_nil_r.
Qed.

(** ** [flag_added] step by step *)

Ltac run_bind H :=
  let a := fresh "a" in
  let st1 := fresh "st1" in
  let e := fresh "e" in
  let H1 := fresh "Hrun" in
  let H2 := fresh "Hrest" in
  apply bind_inv in H;
  destruct H as [(a & st1 & H1 & H2) | (e & H1 & H2)].

Ltac inj_pair H := injection H as <- <-.

Tactic Notation "bind_cases" hyp(H) "as" ident(a) ident(s) ident(H1) ident(H2) :=
  apply bind_inv in H;
  destruct H as [(a & s & H1 & H2) | (a & H1 & H2)].

Lemma flag_added_steps cfg self flag_instance send_signal send_mails :
  flag_added cfg self flag_instance send_signal send_mails
  = (self' <- count_step cfg self ;;
     notify_step cfg self' flag_instance send_signal send_mails).
Proof. reflexivity. Qed.

Lemma count_step_inv cfg self st r st' :
  count_step cfg self st = (r, st') ->
  flag_instances st' = flag_instances st
  /\ outbox st' = outbox st
  /\ ((FlaggedContent.status self <> 1
       /\ r = Return self /\ st' = st)
      \/ (FlaggedContent.status self = 1
          /\ (exists e, r = Raise e) /\ st' = st)
      \/ (FlaggedContent.status self = 1
          /\ exists p,
               FlaggedContent.id self = Some p
               /\ flagged_contents st'
                  = bump self p (flagged_contents st)
               /\ exists c, r = Return (FlaggedContent.set_count self c))).
Proof.
  unfold count_step.
  destruct (FlaggedContent.status self =? 1) eqn:E.
  - apply Z.eqb_eq in E. intros H.
    run_bind H.
    + (* the save went through *)
      pose proof (FlaggedContent_save_frame _ _ _ _ _ _ Hrun) as [F1 F2].
      assert (S1 : exists p, FlaggedContent.id self = Some p
                     /\ flagged_contents st1
                        = bump self p (flagged_contents st)).
      { revert Hrun. unfold FlaggedContent_save, bind, lift.
        destruct (assert_model_can_be_flagged cfg (content_object cfg self));
          [|discriminate].
        unfold Model_save_FlaggedContent.
        destruct (negb (unique_together self (flagged_contents st)));
          [discriminate|].
        destruct (FlaggedContent.id self) as [p|]; [|discriminate].
        destruct (existsb (has_pk p) (flagged_contents st));
          [|discriminate].
        intros H. injection H as _ <-. exists p. split; reflexivity. }
      destruct S1 as (p & Hid & Hrows).
      run_bind Hrest.
      * apply FlaggedContent_objects_get_frame in Hrun0 as ->.
        unfold ret in Hrest0. inj_pair Hrest0.
        repeat split; try assumption.
        right. right. split; [assumption|]. exists p. eauto.
      * (* the row written by the save is there to be read *)
        exfalso. revert Hrun0. unfold FlaggedContent_objects_get.
        rewrite Hid.
        destruct (find (has_pk p) (flagged_contents st1)) eqn:Ef;
          [discriminate|].
        intros _.
        assert (Hex : existsb (has_pk p) (flagged_contents st) = true).
        { revert Hrun. unfold FlaggedContent_save, bind, lift.
          destruct (assert_model_can_be_flagged cfg
                      (content_object cfg self)); [|discriminate].
          unfold Model_save_FlaggedContent.
          destruct (negb (unique_together self (flagged_contents st)));
            [discriminate|].
          rewrite Hid.
          destruct (existsb (has_pk p) (flagged_contents st));
            [reflexivity|discriminate]. }
        apply existsb_exists in Hex as (x & Hin & Hx).
        assert (Hnew : has_pk p (FlaggedContent.set_count self
                                   (FlaggedContent.count x + 1)) = false).
        { apply (find_none _ _ Ef).
          rewrite Hrows. unfold bump. apply in_map_iff. exists x.
          rewrite Hx. auto. }
        revert Hnew. unfold has_pk. simpl. rewrite Hid, Nat.eqb_refl.
        discriminate.
    + (* the save raised: nothing was written *)
      assert (st' = st).
      { revert Hrun. unfold FlaggedContent_save, bind, lift.
        destruct (assert_model_can_be_flagged cfg (content_object cfg self)).
        - unfold Model_save_FlaggedContent.
          destruct (negb (unique_together self (flagged_contents st)));
            [intros H; now injection H|].
          destruct (FlaggedContent.id self) as [p|];
            [destruct (existsb (has_pk p) (flagged_contents st))|];
            try discriminate; intros H; now injection H.
        - intros H. now injection H. }
      subst. repeat split. right. left. eauto.
  - apply Z.eqb_neq in E. unfold ret. intros H. inj_pair H.
    repeat split. left. auto.
Qed.

Lemma notify_step_inv cfg self flag send_signal send_mails st r st' :
  notify_step cfg self flag send_signal send_mails st = (r, st') ->
  let flag' := FlagInstance.set_flagged_content flag self in
  flagged_contents st' = flagged_contents st
  /\ flag_instances st' = flag_instances st
  /\ (forall e, r = Raise e -> e = AttributeError)
  /\ (forall x, r = Return x ->
        x = self
        /\ outbox st'
           = outbox st ++ signal_of send_signal self flag'
             ++ (if send_mails
                    && really_send_mails (content_settings cfg self)
                                         (FlaggedContent.count self)
                 then mail_of cfg flag' else [])).
Proof.
  intros H flag'. unfold notify_step in H. fold flag' in H.
  assert (S : exists st1,
             (if send_signal then emit (content_flagged self flag')
              else ret tt) st = (Return tt, st1)
             /\ flagged_contents st1 = flagged_contents st
             /\ flag_instances st1 = flag_instances st
             /\ outbox st1 = outbox st ++ signal_of send_signal self flag').
  { unfold signal_of. destruct send_signal; eexists; split;
      try reflexivity; simpl; repeat split. now rewrite app_nil_r. }
  destruct S as (st1 & S0 & S1 & S2 & S3).
  rewrite (bind_Return _ _ _ _ _ S0) in H.
  assert (Hmail_of : send_mails && SEND_MAILS (content_settings cfg self)
                     = false ->
                     (if send_mails
                         && really_send_mails (content_settings cfg self)
                              (FlaggedContent.count self)
                      then mail_of cfg flag' else []) = []).
  { unfold mail_of. simpl. destruct send_mails; simpl; [|reflexivity].
    intros ->. simpl. now destruct (really_send_mails _ _). }
  run_bind H.
  - unfold ret in Hrest. inj_pair Hrest. destruct a.
    assert (T : flagged_contents st0 = flagged_contents st1
                /\ flag_instances st0 = flag_instances st1
                /\ outbox st0
                   = outbox st1
                     ++ (if send_mails
                            && really_send_mails (content_settings cfg self)
                                 (FlaggedContent.count self)
                         then mail_of cfg flag' else [])).
    { destruct (send_mails && SEND_MAILS (content_settings cfg self)) eqn:E.
      - apply andb_prop in E as [-> E]. simpl.
        destruct (really_send_mails (content_settings cfg self)
                    (FlaggedContent.count self)).
        + apply FlagInstance_send_mails_effect in Hrun as (T1 & T2 & T3).
          rewrite T1, T2, T3 by reflexivity. auto.
        + unfold ret in Hrun. injection Hrun as <-.
          now rewrite app_nil_r.
      - unfold ret in Hrun. injection Hrun as <-.
        rewrite (Hmail_of eq_refl). now rewrite app_nil_r. }
    destruct T as (T1 & T2 & T3).
    rewrite T1, T2, T3, S1, S2, S3.
    split; [reflexivity|]. split; [reflexivity|].
    split; [discriminate|].
    intros y Hy. injection Hy as <-. split; [reflexivity|].
    now rewrite app_assoc.
  - subst r.
    destruct (send_mails && SEND_MAILS (content_settings cfg self));
      [destruct (really_send_mails (content_settings cfg self)
                   (FlaggedContent.count self))|];
      try (unfold ret in Hrun; discriminate).
    pose proof (FlagInstance_send_mails_effect _ _ _ _ _ Hrun)
      as (T1 & T2 & _).
    rewrite T1, T2, S1, S2.
    split; [reflexivity|]. split; [reflexivity|].
    split; [|discriminate].
    intros e0 He0. injection He0 as <-.
    revert Hrun. unfold FlagInstance_send_mails.
    destruct (negb _); [discriminate|].
    destruct (content_object cfg _); [discriminate|].
    unfold raise. intros H. now injection H.
Qed.

Lemma FlaggedContent_save_raises cfg self F st e st' :
  FlaggedContent_save cfg self F st = (Raise e, st') ->
  st' = st /\ limit_error e = false /\ comment_error e = false.
Proof.
  unfold FlaggedContent_save, bind, lift, assert_model_can_be_flagged.
  destruct (negb (model_can_be_flagged cfg (content_object cfg self))).
  - intros H. injection H as <- <-. auto.
  - unfold Model_save_FlaggedContent.
    destruct (negb (unique_together self (flagged_contents st))).
    + intros H. injection H as <- <-. auto.
    + destruct (FlaggedContent.id self) as [p|], F as [f|];
        try destruct (existsb (has_pk p) (flagged_contents st));
        try discriminate; intros H; injection H as <- <-; auto.
Qed.

Lemma count_step_raises cfg self st e st' :
  count_step cfg self st = (Raise e, st') ->
  limit_error e = false /\ comment_error e = false.
Proof.
  unfold count_step.
  destruct (FlaggedContent.status self =? 1); [|discriminate].
  intros H. run_bind H.
  - run_bind Hrest; [discriminate|].
    injection Hrest0 as ->.
    revert Hrun0. unfold FlaggedContent_objects_get.
    destruct (FlaggedContent.id self) as [p|];
      [destruct (find (has_pk p) (flagged_contents st1))|];
      try discriminate; intros H; injection H as <- _; auto.
  - injection Hrest as ->.
    now apply FlaggedContent_save_raises in Hrun.
Qed.

Lemma flag_added_raises cfg self flag send_signal send_mails st e st' :
  flag_added cfg self flag send_signal send_mails st = (Raise e, st') ->
  limit_error e = false /\ comment_error e = false.
Proof.
  rewrite flag_added_steps. intros H. run_bind H.
  - apply notify_step_inv in Hrest as (_ & _ & R & _).
    rewrite (R e eq_refl). auto.
  - injection Hrest as ->. now apply count_step_raises in Hrun.
Qed.

Lemma flag_added_flag_instances cfg self flag send_signal send_mails st r st' :
  flag_added cfg self flag send_signal send_mails st = (r, st') ->
  flag_instances st' = flag_instances st.
Proof.
  rewrite flag_added_steps. intros H. run_bind H.
  - apply notify_step_inv in Hrest as (_ & -> & _).
    now apply count_step_inv in Hrun as (-> & _).
  - now apply count_step_inv in Hrun as (-> & _).
Qed.

(** [flag_added] returns the aggregate it was called on, with the count
    it has read back. *)
Lemma flag_added_returns cfg self flag send_signal send_mails st self' st' :
  flag_added cfg self flag send_signal send_mails st = (Return self', st') ->
  exists c, self' = FlaggedContent.set_count self c.
Proof.
  rewrite flag_added_steps. intros H.
  bind_cases H as fc1 st1 Hcs H; [|discriminate].
  apply notify_step_inv in H as (_ & _ & _ & R).
  destruct (R self' eq_refl) as [-> _].
  apply count_step_inv in Hcs as (_ & _ & C).
  destruct C as [(_ & Hr & _)
                | [(_ & (e & Hr) & _) | (_ & p & _ & _ & c & Hr)]];
    try discriminate; injection Hr as ->.
  - exists (FlaggedContent.count self). now destruct self.
  - now exists c.
Qed.

(** What [flag_added] sends when it returns: the signal if asked for, then
    the mail if asked for and the threshold rule says so. *)
Lemma flag_added_outbox cfg self flag send_signal send_mails st self' st' :
  flag_added cfg self flag send_signal send_mails st = (Return self', st') ->
  let flag' := FlagInstance.set_flagged_content flag self' in
  outbox st'
  = outbox st ++ signal_of send_signal self' flag'
    ++ (if send_mails
           && really_send_mails (content_settings cfg self)
                                (FlaggedContent.count self')
        then mail_of cfg flag' else []).
Proof.
  intros H. destruct (flag_added_returns _ _ _ _ _ _ _ _ H) as (c & Hc).
  revert H. rewrite flag_added_steps. intros H.
  bind_cases H as fc1 st1 Hcs H; [|discriminate].
  pose proof (notify_step_inv _ _ _ _ _ _ _ _ H) as (_ & _ & _ & R).
  destruct (R self' eq_refl) as [-> ->].
  apply count_step_inv in Hcs as (_ & -> & _).
  now rewrite Hc.
Qed.

(** ** The mail threshold *)

Lemma last_cons {A} (a d : A) (l : list A) : last (a :: l) d = last l a.
Proof.
  revert a d. induction l as [|b l IH]; intros a d; [reflexivity|].
  change (last (a :: b :: l) d) with (last (b :: l) d).
  now rewrite !(IH b).
Qed.

Lemma walk_rules_reached count rules current :
  walk_rules count rules current = last (reached count rules) current.
Proof.
  revert current. induction rules as [|[m s] rest IH]; intros current;
    [reflexivity|].
  simpl. rewrite Z.geb_leb.
  destruct (m <=? count); [|reflexivity].
  now rewrite last_cons, IH.
Qed.

Lemma reached_ascending count rules :
  ascending rules ->
  reached count rules = filter (fun rule => fst rule <=? count) rules.
Proof.
  induction 1 as [|rule rest Hs IH Hall]; [reflexivity|].
  simpl. destruct (fst rule <=? count) eqn:E.
  - now rewrite IH.
  - apply Z.leb_gt in E. clear IH Hs.
    induction Hall as [|r l Hr _ IHl]; [reflexivity|].
    simpl. destruct (fst r <=? count) eqn:E'; [|exact IHl].
    apply Z.leb_le in E'. lia.
Qed.

Lemma really_send_mails_reached settings count :
  really_send_mails settings count
  = (truthy (LIMIT_FOR_OBJECT settings)
     && (count >=? int_of (LIMIT_FOR_OBJECT settings)))
    || (let '(min_count, step) :=
          last (reached count (SEND_MAILS_RULES settings)) (0, 0) in
        negb (step =? 0) && ((count - min_count) mod step =? 0)).
Proof.
  unfold really_send_mails. rewrite walk_rules_reached.
  now destruct (truthy _ && _).
Qed.

Lemma reached_5_10 count :
  reached count [(5, 1); (10, 5)]
  = if count <? 5 then []
    else if count <? 10 then [(5, 1)] else [(5, 1); (10, 5)].
Proof.
  simpl.
  destruct (5 <=? count) eqn:A, (10 <=? count) eqn:B,
           (count <? 5) eqn:C, (count <? 10) eqn:D; try reflexivity; lia.
Qed.

(** C2, as the code has it.  With mails asked for and [SEND_MAILS] on, a
    [flag_added] that returns has run [send_mails] (which hands one mail to
    the transport when [SEND_MAILS_TO] is not empty) exactly when the
    per-object limit is set and reached, or the last rule of the initial
    run of rules whose [min_count] the count has reached has a step with
    [(count - min_count) mod step = 0]: the walk stops at the first rule
    the count has not reached.  On rules listed by ascending [min_count]
    that rule is the last rule of the list with [min_count <= count].  With
    the rules [(5,1); (10,5)] and the limit not reached, the mail goes out
    at 5..9 and at 10, 15, 20, ..., and at no other count. *)
Theorem mail_threshold_rule (cfg : Settings) (self : FlaggedContent.t)
  (flag : FlagInstance.t) (send_signal : bool) (st : Store)
  (settings : ModelSettings) (count : Z) :
  (forall self' st',
     SEND_MAILS (content_settings cfg self) = true ->
     flag_added cfg self flag send_signal true st = (Return self', st') ->
     outbox st'
     = outbox st
       ++ signal_of send_signal self'
            (FlagInstance.set_flagged_content flag self')
       ++ (if really_send_mails (content_settings cfg self)
                                (FlaggedContent.count self')
              && negb (Nat.eqb (length (SEND_MAILS_TO
                                          (content_settings cfg self))) 0)
           then [send_mail (SEND_MAILS_FROM (content_settings cfg self))
                   (map recipient_address
                        (SEND_MAILS_TO (content_settings cfg self)))
                   (FlagInstance.set_flagged_content flag self')]
           else []))
  /\ really_send_mails settings count
     = (truthy (LIMIT_FOR_OBJECT settings)
        && (count >=? int_of (LIMIT_FOR_OBJECT settings)))
       || (let '(min_count, step) :=
             last (reached count (SEND_MAILS_RULES settings)) (0, 0) in
           negb (step =? 0) && ((count - min_count) mod step =? 0))
  /\ (ascending (SEND_MAILS_RULES settings) ->
      really_send_mails settings count = spec_mail_sent settings count)
  /\ (SEND_MAILS_RULES settings = [(5, 1); (10, 5)] ->
      truthy (LIMIT_FOR_OBJECT settings)
      && (count >=? int_of (LIMIT_FOR_OBJECT settings)) = false ->
      really_send_mails settings count
      = ((5 <=? count) && (count <? 10))
        || ((10 <=? count) && ((count - 10) mod 5 =? 0))).
Proof.
  split; [|split; [|split]].
  - intros self' st' Hon H.
    rewrite (flag_added_outbox _ _ _ _ _ _ _ _ H). simpl andb.
    assert (Hset : content_settings cfg self' = content_settings cfg self).
    { destruct (flag_added_returns _ _ _ _ _ _ _ _ H) as (c & ->).
      reflexivity. }
    unfold mail_of. simpl FlagInstance.flagged_content.
    rewrite Hset, Hon. simpl andb.
    now destruct (really_send_mails _ _).
  - apply really_send_mails_reached.
  - intros Hasc. rewrite really_send_mails_reached.
    unfold spec_mail_sent, spec_selected_rule.
    now rewrite reached_ascending.
  - intros Hrules Hlimit.
    rewrite really_send_mails_reached, Hlimit, Hrules, reached_5_10.
    simpl orb.
    destruct (count <? 5) eqn:A.
    + apply Z.ltb_lt in A.
      replace (5 <=? count) with false by (symmetry; apply Z.leb_gt; lia).
      replace (10 <=? count) with false by (symmetry; apply Z.leb_gt; lia).
      reflexivity.
    + apply Z.ltb_ge in A.
      replace (5 <=? count) with true by (symmetry; apply Z.leb_le; lia).
      destruct (count <? 10) eqn:B.
      * apply Z.ltb_lt in B.
        replace (10 <=? count) with false by (symmetry; apply Z.leb_gt; lia).
        simpl. now rewrite Z.mod_1_r.
      * apply Z.ltb_ge in B.
        replace (10 <=? count) with true by (symmetry; apply Z.leb_le; lia).
        reflexivity.
Qed.

Lemma mail_threshold_rule_witness :
  let cfg := cfg_demo None None in
  let s := content_settings cfg (fc_demo 9) in
  SEND_MAILS s = true
  /\ ascending (SEND_MAILS_RULES s)
  /\ outbox (snd (flag_added cfg (fc_demo 9) (flag_demo 9) false true
                    (st_demo 9)))
     = [send_mail "flag@example.com" ["admin@example.com"]
          (flag_demo 10)]
  /\ really_send_mails s 10 = spec_mail_sent s 10
  /\ really_send_mails s 10 = true.
Proof.
  intros cfg s.
  destruct (mail_threshold_rule cfg (fc_demo 9) (flag_demo 9) false
              (st_demo 9) s 10) as (A & _ & C & D).
  assert (Hasc : ascending (SEND_MAILS_RULES s)).
  { repeat constructor; simpl; lia. }
  split; [reflexivity|]. split; [exact Hasc|]. split; [|split].
  - exact (A (fc_demo 10) _ eq_refl eq_refl).
  - exact (C Hasc).
  - exact (D eq_refl eq_refl).
Defined.

(** C2 as the specification words it fails on rules that are not listed by
    ascending [min_count].  With the rules [(10,5); (5,1)] and a count that
    goes from 6 to 7, the last rule of the list with [min_count <= 7] is
    [(5,1)] and [(7 - 5) mod 1 = 0], yet the loop stops at [(10,5)], keeps
    the step [0] and no mail goes out. *)
Lemma mail_rule_counterexample :
  let s := content_settings cfg_descending (fc_demo 6) in
  SEND_MAILS s = true
  /\ spec_mail_sent s 7 = true
  /\ flag_added cfg_descending (fc_demo 6) (flag_demo 6) false true
       (st_demo 6)
     = (Return (fc_demo 7), mkStore [fc_demo 7] [] []).
Proof. repeat split. Qed.

(** ** [FlagInstance.save] step by step *)

Lemma FlagInstance_save_existing cfg self send_signal send_mails st :
  truthy_id (FlagInstance.id self) = true ->
  FlagInstance_save cfg self send_signal send_mails st
  = Model_save_FlagInstance self st.
Proof.
  intros H. unfold FlagInstance_save. rewrite H. simpl.
  unfold bind, ret.
  now destruct (Model_save_FlagInstance self st) as [[a|e] st'].
Qed.

Lemma FlagInstance_save_new cfg self send_signal send_mails st :
  truthy_id (FlagInstance.id self) = false ->
  FlagInstance_save cfg self send_signal send_mails st
  = if FlagInstance.status self =? 1
    then
      match assert_can_be_flagged_by_user cfg
              (FlagInstance.flagged_content self) (FlagInstance.user self) st
      with
      | Raise e => (Raise e, st)
      | Return _ => save_new cfg self send_signal send_mails st
      end
    else save_new cfg self send_signal send_mails st.
Proof.
  intros H. unfold FlagInstance_save, save_new. rewrite H. simpl.
  destruct (FlagInstance.status self =? 1); [|reflexivity].
  unfold bind at 1. unfold lift at 1.
  now destruct (assert_can_be_flagged_by_user cfg _ _ st).
Qed.

Lemma check_comment_raises cfg self e :
  check_comment cfg self = Raise e ->
  comment_error e = true /\ limit_error e = false.
Proof.
  unfold check_comment.
  destruct (ALLOW_COMMENTS _), (truthy_str (FlagInstance.comment self));
    simpl; try discriminate; intros H; injection H as <-; auto.
Qed.

Lemma Model_save_FlagInstance_raises self st e st' :
  Model_save_FlagInstance self st = (Raise e, st') ->
  st' = st /\ e = IntegrityError.
Proof.
  unfold Model_save_FlagInstance.
  destruct (FlaggedContent.id (FlagInstance.flagged_content self)) as [p|].
  - destruct (negb (existsb (has_pk p) (flagged_contents st))).
    + intros H. injection H as <- <-. auto.
    + destruct (FlagInstance.id self) as [i|];
        [destruct (existsb (has_row_id i) (flag_instances st))|];
        discriminate.
  - intros H. injection H as <- <-. auto.
Qed.

(** Inserting a new flag under a stored aggregate. *)
Lemma Model_save_FlagInstance_insert self st p :
  FlagInstance.id self = None ->
  FlaggedContent.id (FlagInstance.flagged_content self) = Some p ->
  existsb (has_pk p) (flagged_contents st) = true ->
  let i := next_id (map FlagInstance.row_id (flag_instances st)) in
  Model_save_FlagInstance self st
  = (Return (FlagInstance.set_id self (Some i)),
     with_flag_instances st
       (FlagInstance.mk_row i p (FlagInstance.user self)
          (FlagInstance.comment self) (FlagInstance.status self)
        :: flag_instances st)).
Proof.
  intros Hid Hp Hex. unfold Model_save_FlagInstance.
  now rewrite Hp, Hex, Hid.
Qed.

Lemma save_new_raises cfg self send_signal send_mails st e st' :
  save_new cfg self send_signal send_mails st = (Raise e, st') ->
  limit_error e = false.
Proof.
  unfold save_new. intros H.
  bind_cases H as u st1 Hc H.
  - bind_cases H as self1 st2 Hs H.
    + bind_cases H as fc st3 Hf H; [discriminate|].
      injection H as ->.
      now apply flag_added_raises in Hf.
    + injection H as ->.
      now apply Model_save_FlagInstance_raises in Hs as [_ ->].
  - injection H as ->. unfold lift in Hc.
    injection Hc as Hc _.
    now apply check_comment_raises in Hc.
Qed.

(** ** Saving a new flag: the limits *)

(** C5.  On the save of a new flag the assertion of the two limits runs
    exactly when the status of the flag is 1: then an exception of the
    assertion is the exception of the save and nothing is written; with any
    other status the save goes straight to the comment check and the
    insert, none of which raises an exception of the limits, and the flag
    is inserted even where the limits are reached. *)
Theorem limit_assertions_only_for_status_1 (cfg : Settings)
  (self : FlagInstance.t) (send_signal send_mails : bool) (st : Store) :
  truthy_id (FlagInstance.id self) = false ->
  (FlagInstance.status self = 1 ->
   FlagInstance_save cfg self send_signal send_mails st
   = match assert_can_be_flagged_by_user cfg
             (FlagInstance.flagged_content self) (FlagInstance.user self) st
     with
     | Raise e => (Raise e, st)
     | Return _ => save_new cfg self send_signal send_mails st
     end)
  /\ (FlagInstance.status self <> 1 ->
      FlagInstance_save cfg self send_signal send_mails st
      = save_new cfg self send_signal send_mails st)
  /\ (forall e st',
        save_new cfg self send_signal send_mails st = (Raise e, st') ->
        limit_error e = false)
  /\ (forall p,
        FlagInstance.status self <> 1 ->
        check_comment cfg self = Return tt ->
        FlagInstance.id self = None ->
        FlaggedContent.id (FlagInstance.flagged_content self) = Some p ->
        existsb (has_pk p) (flagged_contents st) = true ->
        flag_instances
          (snd (FlagInstance_save cfg self send_signal send_mails st))
        = FlagInstance.mk_row
            (next_id (map FlagInstance.row_id (flag_instances st))) p
            (FlagInstance.user self) (FlagInstance.comment self)
            (FlagInstance.status self)
          :: flag_instances st).
Proof.
  intros Hnew. split; [|split; [|split]].
  - intros H1. rewrite (FlagInstance_save_new _ _ _ _ _ Hnew), H1.
    reflexivity.
  - intros H1. rewrite (FlagInstance_save_new _ _ _ _ _ Hnew).
    apply Z.eqb_neq in H1. now rewrite H1.
  - intros e st'. apply save_new_raises.
  - intros p H1 Hc Hid Hp Hex.
    rewrite (FlagInstance_save_new _ _ _ _ _ Hnew).
    apply Z.eqb_neq in H1. rewrite H1.
    unfold save_new.
    rewrite (bind_Return _ _ st tt st)
      by (unfold lift; now rewrite Hc).
    pose proof (Model_save_FlagInstance_insert self st p Hid Hp Hex) as Hs.
    cbv zeta in Hs.
    rewrite (bind_Return _ _ _ _ _ Hs).
    unfold bind.
    destruct (flag_added cfg _ _ send_signal send_mails _)
      as [[fc|e] st2] eqn:Hf; simpl;
      now rewrite (flag_added_flag_instances _ _ _ _ _ _ _ _ Hf).
Qed.

Lemma limit_assertions_only_for_status_1_witness :
  let cfg := cfg_demo (Some 1) (Some 1) in
  can_be_flagged cfg (fc_demo 1) = false
  /\ FlagInstance_save cfg (new_flag_demo 1 None 1) false false (st_demo 1)
     = (Raise (ContentFlaggedEnoughException "Flag limit raised"), st_demo 1)
  /\ flag_instances
       (snd (FlagInstance_save cfg (new_flag_demo 1 None 2) false false
               (st_demo 1)))
     = [FlagInstance.mk_row 1 1 2 None 2].
Proof.
  intros cfg. split; [reflexivity|]. split.
  - destruct (limit_assertions_only_for_status_1 cfg (new_flag_demo 1 None 1)
                false false (st_demo 1) eq_refl) as (A & _).
    exact (A eq_refl).
  - destruct (limit_assertions_only_for_status_1 cfg (new_flag_demo 1 None 2)
                false false (st_demo 1) eq_refl) as (_ & _ & _ & D).
    refine (D 1%nat _ eq_refl eq_refl eq_refl eq_refl).
    discriminate.
Defined.

(** ** Saving a new flag: the comment *)

(** C7 as the specification words it fails where a limit is reached: the
    flag has status 1, the aggregate has reached [LIMIT_FOR_OBJECT = 1],
    comments are not allowed and one is given; the save raises the
    exception of the limit, not that of the comment. *)
Lemma comment_policy_counterexample :
  let cfg := cfg_demo (Some 1) None in
  let flag := new_flag_demo 1 (Some "spam") 1 in
  truthy_id (FlagInstance.id flag) = false
  /\ ALLOW_COMMENTS (content_settings cfg (FlagInstance.flagged_content flag))
     = false
  /\ truthy_str (FlagInstance.comment flag) = true
  /\ FlagInstance_save cfg flag false false (st_demo 1)
     = (Raise (ContentFlaggedEnoughException "Flag limit raised"), st_demo 1)
  /\ comment_error (ContentFlaggedEnoughException "Flag limit raised")
     = false.
Proof. repeat split. Qed.

(** C7, as the code has it.  On the save of a new flag whose comment breaks
    the policy (comments required and none given, or not allowed and one
    given), whatever the status: the save raises and writes nothing; the
    exception is [FlagCommentException], except that a flag of status 1
    that fails the assertion of the limits raises the exception of the
    limit, which is tested first. *)
Theorem comment_policy_on_new_flag (cfg : Settings) (self : FlagInstance.t)
  (send_signal send_mails : bool) (st : Store) :
  let allow_comments :=
    ALLOW_COMMENTS (content_settings cfg (FlagInstance.flagged_content self)) in
  truthy_id (FlagInstance.id self) = false ->
  (allow_comments = true /\ truthy_str (FlagInstance.comment self) = false)
  \/ (allow_comments = false /\ truthy_str (FlagInstance.comment self) = true)
  ->
  FlagInstance_save cfg self send_signal send_mails st
  = (Raise
       (match (if FlagInstance.status self =? 1
               then assert_can_be_flagged_by_user cfg
                      (FlagInstance.flagged_content self)
                      (FlagInstance.user self) st
               else Return tt)
        with
        | Raise e => e
        | Return _ =>
            FlagCommentException
              (if allow_comments then "You must add a comment"
               else "You are not allowed to add a comment")
        end), st).
Proof.
  intros allow_comments Hnew Hbad.
  assert (Hc : check_comment cfg self
               = Raise (FlagCommentException
                          (if allow_comments then "You must add a comment"
                           else "You are not allowed to add a comment"))).
  { unfold check_comment. fold allow_comments.
    destruct Hbad as [[-> ->] | [-> ->]]; reflexivity. }
  assert (Hs : save_new cfg self send_signal send_mails st
               = (Raise (FlagCommentException
                           (if allow_comments then "You must add a comment"
                            else "You are not allowed to add a comment")),
                  st)).
  { unfold save_new. apply bind_Raise. unfold lift. now rewrite Hc. }
  rewrite (FlagInstance_save_new _ _ _ _ _ Hnew), Hs.
  destruct (FlagInstance.status self =? 1); [|reflexivity].
  now destruct (assert_can_be_flagged_by_user cfg _ _ st).
Qed.

Lemma comment_policy_on_new_flag_witness :
  let cfg := cfg_demo None None in
  FlagInstance_save cfg (new_flag_demo 1 (Some "spam") 2) true true
    (st_demo 1)
  = (Raise (FlagCommentException "You are not allowed to add a comment"),
     st_demo 1).
Proof.
  intros cfg.
  exact (comment_policy_on_new_flag cfg (new_flag_demo 1 (Some "spam") 2)
           true true (st_demo 1) eq_refl
           (or_intror (conj eq_refl eq_refl))).
Defined.

(** ** When [flag_added] runs *)

(** C4.  The code where it departs from the claim: a moderator gives the
    status 2 through [add] and asks for the signal and the mails.  The new
    flag has the status 2, yet [flag_added] runs for it: the count stays at
    5, and the signal and a mail go out, where the docstring of [add] says
    that no signal and no mail is sent when the status is updated. *)
Theorem add_with_status_runs_flag_added :
  stored_count 1 after_five_flags = 5
  /\ status_update_demo
     = (Return status_update_flag_demo, snd status_update_demo)
  /\ FlagInstance.status status_update_flag_demo = 2
  /\ stored_count 1 (snd status_update_demo) = 5
  /\ outbox (snd status_update_demo)
     = outbox after_five_flags
       ++ [content_flagged
             (FlagInstance.flagged_content status_update_flag_demo)
             status_update_flag_demo;
           send_mail "flag@example.com" ["admin@example.com"]
             status_update_flag_demo].
Proof. repeat (split; [reflexivity|]). reflexivity. Qed.

(** [flag_added] runs once for every new flag, whatever its status, right
    after the insert: the save of a new flag that has passed its checks is
    the insert followed by [flag_added] on the store the insert left; when
    it returns, the signal has gone out once if it was asked for.  A save
    that is not the first one is the inherited save alone, and a save
    stopped by a check writes and sends nothing. *)
Theorem flag_added_runs_once_per_new_flag (cfg : Settings)
  (self : FlagInstance.t) (send_signal send_mails : bool) (st : Store) :
  (truthy_id (FlagInstance.id self) = true ->
   FlagInstance_save cfg self send_signal send_mails st
   = Model_save_FlagInstance self st
   /\ flagged_contents
        (snd (FlagInstance_save cfg self send_signal send_mails st))
      = flagged_contents st
   /\ outbox (snd (FlagInstance_save cfg self send_signal send_mails st))
      = outbox st)
  /\ (truthy_id (FlagInstance.id self) = false ->
      (FlagInstance.status self = 1 ->
       assert_can_be_flagged_by_user cfg (FlagInstance.flagged_content self)
         (FlagInstance.user self) st = Return tt) ->
      check_comment cfg self = Return tt ->
      forall self1 st1,
        Model_save_FlagInstance self st = (Return self1, st1) ->
        FlagInstance_save cfg self send_signal send_mails st
        = match flag_added cfg (FlagInstance.flagged_content self1) self1
                  send_signal send_mails st1
          with
          | (Return flagged_content, st2) =>
              (Return (FlagInstance.set_flagged_content self1
                         flagged_content), st2)
          | (Raise e, st2) => (Raise e, st2)
          end)
  /\ (truthy_id (FlagInstance.id self) = false ->
      forall flag st',
        FlagInstance_save cfg self send_signal send_mails st
        = (Return flag, st') ->
        outbox st'
        = outbox st
          ++ signal_of send_signal (FlagInstance.flagged_content flag) flag
          ++ (if send_mails
                 && really_send_mails
                      (content_settings cfg (FlagInstance.flagged_content flag))
                      (FlaggedContent.count
                         (FlagInstance.flagged_content flag))
              then mail_of cfg flag else []))
  /\ (truthy_id (FlagInstance.id self) = false ->
      forall e,
        (FlagInstance.status self = 1
         /\ assert_can_be_flagged_by_user cfg
              (FlagInstance.flagged_content self) (FlagInstance.user self) st
            = Raise e)
        \/ ((FlagInstance.status self = 1 ->
             assert_can_be_flagged_by_user cfg
               (FlagInstance.flagged_content self) (FlagInstance.user self) st
             = Return tt)
            /\ check_comment cfg self = Raise e) ->
        FlagInstance_save cfg self send_signal send_mails st = (Raise e, st)).
Proof.
  split; [|split; [|split]].
  - intros Hold. rewrite (FlagInstance_save_existing _ _ _ _ _ Hold).
    split; [reflexivity|].
    destruct (Model_save_FlagInstance self st) as [r st'] eqn:E.
    now apply Model_save_FlagInstance_frame in E.
  - intros Hnew Hlim Hc self1 st1 Hs.
    rewrite (FlagInstance_save_new _ _ _ _ _ Hnew).
    assert (Hn : save_new cfg self send_signal send_mails st
                 = match flag_added cfg (FlagInstance.flagged_content self1)
                           self1 send_signal send_mails st1
                   with
                   | (Return flagged_content, st2) =>
                       (Return (FlagInstance.set_flagged_content self1
                                  flagged_content), st2)
                   | (Raise e, st2) => (Raise e, st2)
                   end).
    { unfold save_new.
      rewrite (bind_Return _ _ st tt st) by (unfold lift; now rewrite Hc).
      rewrite (bind_Return _ _ _ _ _ Hs). reflexivity. }
    destruct (FlagInstance.status self =? 1) eqn:E; [|exact Hn].
    apply Z.eqb_eq in E. now rewrite (Hlim E).
  - intros Hnew flag st' H.
    assert (Hn : save_new cfg self send_signal send_mails st
                 = (Return flag, st')).
    { rewrite (FlagInstance_save_new _ _ _ _ _ Hnew) in H.
      destruct (FlagInstance.status self =? 1); [|exact H].
      destruct (assert_can_be_flagged_by_user cfg _ _ st);
        [exact H | discriminate]. }
    clear H. unfold save_new in Hn.
    bind_cases Hn as u st1 Hc Hn; [|discriminate].
    unfold lift in Hc. injection Hc as _ <-.
    bind_cases Hn as self1 st2 Hs Hn; [|discriminate].
    bind_cases Hn as fc st3 Hf Hn; [|discriminate].
    unfold ret in Hn. injection Hn as <- <-.
    apply Model_save_FlagInstance_frame in Hs as (_ & Ho).
    rewrite (flag_added_outbox _ _ _ _ _ _ _ _ Hf), Ho. simpl.
    assert (Hset : content_settings cfg (FlagInstance.flagged_content self1)
                   = content_settings cfg fc).
    { destruct (flag_added_returns _ _ _ _ _ _ _ _ Hf) as (c & ->).
      reflexivity. }
    rewrite Hset. reflexivity.
  - intros Hnew e Hfail.
    rewrite (FlagInstance_save_new _ _ _ _ _ Hnew).
    destruct Hfail as [[H1 Ha] | [Hlim Hc]].
    + rewrite H1, Ha. reflexivity.
    + assert (Hn : save_new cfg self send_signal send_mails st
                   = (Raise e, st)).
      { unfold save_new. apply bind_Raise. unfold lift. now rewrite Hc. }
      destruct (FlagInstance.status self =? 1) eqn:E; [|exact Hn].
      apply Z.eqb_eq in E. now rewrite (Hlim E).
Qed.

Lemma flag_added_runs_once_per_new_flag_witness :
  let cfg := cfg_demo None None in
  let fc := FlaggedContent.mk (Some 1%nat) ("blog", "post") 7 None 1 None 4 in
  let flag := FlagInstance.mk (Some 1%nat) fc 2 None 2 in
  FlagInstance_save cfg (flag_demo 3) true true (st_demo 3)
  = Model_save_FlagInstance (flag_demo 3) (st_demo 3)
  /\ FlagInstance_save cfg (new_flag_demo 3 None 2) true true (st_demo 3)
     = (Return flag,
        mkStore [fc] [FlagInstance.mk_row 1 1 2 None 2]
                [content_flagged fc flag])
  /\ outbox (snd (FlagInstance_save cfg (new_flag_demo 3 None 2) true true
                    (st_demo 3)))
     = [content_flagged fc flag]
  /\ FlagInstance_save cfg (new_flag_demo 3 (Some "spam") 2) true true
       (st_demo 3)
     = (Raise (FlagCommentException "You are not allowed to add a comment"),
        st_demo 3).
Proof.
  intros cfg fc flag. split; [|split; [|split]].
  - destruct (flag_added_runs_once_per_new_flag cfg (flag_demo 3) true true
                (st_demo 3)) as (A & _).
    exact (proj1 (A eq_refl)).
  - destruct (flag_added_runs_once_per_new_flag cfg (new_flag_demo 3 None 2)
                true true (st_demo 3)) as (_ & B & _).
    refine (B eq_refl _ eq_refl _ _ eq_refl). discriminate.
  - destruct (flag_added_runs_once_per_new_flag cfg (new_flag_demo 3 None 2)
                true true (st_demo 3)) as (_ & _ & C & _).
    exact (C eq_refl flag _ eq_refl).
  - destruct (flag_added_runs_once_per_new_flag cfg
                (new_flag_demo 3 (Some "spam") 2) true true (st_demo 3))
      as (_ & _ & _ & D).
    refine (D eq_refl _ (or_intror (conj _ eq_refl))). discriminate.
Defined.

(** ** Saving a record that is already stored *)

(** C6 as the specification words it fails on the aggregate: every
    [FlaggedContent.save] starts with the check that the model can be
    flagged.  An aggregate of [blog.post] stored while every model could be
    flagged is saved again once [MODELS] lists [auth.user] only: the check
    runs and the save raises, where the inherited save alone would have
    gone through. *)
Lemma resave_validates_counterexample :
  flagged_contents
    (snd (get_or_create_for_object (cfg_demo None None) post_demo None None
            empty_store))
  = [fc_demo 0]
  /\ FlaggedContent_save cfg_closed (fc_demo 0) None (st_demo 0)
     = (Raise (ModelCannotBeFlaggedException "This model cannot be flagged"),
        st_demo 0)
  /\ Model_save_FlaggedContent (fc_demo 0) None (st_demo 0)
     = (Return (fc_demo 0), st_demo 0).
Proof. repeat split. Qed.

Lemma FlaggedContent_save_stored cfg self p st :
  FlaggedContent.id self = Some p ->
  existsb (has_pk p) (flagged_contents st) = true ->
  FlaggedContent_save cfg self None st
  = if negb (model_can_be_flagged cfg (content_object cfg self))
    then (Raise (ModelCannotBeFlaggedException "This model cannot be flagged"),
          st)
    else if negb (unique_together self (flagged_contents st))
    then (Raise IntegrityError, st)
    else (Return self,
          with_flagged_contents st
            (map (fun r => if has_pk p r then self else r)
                 (flagged_contents st))).
Proof.
  intros Hid Hex.
  unfold FlaggedContent_save, bind, lift, assert_model_can_be_flagged.
  destruct (negb (model_can_be_flagged cfg (content_object cfg self)));
    [reflexivity|].
  unfold Model_save_FlaggedContent.
  destruct (negb (unique_together self (flagged_contents st)));
    [reflexivity|].
  now rewrite Hid, Hex.
Qed.

(** C6, as the code has it.  The save of a flag that is already stored is
    the inherited save alone: no test of the limits or of the comment, no
    change to any aggregate, hence to any count, no signal and no mail.
    The save of an aggregate that is already stored never touches the
    flags and sends nothing, and the row it writes carries the count of the
    object as it is; but it does run the check that the model can be
    flagged, and raises [ModelCannotBeFlaggedException] when it fails. *)
Theorem resave_of_stored_records (cfg : Settings) (st : Store) :
  (forall self send_signal send_mails,
     truthy_id (FlagInstance.id self) = true ->
     FlagInstance_save cfg self send_signal send_mails st
     = Model_save_FlagInstance self st
     /\ flagged_contents
          (snd (FlagInstance_save cfg self send_signal send_mails st))
        = flagged_contents st
     /\ outbox (snd (FlagInstance_save cfg self send_signal send_mails st))
        = outbox st
     /\ (forall e,
           fst (FlagInstance_save cfg self send_signal send_mails st)
           = Raise e -> e = IntegrityError))
  /\ (forall self p,
        FlaggedContent.id self = Some p ->
        existsb (has_pk p) (flagged_contents st) = true ->
        flag_instances (snd (FlaggedContent_save cfg self None st))
        = flag_instances st
        /\ outbox (snd (FlaggedContent_save cfg self None st)) = outbox st
        /\ (model_can_be_flagged cfg (content_object cfg self) = false ->
            FlaggedContent_save cfg self None st
            = (Raise (ModelCannotBeFlaggedException
                        "This model cannot be flagged"), st))
        /\ (model_can_be_flagged cfg (content_object cfg self) = true ->
            FlaggedContent_save cfg self None st
            = Model_save_FlaggedContent self None st)
        /\ (forall r st',
              FlaggedContent_save cfg self None st = (Return r, st') ->
              r = self
              /\ flagged_contents st'
                 = map (fun row => if has_pk p row then self else row)
                       (flagged_contents st))).
Proof.
  split.
  - intros self send_signal send_mails Hold.
    rewrite (FlagInstance_save_existing _ _ _ _ _ Hold).
    split; [reflexivity|].
    destruct (Model_save_FlagInstance self st) as [r st'] eqn:E.
    pose proof (Model_save_FlagInstance_frame _ _ _ _ E) as [F1 F2].
    simpl. split; [exact F1|]. split; [exact F2|].
    intros e ->. now apply Model_save_FlagInstance_raises in E.
  - intros self p Hid Hex.
    destruct (FlaggedContent_save cfg self None st) as [r st'] eqn:E.
    pose proof (FlaggedContent_save_frame _ _ _ _ _ _ E) as [F1 F2].
    simpl. split; [exact F1|]. split; [exact F2|].
    rewrite <- E. clear E F1 F2 r st'.
    split; [|split].
    + intros Hm. rewrite (FlaggedContent_save_stored _ _ _ _ Hid Hex), Hm.
      reflexivity.
    + intros Hm. unfold FlaggedContent_save, bind, lift,
        assert_model_can_be_flagged. now rewrite Hm.
    + intros r st'. rewrite (FlaggedContent_save_stored _ _ _ _ Hid Hex).
      destruct (negb (model_can_be_flagged cfg (content_object cfg self)));
        [discriminate|].
      destruct (negb (unique_together self (flagged_contents st)));
        [discriminate|].
      intros H. injection H as <- <-. auto.
Qed.

Lemma resave_of_stored_records_witness :
  let cfg := cfg_demo (Some 1) (Some 1) in
  FlagInstance_save cfg (flag_demo 5) true true (st_demo 5)
  = (Return (flag_demo 5),
     mkStore [fc_demo 5] [FlagInstance.mk_row 1 1 1 None 1] [])
  /\ FlaggedContent_save cfg (fc_demo 5) None (st_demo 5)
     = (Return (fc_demo 5), st_demo 5)
  /\ FlaggedContent_save cfg_closed (fc_demo 5) None (st_demo 5)
     = (Raise (ModelCannotBeFlaggedException "This model cannot be flagged"),
        st_demo 5).
Proof.
  intros cfg. split; [|split].
  - destruct (resave_of_stored_records cfg (st_demo 5)) as (A & _).
    exact (proj1 (A (flag_demo 5) true true eq_refl)).
  - destruct (resave_of_stored_records cfg (st_demo 5)) as (_ & B).
    destruct (B (fc_demo 5) 1%nat eq_refl eq_refl) as (_ & _ & _ & C & _).
    exact (C eq_refl).
  - destruct (resave_of_stored_records cfg_closed (st_demo 5)) as (_ & B).
    destruct (B (fc_demo 5) 1%nat eq_refl eq_refl) as (_ & _ & C & _).
    exact (C eq_refl).
Defined.

(** ** [get_or_create_for_object] *)

Lemma for_object_refl content_type object_id self :
  FlaggedContent.content_type self = content_type ->
  FlaggedContent.object_id self = object_id ->
  for_object content_type object_id self = true.
Proof.
  intros <- <-. unfold for_object, content_type_eqb.
  now rewrite !String.eqb_refl, Z.eqb_refl.
Qed.

(** The three ways [get_or_create_for_object] can end. *)
Lemma get_or_create_for_object_inv cfg object creator status st r st1 :
  get_or_create_for_object cfg object creator status st = (r, st1) ->
  (exists e, r = Raise e /\ st1 = st
             /\ limit_error e = false /\ comment_error e = false)
  \/ (exists fc,
        r = Return (fc, false) /\ st1 = st
        /\ find (for_object (co_content_type object) (co_id object))
                (flagged_contents st) = Some fc)
  \/ (let fc :=
        FlaggedContent.mk
          (Some (next_id (FlaggedContent_ids (flagged_contents st))))
          (co_content_type object) (co_id object) creator
          (match status with Some s => s | None => 1 end) None 0 in
      r = Return (fc, true)
      /\ st1 = with_flagged_contents st (fc :: flagged_contents st)
      /\ find (for_object (co_content_type object) (co_id object))
              (flagged_contents st) = None).
Proof.
  unfold get_or_create_for_object, bind, read.
  destruct (find _ (flagged_contents st)) as [fc|] eqn:Ef.
  - unfold ret. intros H. injection H as <- <-. right. left. eauto.
  - destruct (FlaggedContent_save cfg _ None st) as [[fc|e] st2] eqn:Es.
    + unfold ret. intros H. injection H as <- <-. right. right.
      revert Es. unfold FlaggedContent_save, bind, lift.
      destruct (assert_model_can_be_flagged cfg _); [|discriminate].
      unfold Model_save_FlaggedContent.
      destruct (negb (unique_together _ (flagged_contents st)));
        [discriminate|].
      simpl. intros H. injection H as <- <-. auto.
    + intros H. injection H as <- <-. left. exists e.
      apply FlaggedContent_save_raises in Es as (-> & E1 & E2). auto.
Qed.

(** C9.  [get_or_create_for_object] called again for the same object
    returns the aggregate the first call returned, with [created = False],
    and leaves the store as it is, whatever [content_creator] and [status]
    the second call passes; the two arguments are used only by a call that
    creates the aggregate, which then carries them ([status] defaulting to
    1) and a count of 0. *)
Theorem get_or_create_for_object_idempotent (cfg cfg' : Settings)
  (object : ContentObject) (creator creator' : option User)
  (status status' : option Z) (st st1 : Store) (fc : FlaggedContent.t)
  (created : bool) :
  get_or_create_for_object cfg object creator status st
  = (Return (fc, created), st1) ->
  get_or_create_for_object cfg' object creator' status' st1
  = (Return (fc, false), st1)
  /\ (created = true ->
      FlaggedContent.creator fc = creator
      /\ FlaggedContent.status fc = match status with
                                    | Some s => s
                                    | None => 1
                                    end
      /\ FlaggedContent.count fc = 0
      /\ flagged_contents st1 = fc :: flagged_contents st)
  /\ (created = false -> st1 = st /\ In fc (flagged_contents st)).
Proof.
  intros H.
  apply get_or_create_for_object_inv in H
    as [(e & Hr & _) | [(fc0 & Hr & -> & Hf) | (Hr & -> & Hf)]];
    [discriminate | |]; injection Hr as -> ->.
  - split; [|split].
    + unfold get_or_create_for_object, bind, read. now rewrite Hf.
    + discriminate.
    + intros _. split; [reflexivity|]. now apply find_some in Hf.
  - split; [|split].
    + unfold get_or_create_for_object, bind, read. simpl.
      now rewrite for_object_refl.
    + intros _. repeat split.
    + discriminate.
Qed.

Lemma get_or_create_for_object_idempotent_witness :
  let cfg := cfg_demo None None in
  let fc := FlaggedContent.mk (Some 1%nat) ("blog", "post") 7 (Some 5) 1
              None 0 in
  get_or_create_for_object cfg post_demo (Some 5) None empty_store
  = (Return (fc, true), mkStore [fc] [] [])
  /\ get_or_create_for_object cfg_closed post_demo (Some 9) (Some 3)
       (mkStore [fc] [] [])
     = (Return (fc, false), mkStore [fc] [] []).
Proof.
  intros cfg fc. split; [reflexivity|].
  exact (proj1 (get_or_create_for_object_idempotent cfg cfg_closed post_demo
                  (Some 5) (Some 9) None (Some 3) empty_store
                  (mkStore [fc] [] []) fc true eq_refl)).
Defined.

(** ** The count of an aggregate *)

Lemma has_pk_iff p r : has_pk p r = true <-> FlaggedContent.id r = Some p.
Proof.
  unfold has_pk. destruct (FlaggedContent.id r) as [j|].
  - rewrite Nat.eqb_eq. split; [now intros -> | intros H; now injection H].
  - split; discriminate.
Qed.

Lemma flags_of_cons p row rows :
  flags_of p (row :: rows) = flags_of p rows + one_more row p.
Proof.
  unfold flags_of, one_more. simpl.
  destruct (is_flag_of p row); simpl length; lia.
Qed.

Lemma has_pk_le i rows :
  existsb (has_pk i) rows = true ->
  (i <= fold_right Nat.max 0 (FlaggedContent_ids rows))%nat.
Proof.
  induction rows as [|r rows IH]; [discriminate|].
  simpl. intros H. apply orb_prop in H as [H|H].
  - apply has_pk_iff in H. rewrite H. simpl. lia.
  - specialize (IH H).
    destruct (FlaggedContent.id r); simpl; lia.
Qed.

Lemma next_id_fresh rows :
  existsb (has_pk (next_id (FlaggedContent_ids rows))) rows = false.
Proof.
  destruct (existsb _ rows) eqn:E; [|reflexivity].
  apply has_pk_le in E. unfold next_id in E. lia.
Qed.

Lemma flags_of_no_parent p st :
  flags_have_parent st ->
  existsb (has_pk p) (flagged_contents st) = false ->
  flags_of p (flag_instances st) = 0.
Proof.
  intros Hp Hno. unfold flags_of.
  destruct (filter (is_flag_of p) (flag_instances st)) as [|row l] eqn:E;
    [reflexivity|].
  assert (Hin : In row (filter (is_flag_of p) (flag_instances st)))
    by (rewrite E; now left).
  apply filter_In in Hin as [Hin Hf].
  apply andb_prop in Hf as [Hf _]. apply Nat.eqb_eq in Hf.
  specialize (Hp row Hin). rewrite Hf in Hp. congruence.
Qed.

Lemma stored_count_flags p st :
  consistent st -> stored_count p st = flags_of p (flag_instances st).
Proof.
  intros [Hc Hp]. unfold stored_count.
  destruct (find (has_pk p) (flagged_contents st)) as [r|] eqn:E.
  - apply find_some in E as [Hin Hr]. apply has_pk_iff in Hr.
    destruct (Hc r Hin) as (q & Hq & ->). congruence.
  - symmetry. apply flags_of_no_parent; [assumption|].
    destruct (existsb (has_pk p) (flagged_contents st)) eqn:Ex;
      [|reflexivity].
    apply existsb_exists in Ex as (x & Hin & Hx).
    now rewrite (find_none _ _ E x Hin) in Hx.
Qed.

Lemma existsb_has_pk_rewrite q p g rows :
  (forall r, FlaggedContent.id (g r) = Some p) ->
  existsb (has_pk q) (rewrite_pk p g rows) = existsb (has_pk q) rows.
Proof.
  intros Hg. induction rows as [|r rows IH]; [reflexivity|].
  simpl. rewrite IH. f_equal.
  destruct (has_pk p r) eqn:E; [|reflexivity].
  apply has_pk_iff in E. unfold has_pk. now rewrite Hg, E.
Qed.

Lemma unique_together_rewrite self p g rows :
  FlaggedContent.id self = Some p ->
  (forall r, FlaggedContent.id (g r) = Some p) ->
  unique_together self rows = true ->
  unique_together self (rewrite_pk p g rows) = true.
Proof.
  intros Hid Hg. unfold unique_together, rewrite_pk.
  rewrite !forallb_forall. intros H x Hx.
  apply in_map_iff in Hx as (r & <- & Hr).
  destruct (has_pk p r) eqn:E; [|now apply H].
  unfold same_pk. rewrite Hid.
  replace (has_pk p (g r)) with true; [apply orb_true_r|].
  symmetry. apply has_pk_iff, Hg.
Qed.

Lemma In_existsb_has_pk r p rows :
  In r rows -> FlaggedContent.id r = Some p ->
  existsb (has_pk p) rows = true.
Proof.
  intros Hin Hid. apply existsb_exists. exists r. split; [assumption|].
  now apply has_pk_iff.
Qed.

(** Rows of key [p] rewritten into rows whose count is the number of
    status-1 flags of [p] in the flag table [flags]: the store stays
    consistent provided the other rows already agree with [flags]. *)
Lemma consistent_rewrite p g rows flags out :
  (forall r, FlaggedContent.id (g r) = Some p) ->
  (forall r, In r rows -> has_pk p r = true ->
             FlaggedContent.count (g r) = flags_of p flags) ->
  (forall r, In r rows -> has_pk p r = false ->
             exists q, FlaggedContent.id r = Some q
                       /\ FlaggedContent.count r = flags_of q flags) ->
  (forall row, In row flags ->
               existsb (has_pk (FlagInstance.flagged_content_id row)) rows
               = true) ->
  consistent (mkStore (rewrite_pk p g rows) flags out).
Proof.
  intros Hg Hp Hq Hpar. split.
  - intros x Hx. simpl in Hx. unfold rewrite_pk in Hx.
    apply in_map_iff in Hx as (r & <- & Hr).
    destruct (has_pk p r) eqn:E.
    + exists p. split; [apply Hg | now apply Hp].
    + now apply Hq.
  - intros row Hrow. simpl in *.
    rewrite (existsb_has_pk_rewrite _ _ _ _ Hg). now apply Hpar.
Qed.

Lemma grows_refl st : grows st st.
Proof. intros q H. exact H. Qed.

Lemma grows_trans st1 st2 st3 : grows st1 st2 -> grows st2 st3 -> grows st1 st3.
Proof. intros A B q H. apply B, A, H. Qed.

Ltac unchanged Hc :=
  split; [exact Hc|]; split; [reflexivity|]; split; [apply grows_refl|];
  intros; discriminate.

Lemma get_or_create_for_object_consistent cfg object creator status st r st1 :
  consistent st ->
  get_or_create_for_object cfg object creator status st = (r, st1) ->
  consistent st1
  /\ flag_instances st1 = flag_instances st
  /\ grows st st1
  /\ (forall fc created, r = Return (fc, created) ->
                         In fc (flagged_contents st1)).
Proof.
  intros Hc H.
  apply get_or_create_for_object_inv in H
    as [(e & -> & -> & _) | [(fc0 & -> & -> & Hf) | (-> & -> & Hf)]].
  - unchanged Hc.
  - split; [exact Hc|]. split; [reflexivity|]. split; [apply grows_refl|].
    intros fc created H. injection H as <- _. now apply find_some in Hf.
  - destruct Hc as [Hc Hp].
    set (n := next_id (FlaggedContent_ids (flagged_contents st))).
    split; [split|].
    + intros x [<- | Hx].
      * exists n. split; [reflexivity|]. simpl. symmetry.
        apply (flags_of_no_parent n st Hp). apply next_id_fresh.
      * now apply Hc.
    + intros row Hrow. simpl. rewrite (Hp row Hrow). apply orb_true_r.
    + split; [reflexivity|]. split.
      * intros q Hq. simpl. rewrite Hq. apply orb_true_r.
      * intros fc created H. injection H as <- _. now left.
Qed.

Lemma FlaggedContent_save_consistent cfg fc fc2 st1 r st2 :
  consistent st1 ->
  In fc (flagged_contents st1) ->
  FlaggedContent.id fc2 = FlaggedContent.id fc ->
  FlaggedContent.count fc2 = FlaggedContent.count fc ->
  FlaggedContent_save cfg fc2 None st1 = (r, st2) ->
  consistent st2
  /\ flag_instances st2 = flag_instances st1
  /\ grows st1 st2
  /\ (forall x, r = Return x ->
        x = fc2
        /\ exists p,
             FlaggedContent.id fc2 = Some p
             /\ existsb (has_pk p) (flagged_contents st2) = true
             /\ model_can_be_flagged cfg (content_object cfg fc2) = true
             /\ unique_together fc2 (flagged_contents st2) = true).
Proof.
  intros Hc Hin Hid Hcount.
  destruct (proj1 Hc fc Hin) as (p & Hp & Hcp).
  rewrite Hp in Hid.
  pose proof (In_existsb_has_pk _ _ _ Hin Hp) as Hex.
  rewrite (FlaggedContent_save_stored _ _ _ _ Hid Hex).
  destruct (negb (model_can_be_flagged cfg (content_object cfg fc2))) eqn:Em.
  { intros H. injection H as <- <-. unchanged Hc. }
  destruct (negb (unique_together fc2 (flagged_contents st1))) eqn:Eu.
  { intros H. injection H as <- <-. unchanged Hc. }
  apply negb_false_iff in Em, Eu.
  intros H. injection H as <- <-.
  change (map (fun r => if has_pk p r then fc2 else r) (flagged_contents st1))
    with (rewrite_pk p (fun _ => fc2) (flagged_contents st1)).
  split; [|split; [reflexivity|split]].
  - apply consistent_rewrite.
    + intros _. exact Hid.
    + intros r _ _. congruence.
    + intros r Hr Hnp. exact (proj1 Hc r Hr).
    + exact (proj2 Hc).
  - intros q Hq. simpl.
    now rewrite (existsb_has_pk_rewrite q p (fun _ => fc2) _ (fun _ => Hid)).
  - intros x Hx. injection Hx as <-. split; [reflexivity|].
    exists p. simpl.
    rewrite (existsb_has_pk_rewrite p p (fun _ => fc2) _ (fun _ => Hid)).
    repeat split; try assumption.
    now apply unique_together_rewrite.
Qed.

Lemma consistent_ext st st' :
  flagged_contents st' = flagged_contents st ->
  flag_instances st' = flag_instances st ->
  consistent st -> consistent st'.
Proof.
  intros H1 H2 [Hc Hp]. split.
  - intros r Hr. rewrite H1 in Hr. rewrite H2. now apply Hc.
  - intros row Hrow. rewrite H2 in Hrow. rewrite H1. now apply Hp.
Qed.

Lemma grows_ext st st' :
  flagged_contents st' = flagged_contents st -> grows st st'.
Proof. intros H q Hq. now rewrite H. Qed.

(** The increment goes through on an aggregate that has just been saved. *)
Lemma count_step_stored cfg self p st :
  FlaggedContent.id self = Some p ->
  existsb (has_pk p) (flagged_contents st) = true ->
  model_can_be_flagged cfg (content_object cfg self) = true ->
  unique_together self (flagged_contents st) = true ->
  FlaggedContent.status self = 1 ->
  exists c,
    count_step cfg self st
    = (Return (FlaggedContent.set_count self c),
       with_flagged_contents st (bump self p (flagged_contents st))).
Proof.
  intros Hid Hex Hm Hu Hs.
  assert (Hsave : FlaggedContent_save cfg self
                    (Some (fun count => count + 1)) st
                  = (Return self,
                     with_flagged_contents st
                       (bump self p (flagged_contents st)))).
  { unfold FlaggedContent_save, bind, lift, assert_model_can_be_flagged.
    rewrite Hm. simpl. unfold Model_save_FlaggedContent.
    now rewrite Hu, Hid, Hex. }
  assert (Hget : exists x,
             find (has_pk p) (bump self p (flagged_contents st)) = Some x).
  { destruct (find (has_pk p) (bump self p (flagged_contents st))) as [x|]
      eqn:E; [eauto|].
    exfalso.
    apply existsb_exists in Hex as (r & Hin & Hr).
    assert (Hnew : has_pk p (FlaggedContent.set_count self
                                (FlaggedContent.count r + 1)) = false).
    { apply (find_none _ _ E). unfold bump. apply in_map_iff.
      exists r. now rewrite Hr. }
    revert Hnew. unfold has_pk. simpl. rewrite Hid, Nat.eqb_refl.
    discriminate. }
  destruct Hget as (x & Hx).
  exists (FlaggedContent.count x).
  unfold count_step. rewrite Hs. simpl.
  rewrite (bind_Return _ _ _ _ _ Hsave).
  unfold bind, FlaggedContent_objects_get. rewrite Hid. simpl.
  now rewrite Hx.
Qed.

Lemma one_more_same p row :
  FlagInstance.flagged_content_id row = p ->
  FlagInstance.row_status row = 1 ->
  one_more row p = 1.
Proof.
  intros H1 H2. unfold one_more, is_flag_of.
  now rewrite H1, H2, Nat.eqb_refl.
Qed.

Lemma one_more_other_status q row :
  FlagInstance.row_status row <> 1 -> one_more row q = 0.
Proof.
  intros H. unfold one_more, is_flag_of.
  apply Z.eqb_neq in H. rewrite H. now rewrite andb_false_r.
Qed.

Lemma one_more_other_parent q row :
  FlagInstance.flagged_content_id row <> q -> one_more row q = 0.
Proof.
  intros H. unfold one_more, is_flag_of.
  apply Nat.eqb_neq in H. now rewrite H.
Qed.

(** The tables after the insert of [row] under [p] and the call of
    [flag_added] on an aggregate whose status is the status of the row. *)
Lemma consistent_after_flag p self row st :
  consistent st ->
  FlaggedContent.id self = Some p ->
  existsb (has_pk p) (flagged_contents st) = true ->
  FlagInstance.flagged_content_id row = p ->
  FlagInstance.row_status row = FlaggedContent.status self ->
  consistent
    (mkStore (if FlaggedContent.status self =? 1
              then bump self p (flagged_contents st)
              else flagged_contents st)
             (row :: flag_instances st) (outbox st)).
Proof.
  intros [Hc Hp] Hid Hex Hrow Hst.
  destruct (FlaggedContent.status self =? 1) eqn:E.
  - apply Z.eqb_eq in E. rewrite E in Hst.
    change (bump self p (flagged_contents st))
      with (rewrite_pk p
              (fun r => FlaggedContent.set_count self
                          (FlaggedContent.count r + 1))
              (flagged_contents st)).
    apply consistent_rewrite.
    + intros r. exact Hid.
    + intros r Hr Hpk. simpl. apply has_pk_iff in Hpk.
      destruct (Hc r Hr) as (q & Hq & ->).
      assert (q = p) as -> by congruence.
      rewrite flags_of_cons, (one_more_same p row Hrow Hst). reflexivity.
    + intros r Hr Hpk. destruct (Hc r Hr) as (q & Hq & Hcount).
      exists q. split; [exact Hq|].
      rewrite flags_of_cons, one_more_other_parent; [lia|].
      rewrite Hrow. intros ->. apply has_pk_iff in Hq. congruence.
    + intros x [<- | Hx]; [now rewrite Hrow | now apply Hp].
  - apply Z.eqb_neq in E. split.
    + intros r Hr. simpl in *. destruct (Hc r Hr) as (q & Hq & Hcount).
      exists q. split; [exact Hq|].
      rewrite flags_of_cons, one_more_other_status; [lia | congruence].
    + intros x [<- | Hx]; simpl; [now rewrite Hrow | now apply Hp].
Qed.

Lemma FlagInstance_save_consistent cfg flag send_signal send_mails st p r st' :
  consistent st ->
  FlagInstance.id flag = None ->
  FlagInstance.status flag
  = FlaggedContent.status (FlagInstance.flagged_content flag) ->
  FlaggedContent.id (FlagInstance.flagged_content flag) = Some p ->
  existsb (has_pk p) (flagged_contents st) = true ->
  model_can_be_flagged cfg
    (content_object cfg (FlagInstance.flagged_content flag)) = true ->
  unique_together (FlagInstance.flagged_content flag) (flagged_contents st)
  = true ->
  FlagInstance_save cfg flag send_signal send_mails st = (r, st') ->
  consistent st'
  /\ grows st st'
  /\ (flag_instances st' = flag_instances st
      \/ exists row, flag_instances st' = row :: flag_instances st).
Proof.
  intros Hc Hid Hst Hp Hex Hm Hu.
  assert (Hsame : forall e, (Raise e, st) = (r, st') ->
            consistent st' /\ grows st st'
            /\ (flag_instances st' = flag_instances st
                \/ exists row, flag_instances st' = row :: flag_instances st)).
  { intros e H. injection H as <- <-.
    split; [exact Hc|]. split; [apply grows_refl | now left]. }
  rewrite FlagInstance_save_new by now rewrite Hid.
  assert (Hn : save_new cfg flag send_signal send_mails st = (r, st') ->
               consistent st' /\ grows st st'
               /\ (flag_instances st' = flag_instances st
                   \/ exists row,
                        flag_instances st' = row :: flag_instances st)).
  { unfold save_new. intros H.
    bind_cases H as u st1 Hcc H.
    2:{ unfold lift in Hcc. injection Hcc as _ <-. subst r.
        split; [exact Hc|]. split; [apply grows_refl | now left]. }
    unfold lift in Hcc. injection Hcc as _ <-.
    pose proof (Model_save_FlagInstance_insert flag st p Hid Hp Hex) as Hs.
    cbv zeta in Hs.
    set (i := next_id (map FlagInstance.row_id (flag_instances st))) in *.
    set (row := FlagInstance.mk_row i p (FlagInstance.user flag)
                  (FlagInstance.comment flag) (FlagInstance.status flag))
      in *.
    rewrite (bind_Return _ _ _ _ _ Hs) in H.
    simpl FlagInstance.flagged_content in H.
    set (fc := FlagInstance.flagged_content flag) in *.
    set (st1 := with_flag_instances st (row :: flag_instances st)) in *.
    assert (Htables :
              flagged_contents st'
              = (if FlaggedContent.status fc =? 1
                 then bump fc p (flagged_contents st)
                 else flagged_contents st)
              /\ flag_instances st' = row :: flag_instances st).
    { destruct (flag_added cfg fc (FlagInstance.set_id flag (Some i))
                  send_signal send_mails st1) as [x st2] eqn:Hf.
      assert (st' = st2) as ->.
      { unfold bind in H. rewrite Hf in H.
        destruct x; unfold ret in H; now injection H. }
      clear H. rewrite flag_added_steps in Hf.
      destruct (FlaggedContent.status fc =? 1) eqn:E.
      - apply Z.eqb_eq in E.
        destruct (count_step_stored cfg fc p st1 Hp Hex Hm Hu E)
          as (c & Hcs).
        rewrite (bind_Return _ _ _ _ _ Hcs) in Hf.
        apply notify_step_inv in Hf as (-> & -> & _). auto.
      - assert (Hcs : count_step cfg fc st1 = (Return fc, st1)).
        { unfold count_step. now rewrite E. }
        rewrite (bind_Return _ _ _ _ _ Hcs) in Hf.
        apply notify_step_inv in Hf as (-> & -> & _). auto. }
    destruct Htables as [T1 T2].
    split; [|split].
    - apply (consistent_ext
               (mkStore (if FlaggedContent.status fc =? 1
                         then bump fc p (flagged_contents st)
                         else flagged_contents st)
                        (row :: flag_instances st) (outbox st)));
        [exact T1 | exact T2 |].
      apply consistent_after_flag; try assumption; reflexivity.
    - intros q Hq. rewrite T1.
      destruct (FlaggedContent.status fc =? 1); [|exact Hq].
      change (bump fc p (flagged_contents st))
        with (rewrite_pk p
                (fun r => FlaggedContent.set_count fc
                            (FlaggedContent.count r + 1))
                (flagged_contents st)).
      rewrite existsb_has_pk_rewrite; [exact Hq | intros; exact Hp].
    - right. eauto. }
  destruct (FlagInstance.status flag =? 1); [|exact Hn].
  destruct (assert_can_be_flagged_by_user cfg _ _ st);
    [exact Hn | apply Hsame].
Qed.

Lemma add_consistent cfg user object creator comment status send_signal
  send_mails st r st' :
  consistent st ->
  add cfg user object creator comment status send_signal send_mails st
  = (r, st') ->
  consistent st'
  /\ grows st st'
  /\ (flag_instances st' = flag_instances st
      \/ exists row, flag_instances st' = row :: flag_instances st).
Proof.
  intros Hc H. unfold add in H.
  bind_cases H as got st1 Hg H.
  2:{ apply (get_or_create_for_object_consistent _ _ _ _ _ _ _ Hc) in Hg
        as (C1 & F1 & G1 & _).
      split; [exact C1|]. split; [exact G1 | now left]. }
  apply (get_or_create_for_object_consistent _ _ _ _ _ _ _ Hc) in Hg
    as (C1 & F1 & G1 & Hin).
  destruct got as [fc created]. specialize (Hin fc created eq_refl).
  simpl fst in H.
  bind_cases H as fc2 st2 Hupd H.
  2:{ assert (st' = st1) as ->.
      { destruct (truthy status); [|discriminate].
        destruct (STATUSES cfg) as [|[d l] t]; [now injection Hupd|].
        destruct (negb (int_of status =? d)); discriminate. }
      split; [exact C1|]. split; [exact G1 | now left]. }
  assert (Hfc2 : st2 = st1
                 /\ FlaggedContent.id fc2 = FlaggedContent.id fc
                 /\ FlaggedContent.count fc2 = FlaggedContent.count fc
                 /\ (if truthy status then int_of status
                     else FlaggedContent.status fc2)
                    = FlaggedContent.status fc2).
  { destruct (truthy status).
    - destruct (STATUSES cfg) as [|[d l] t]; [discriminate|].
      destruct (negb (int_of status =? d)); unfold ret in Hupd;
        injection Hupd as <- <-; auto.
    - unfold ret in Hupd. injection Hupd as <- <-. auto. }
  destruct Hfc2 as (-> & Hid2 & Hcount2 & Hstatus2). clear Hupd.
  bind_cases H as fc3 st3 Hsave H.
  2:{ apply (FlaggedContent_save_consistent _ _ _ _ _ _ C1 Hin Hid2 Hcount2)
        in Hsave as (C2 & F2 & G2 & _).
      split; [exact C2|]. split; [exact (grows_trans _ _ _ G1 G2)|].
      left. congruence. }
  apply (FlaggedContent_save_consistent _ _ _ _ _ _ C1 Hin Hid2 Hcount2)
    in Hsave as (C2 & F2 & G2 & Hret).
  destruct (Hret fc3 eq_refl) as (-> & p & Hp & Hex & Hm & Hu).
  apply (FlagInstance_save_consistent cfg _ send_signal send_mails st3 p
           r st' C2) in H as (C3 & G3 & F3); try assumption;
    try reflexivity.
  split; [exact C3|]. split.
  - exact (grows_trans _ _ _ G1 (grows_trans _ _ _ G2 G3)).
  - rewrite <- F1, <- F2. exact F3.
Qed.

Lemma reachable_consistent st : reachable st -> consistent st.
Proof.
  induction 1 as [|cfg user object creator comment status ss sm st _ IH].
  - split; intros x [].
  - destruct (add cfg user object creator comment status ss sm st)
      as [r st'] eqn:E.
    now apply (add_consistent _ _ _ _ _ _ _ _ _ _ _ IH) in E.
Qed.

(** C1.  In every store that calls of [add] have built, the [count] of
    each aggregate is the number of its flag rows of status 1.  The count
    is kept by increments: a further call of [add] either creates no flag
    and leaves every count as it is, or creates exactly one flag row and
    then adds exactly one to the count of the aggregate of that row when
    the status of the row is 1, and nothing to any other count. *)
Theorem count_is_number_of_status_1_flags (st : Store) :
  reachable st ->
  (forall r, In r (flagged_contents st) ->
     exists p,
       FlaggedContent.id r = Some p
       /\ FlaggedContent.count r
          = Z.of_nat
              (length
                 (filter (fun row =>
                            Nat.eqb (FlagInstance.flagged_content_id row) p
                            && (FlagInstance.row_status row =? 1))
                         (flag_instances st))))
  /\ (forall cfg user object creator comment status send_signal send_mails,
        let st' := snd (add cfg user object creator comment status
                            send_signal send_mails st) in
        (flag_instances st' = flag_instances st
         /\ forall p, stored_count p st' = stored_count p st)
        \/ (exists row,
              flag_instances st' = row :: flag_instances st
              /\ forall p,
                   stored_count p st'
                   = stored_count p st
                     + (if Nat.eqb (FlagInstance.flagged_content_id row) p
                           && (FlagInstance.row_status row =? 1)
                        then 1 else 0))).
Proof.
  intros Hr. pose proof (reachable_consistent st Hr) as Hc. split.
  - exact (proj1 Hc).
  - intros cfg user object creator comment status ss sm.
    destruct (add cfg user object creator comment status ss sm st)
      as [r st'] eqn:E.
    apply (add_consistent _ _ _ _ _ _ _ _ _ _ _ Hc) in E
      as (Hc' & _ & [F | (row & F)]); simpl.
    + left. split; [exact F|]. intros p.
      rewrite !stored_count_flags by assumption. now rewrite F.
    + right. exists row. split; [exact F|]. intros p.
      rewrite !stored_count_flags by assumption.
      rewrite F. apply flags_of_cons.
Qed.

Lemma count_is_number_of_status_1_flags_witness :
  reachable after_two_flags
  /\ stored_count 1 after_two_flags = 2
  /\ forall r, In r (flagged_contents after_two_flags) ->
       exists p,
         FlaggedContent.id r = Some p
         /\ FlaggedContent.count r
            = Z.of_nat
                (length
                   (filter (fun row =>
                              Nat.eqb (FlagInstance.flagged_content_id row) p
                              && (FlagInstance.row_status row =? 1))
                           (flag_instances after_two_flags))).
Proof.
  assert (R : reachable after_two_flags)
    by (unfold after_two_flags; do 2 apply reachable_add;
        apply reachable_empty).
  split; [exact R|]. split; [reflexivity|].
  exact (proj1 (count_is_number_of_status_1_flags after_two_flags R)).
Defined.

(** Outside [add] a flag can be saved under an aggregate of another status.
    [flag_added] tests the status of the aggregate, not of the flag: a flag
    of status 1 saved under an aggregate of status 2 is inserted and the
    count stays as it is.  [add] never does this, it gives the flag the
    status of its aggregate. *)
Remark direct_save_tests_the_aggregate :
  let fc := FlaggedContent.mk (Some 1%nat) ("blog", "post") 7 None 2 None 0 in
  let flag := FlagInstance.mk None fc 1 None 1 in
  snd (FlagInstance_save (cfg_demo None None) flag false false
         (mkStore [fc] [] []))
  = mkStore [fc] [FlagInstance.mk_row 1 1 1 None 1] [].
Proof. reflexivity. Qed.

(** * Further properties *)

(** ** The course of [add] *)

Lemma with_flagged_contents_same st :
  with_flagged_contents st (flagged_contents st) = st.
Proof. now destruct st. Qed.

Lemma for_object_iff content_type object_id r :
  for_object content_type object_id r = true
  <-> key_of r = (content_type, object_id).
Proof.
  unfold for_object, content_type_eqb, key_of.
  destruct (FlaggedContent.content_type r) as [a m], content_type as [a' m'].
  simpl. rewrite !andb_true_iff, !String.eqb_eq, Z.eqb_eq. split.
  - intros [[-> ->] ->]. reflexivity.
  - intros H. injection H as -> -> ->. auto.
Qed.

Lemma content_object_key cfg r r' :
  key_of r = key_of r' -> content_object cfg r = content_object cfg r'.
Proof. unfold key_of, content_object. intros H. injection H as -> ->. reflexivity. Qed.

Lemma content_object_for cfg fc object :
  key_of fc = (co_content_type object, co_id object) ->
  content_object cfg fc = content_object_of cfg object.
Proof.
  unfold key_of, content_object, content_object_of.
  intros H. injection H as -> ->. now destruct object.
Qed.

Lemma content_settings_key cfg r r' :
  key_of r = key_of r' -> content_settings cfg r = content_settings cfg r'.
Proof.
  intros H. unfold content_settings. now rewrite (content_object_key cfg r r').
Qed.

Lemma unique_together_new self rows :
  FlaggedContent.id self = None ->
  find (for_object (FlaggedContent.content_type self)
                   (FlaggedContent.object_id self)) rows = None ->
  unique_together self rows = true.
Proof.
  intros _ Hf. unfold unique_together. apply forallb_forall.
  intros r Hr. now rewrite (find_none _ _ Hf r Hr).
Qed.

Lemma get_or_create_for_object_cases cfg object creator status st r st1 :
  get_or_create_for_object cfg object creator status st = (r, st1) ->
  (find (for_object (co_content_type object) (co_id object))
        (flagged_contents st) = None
   /\ model_can_be_flagged cfg (content_object_of cfg object) = false
   /\ r = Raise (ModelCannotBeFlaggedException "This model cannot be flagged")
   /\ st1 = st)
  \/ (exists fc rows1 created,
        aggregate_of cfg object creator status st fc rows1
        /\ r = Return (fc, created)
        /\ st1 = with_flagged_contents st rows1).
Proof.
  unfold get_or_create_for_object, bind, read.
  destruct (find _ (flagged_contents st)) as [fc|] eqn:Ef.
  - unfold ret. intros H. injection H as <- <-. right.
    exists fc, (flagged_contents st), false.
    split; [left; auto|]. split; [reflexivity|].
    now rewrite with_flagged_contents_same.
  - set (obj := FlaggedContent.mk None (co_content_type object)
                  (co_id object) creator
                  (match status with Some s => s | None => 1 end) None 0).
    assert (Hco : content_object cfg obj = content_object_of cfg object)
      by (apply content_object_for; reflexivity).
    unfold FlaggedContent_save, bind, lift, assert_model_can_be_flagged.
    rewrite Hco.
    destruct (model_can_be_flagged cfg (content_object_of cfg object)) eqn:Em;
      simpl.
    + unfold Model_save_FlaggedContent.
      rewrite (unique_together_new obj _ eq_refl Ef). simpl.
      unfold ret. intros H. injection H as <- <-. right.
      eexists _, _, true. split; [right|split; reflexivity].
      repeat split; try assumption; reflexivity.
    + intros H. injection H as <- <-. left. auto.
Qed.

Lemma find_rewrite_pk p x rows :
  FlaggedContent.id x = Some p ->
  existsb (has_pk p) rows = true ->
  find (has_pk p) (rewrite_pk p (fun _ => x) rows) = Some x.
Proof.
  intros Hx. induction rows as [|r rows IH]; [discriminate|].
  simpl. destruct (has_pk p r) eqn:E.
  - intros _. now rewrite (proj2 (has_pk_iff p x) Hx).
  - simpl. intros H. rewrite E. exact (IH H).
Qed.

Lemma rewrite_pk_twice p x y rows :
  FlaggedContent.id x = Some p ->
  rewrite_pk p (fun _ => y) (rewrite_pk p (fun _ => x) rows)
  = rewrite_pk p (fun _ => y) rows.
Proof.
  intros Hx. unfold rewrite_pk. rewrite map_map. apply map_ext.
  intros r. destruct (has_pk p r) eqn:E; [|now rewrite E].
  now rewrite (proj2 (has_pk_iff p x) Hx).
Qed.

(** The increment on an aggregate that has just been saved: the reload
    reads the count of the object plus one. *)
Lemma count_step_saved cfg self p rows0 st :
  FlaggedContent.id self = Some p ->
  existsb (has_pk p) rows0 = true ->
  flagged_contents st = rewrite_pk p (fun _ => self) rows0 ->
  model_can_be_flagged cfg (content_object cfg self) = true ->
  unique_together self (flagged_contents st) = true ->
  count_step cfg self st
  = (Return (final_aggregate self),
     with_flagged_contents st
       (rewrite_pk p (fun _ => final_aggregate self) rows0)).
Proof.
  intros Hid Hex Hrows Hm Hu. unfold count_step, final_aggregate.
  destruct (FlaggedContent.status self =? 1) eqn:E.
  - assert (Hsave : FlaggedContent_save cfg self
                      (Some (fun count => count + 1)) st
                    = (Return self,
                       with_flagged_contents st
                         (rewrite_pk p
                            (fun _ => FlaggedContent.set_count self
                                        (FlaggedContent.count self + 1))
                            rows0))).
    { unfold FlaggedContent_save, bind, lift, assert_model_can_be_flagged.
      rewrite Hm. simpl. unfold Model_save_FlaggedContent.
      rewrite Hu, Hid. simpl.
      rewrite Hrows at 1.
      rewrite (existsb_has_pk_rewrite p p (fun _ => self) rows0
                 (fun _ => Hid)), Hex.
      do 2 f_equal. rewrite Hrows. unfold rewrite_pk.
      rewrite map_map. apply map_ext. intros r.
      destruct (has_pk p r) eqn:Er; [|now rewrite Er].
      now rewrite (proj2 (has_pk_iff p self) Hid). }
    rewrite (bind_Return _ _ _ _ _ Hsave).
    unfold bind, FlaggedContent_objects_get. rewrite Hid. simpl.
    rewrite find_rewrite_pk by assumption. reflexivity.
  - unfold ret. f_equal. rewrite <- Hrows.
    now rewrite with_flagged_contents_same.
Qed.

Lemma FlagInstance_send_mails_raises cfg flag st e st' :
  FlagInstance_send_mails cfg flag st = (Raise e, st') ->
  st' = st /\ e = AttributeError
  /\ content_object cfg (FlagInstance.flagged_content flag) = None.
Proof.
  unfold FlagInstance_send_mails.
  destruct (negb _); [discriminate|].
  destruct (content_object cfg _); [discriminate|].
  unfold raise. intros H. injection H as <- <-. auto.
Qed.

(** The two ways [notify_step] ends. *)
Lemma notify_step_cases cfg self flag send_signal send_mails st r st' :
  notify_step cfg self flag send_signal send_mails st = (r, st') ->
  let flag' := FlagInstance.set_flagged_content flag self in
  flagged_contents st' = flagged_contents st
  /\ flag_instances st' = flag_instances st
  /\ ((r = Return self
       /\ outbox st'
          = outbox st ++ signal_of send_signal self flag'
            ++ (if send_mails
                   && really_send_mails (content_settings cfg self)
                                        (FlaggedContent.count self)
                then mail_of cfg flag' else []))
      \/ (r = Raise AttributeError
          /\ outbox st' = outbox st ++ signal_of send_signal self flag'
          /\ content_object cfg self = None)).
Proof.
  intros H flag'.
  pose proof (notify_step_inv _ _ _ _ _ _ _ _ H) as (T1 & T2 & Re & Rr).
  split; [exact T1|]. split; [exact T2|].
  destruct r as [x|e].
  - left. destruct (Rr x eq_refl) as [-> Ho]. auto.
  - right. rewrite (Re e eq_refl). split; [reflexivity|].
    unfold notify_step in H. fold flag' in H.
    bind_cases H as u st1 Hsig H.
    + assert (Ho : outbox st1 = outbox st ++ signal_of send_signal self flag').
      { unfold signal_of. destruct send_signal.
        - unfold emit in Hsig. now injection Hsig as _ <-.
        - unfold ret in Hsig. injection Hsig as _ <-.
          now rewrite app_nil_r. }
      bind_cases H as u2 st2 Hm H; [discriminate|].
      destruct (send_mails && SEND_MAILS (content_settings cfg self));
        [|discriminate].
      destruct (really_send_mails _ _); [|discriminate].
      apply FlagInstance_send_mails_raises in Hm as (-> & _ & Hco).
      split; [exact Ho | exact Hco].
    + destruct send_signal; discriminate.
Qed.

Lemma add_status_keeps cfg user status fc fc2 :
  add_status cfg user status fc = Return fc2 ->
  FlaggedContent.id fc2 = FlaggedContent.id fc
  /\ key_of fc2 = key_of fc
  /\ FlaggedContent.creator fc2 = FlaggedContent.creator fc
  /\ FlaggedContent.count fc2 = FlaggedContent.count fc
  /\ FlaggedContent.status fc2
     = (if truthy status then int_of status else FlaggedContent.status fc)
  /\ FlaggedContent.moderator fc2
     = (if truthy status
           && negb (int_of status =? fst (hd (0, "") (STATUSES cfg)))
        then Some user else FlaggedContent.moderator fc).
Proof.
  unfold add_status. destruct (truthy status).
  - destruct (STATUSES cfg) as [|[d l] t]; [discriminate|]. simpl.
    destruct (negb (int_of status =? d)); intros H; injection H as <-;
      repeat split.
  - intros H. injection H as <-. repeat split.
Qed.

Lemma add_status_raises cfg user status fc e :
  add_status cfg user status fc = Raise e ->
  e = IndexError /\ truthy status = true /\ STATUSES cfg = [].
Proof.
  unfold add_status. destruct (truthy status); [|discriminate].
  destruct (STATUSES cfg) as [|[d l] t]; [|discriminate].
  intros H. injection H as <-. auto.
Qed.

Lemma aggregate_of_facts cfg object creator status st fc rows1 :
  (forall x, In x (flagged_contents st) ->
             exists p, FlaggedContent.id x = Some p) ->
  aggregate_of cfg object creator status st fc rows1 ->
  In fc rows1
  /\ key_of fc = (co_content_type object, co_id object)
  /\ exists p, FlaggedContent.id fc = Some p
               /\ existsb (has_pk p) rows1 = true.
Proof.
  intros Hk [[Hf ->] | (Hf & _ & -> & ->)].
  - apply find_some in Hf as [Hin Hfo]. split; [exact Hin|].
    split; [now apply for_object_iff|].
    destruct (Hk fc Hin) as (p & Hp). exists p. split; [exact Hp|].
    exact (In_existsb_has_pk _ _ _ Hin Hp).
  - split; [now left|]. split; [reflexivity|].
    eexists. split; [reflexivity|]. simpl.
    unfold has_pk at 1. simpl. now rewrite Nat.eqb_refl.
Qed.

(** Every run of [add] on a store whose aggregates have a key ends in one
    of the four ways of [add_outcome]. *)
Lemma add_cases cfg user object creator comment status send_signal send_mails
  st r st' :
  (forall x, In x (flagged_contents st) ->
             exists p, FlaggedContent.id x = Some p) ->
  add cfg user object creator comment status send_signal send_mails st
  = (r, st') ->
  add_outcome cfg user object creator comment status send_signal send_mails
    st r st'.
Proof.
  intros Hk H. unfold add in H.
  bind_cases H as got st1 Hg H.
  2:{ apply get_or_create_for_object_cases in Hg
        as [(Hf & Hm & Hr & ->) | (fc & rows1 & c & _ & Hr & _)];
        [|discriminate].
      injection Hr as ->. subst r. now apply add_not_flaggable. }
  apply get_or_create_for_object_cases in Hg
    as [(_ & _ & Hr & _) | (fc & rows1 & created & Hagg & Hr & ->)];
    [discriminate|].
  injection Hr as ->. simpl fst in H.
  destruct (aggregate_of_facts _ _ _ _ _ _ _ Hk Hagg)
    as (Hin & Hkey & p & Hp & Hex).
  set (st1 := with_flagged_contents st rows1) in *.
  (* the status and the moderator *)
  assert (Hupd : forall m,
            m = (if truthy status
                 then
                   match STATUSES cfg with
                   | [] => raise IndexError
                   | (default, _) :: _ =>
                       if negb (int_of status =? default)
                       then ret (FlaggedContent.set_moderator
                                   (FlaggedContent.set_status fc
                                      (int_of status)) (Some user))
                       else ret (FlaggedContent.set_status fc (int_of status))
                   end
                 else ret fc) ->
            m st1 = (add_status cfg user status fc, st1)).
  { intros m ->. unfold add_status. destruct (truthy status); [|reflexivity].
    destruct (STATUSES cfg) as [|[d l] t]; [reflexivity|].
    now destruct (negb (int_of status =? d)). }
  bind_cases H as fc2 st2 Hs H.
  2:{ rewrite (Hupd _ eq_refl) in Hs. injection Hs as Hs <-. subst r.
      apply add_stopped with (fc := fc); [exact Hagg|].
      left. split; [exact Hs|]. now apply add_status_raises in Hs. }
  rewrite (Hupd _ eq_refl) in Hs. injection Hs as Hs <-. clear Hupd.
  destruct (add_status_keeps _ _ _ _ _ Hs)
    as (Hid2 & Hkey2 & _ & Hcount2 & Hstatus2 & _).
  rewrite Hp in Hid2. rewrite Hkey in Hkey2.
  pose proof (content_object_for cfg fc2 object Hkey2) as Hco.
  (* the save of the aggregate *)
  pose proof (FlaggedContent_save_stored cfg fc2 p st1 Hid2 Hex) as Hsv.
  rewrite Hco in Hsv. change (flagged_contents st1) with rows1 in Hsv.
  destruct (model_can_be_flagged cfg (content_object_of cfg object)) eqn:Em;
    simpl negb in Hsv; cbv iota in Hsv.
  2:{ rewrite (bind_Raise _ _ _ _ _ Hsv) in H. injection H as <- <-.
      apply add_stopped with (fc := fc); [exact Hagg|].
      right. exists fc2. split; [exact Hs|]. left. auto. }
  destruct (unique_together fc2 rows1) eqn:Eu;
    simpl negb in Hsv; cbv iota in Hsv.
  2:{ rewrite (bind_Raise _ _ _ _ _ Hsv) in H. injection H as <- <-.
      apply add_stopped with (fc := fc); [exact Hagg|].
      right. exists fc2. split; [exact Hs|]. right. auto. }
  assert (Hsaved : saved_as cfg user object status fc rows1 fc2 p)
    by (repeat split; assumption).
  rewrite (bind_Return _ _ _ _ _ Hsv) in H. clear Hsv.
  change (map (fun r0 => if has_pk p r0 then fc2 else r0) rows1)
    with (rewrite_pk p (fun _ => fc2) rows1) in H.
  change (with_flagged_contents st1 (rewrite_pk p (fun _ => fc2) rows1))
    with (with_flagged_contents st (rewrite_pk p (fun _ => fc2) rows1)) in H.
  set (st3 := with_flagged_contents st (rewrite_pk p (fun _ => fc2) rows1))
    in *.
  assert (Hfs : (if truthy status then int_of status
                 else FlaggedContent.status fc2)
                = FlaggedContent.status fc2).
  { destruct (truthy status); [symmetry; exact Hstatus2 | reflexivity]. }
  rewrite Hfs in H. clear Hfs.
  set (flag0 := FlagInstance.mk None fc2 user comment
                  (FlaggedContent.status fc2)) in *.
  (* the save of the flag *)
  rewrite (FlagInstance_save_new cfg flag0 _ _ st3 eq_refl) in H.
  simpl FlagInstance.status in H. simpl FlagInstance.flagged_content in H.
  simpl FlagInstance.user in H.
  assert (Hnew : save_new cfg flag0 send_signal send_mails st3 = (r, st') ->
                 (FlaggedContent.status fc2 = 1 ->
                  assert_can_be_flagged_by_user cfg fc2 user st3
                  = Return tt) ->
                 add_outcome cfg user object creator comment status
                   send_signal send_mails st r st').
  { clear H. intros H Hlim. unfold save_new in H.
    bind_cases H as u st4 Hc H.
    2:{ unfold lift in Hc. injection Hc as Hc <-. subst r.
        apply (add_refused _ _ _ _ _ _ _ _ _ fc rows1 fc2 p); try assumption.
        right. split; assumption. }
    unfold lift in Hc. injection Hc as Hc <-. destruct u.
    assert (Hex3 : existsb (has_pk p) (flagged_contents st3) = true).
    { simpl. now rewrite (existsb_has_pk_rewrite p p (fun _ => fc2) rows1
                           (fun _ => Hid2)). }
    pose proof (Model_save_FlagInstance_insert flag0 st3 p eq_refl Hid2 Hex3)
      as Hins.
    cbv zeta in Hins. rewrite (bind_Return _ _ _ _ _ Hins) in H. clear Hins.
    simpl FlagInstance.flagged_content in H.
    change (flag_instances st3) with (flag_instances st) in H.
    set (i := next_id (map FlagInstance.row_id (flag_instances st))) in *.
    set (row := FlagInstance.mk_row i p (FlagInstance.user flag0)
                  (FlagInstance.comment flag0) (FlagInstance.status flag0))
      in *.
    set (st4 := with_flag_instances st3 (row :: flag_instances st)) in *.
    rewrite flag_added_steps in H.
    assert (Hcs : count_step cfg fc2 st4
                  = (Return (final_aggregate fc2),
                     with_flagged_contents st4
                       (rewrite_pk p (fun _ => final_aggregate fc2) rows1))).
    { apply count_step_saved; try assumption; try reflexivity.
      - now rewrite Hco.
      - simpl. now apply unique_together_rewrite. }
    unfold bind at 1 in H. rewrite (bind_Return _ _ _ _ _ Hcs) in H.
    destruct (notify_step cfg (final_aggregate fc2)
                (FlagInstance.set_id flag0 (Some i)) send_signal send_mails
                (with_flagged_contents st4
                   (rewrite_pk p (fun _ => final_aggregate fc2) rows1)))
      as [x st5] eqn:Hn.
    assert (Hkeyf : key_of (final_aggregate fc2)
                    = (co_content_type object, co_id object)).
    { unfold final_aggregate.
      destruct (FlaggedContent.status fc2 =? 1); exact Hkey2. }
    apply notify_step_cases in Hn as (T1 & T2 & Hsent).
    rewrite (content_object_for cfg _ object Hkeyf) in Hsent.
    simpl in T1, T2. simpl outbox in Hsent.
    assert (Hst' : st' = st5
                   /\ r = match x with
                          | Return fc' =>
                              Return (FlagInstance.set_flagged_content
                                        (FlagInstance.set_id flag0 (Some i))
                                        fc')
                          | Raise e => Raise e
                          end).
    { destruct x; unfold ret in H; injection H as <- <-; auto. }
    destruct Hst' as [-> ->]. clear H.
    destruct st5 as [rows5 flags5 out5]. simpl in T1, T2, Hsent.
    subst rows5 flags5.
    destruct Hsent as [[-> ->] | (-> & -> & Hgone)].
    - apply (add_inserted _ _ _ _ _ _ _ _ _ fc rows1 fc2 p); try assumption.
      left. split; reflexivity.
    - apply (add_inserted _ _ _ _ _ _ _ _ _ fc rows1 fc2 p); try assumption.
      right. auto. }
  destruct (FlaggedContent.status fc2 =? 1) eqn:E1.
  - apply Z.eqb_eq in E1.
    destruct (assert_can_be_flagged_by_user cfg fc2 user st3) as [[]|e] eqn:Ea.
    + apply Hnew; [exact H | reflexivity].
    + injection H as <- <-.
      apply (add_refused _ _ _ _ _ _ _ _ _ fc rows1 fc2 p); try assumption.
      left. auto.
  - apply Z.eqb_neq in E1. apply Hnew; [exact H|]. intros; contradiction.
Qed.

(** ** Keys *)

Lemma consistent_keyed st :
  consistent st ->
  forall x, In x (flagged_contents st) ->
            exists p, FlaggedContent.id x = Some p.
Proof.
  intros [Hc _] x Hx. destruct (Hc x Hx) as (p & Hp & _). eauto.
Qed.

Lemma reachable_with_reachable cfg st : reachable_with cfg st -> reachable st.
Proof.
  induction 1; [apply reachable_empty | now apply reachable_add].
Qed.

Lemma NoDup_map_inj {A B} (f : A -> B) (l : list A) a b :
  NoDup (map f l) -> In a l -> In b l -> f a = f b -> a = b.
Proof.
  induction l as [|x l IH]; [intros _ []|].
  simpl. intros Hnd Ha Hb Hf. inversion Hnd as [|y l' Hnot Hnd']. subst.
  destruct Ha as [<- | Ha], Hb as [<- | Hb]; try reflexivity.
  - exfalso. apply Hnot. rewrite Hf. now apply in_map.
  - exfalso. apply Hnot. rewrite <- Hf. now apply in_map.
  - now apply IH.
Qed.

Lemma in_rewrite_pk p x rows r :
  In r (rewrite_pk p (fun _ => x) rows) ->
  (r = x /\ existsb (has_pk p) rows = true)
  \/ (In r rows /\ has_pk p r = false).
Proof.
  unfold rewrite_pk. intros H. apply in_map_iff in H as (r0 & <- & Hin).
  destruct (has_pk p r0) eqn:E.
  - left. split; [reflexivity|]. apply existsb_exists. eauto.
  - right. auto.
Qed.

Lemma map_id_rewrite p x rows :
  FlaggedContent.id x = Some p ->
  map FlaggedContent.id (rewrite_pk p (fun _ => x) rows)
  = map FlaggedContent.id rows.
Proof.
  intros Hx. unfold rewrite_pk. rewrite map_map. apply map_ext.
  intros r. destruct (has_pk p r) eqn:E; [|reflexivity].
  apply has_pk_iff in E. congruence.
Qed.

Lemma map_key_rewrite p x fc rows :
  NoDup (map FlaggedContent.id rows) ->
  In fc rows ->
  FlaggedContent.id fc = Some p ->
  key_of x = key_of fc ->
  map key_of (rewrite_pk p (fun _ => x) rows) = map key_of rows.
Proof.
  intros Hnd Hin Hid Hkey. unfold rewrite_pk. rewrite map_map.
  apply map_ext_in. intros r Hr.
  destruct (has_pk p r) eqn:E; [|reflexivity].
  apply has_pk_iff in E.
  assert (r = fc) as -> by (apply (NoDup_map_inj _ _ _ _ Hnd Hr Hin);
                            congruence).
  exact Hkey.
Qed.

Lemma next_id_not_in l : ~ In (next_id l) l.
Proof.
  assert (H : forall x, In x l -> (x <= fold_right Nat.max 0 l)%nat).
  { induction l as [|y l IH]; [intros x []|].
    intros x [<- | Hx]; simpl; [lia|]. specialize (IH x Hx). lia. }
  intros Hin. apply H in Hin. unfold next_id in Hin. lia.
Qed.

Lemma aggregate_of_keys cfg object creator status st fc rows1 :
  NoDup (map FlaggedContent.id (flagged_contents st)) ->
  NoDup (map key_of (flagged_contents st)) ->
  aggregate_of cfg object creator status st fc rows1 ->
  NoDup (map FlaggedContent.id rows1) /\ NoDup (map key_of rows1).
Proof.
  intros Hid Hkey [[_ ->] | (Hf & _ & -> & ->)]; [auto|].
  simpl. split; constructor; try assumption.
  - intros Hin. apply in_map_iff in Hin as (r & Hr & Hin).
    pose proof (In_existsb_has_pk _ _ _ Hin Hr) as Hex.
    now rewrite next_id_fresh in Hex.
  - intros Hin. apply in_map_iff in Hin as (r & Hr & Hin).
    apply for_object_iff in Hr. simpl in Hr.
    now rewrite (find_none _ _ Hf r Hin) in Hr.
Qed.

Lemma saved_as_keeps cfg user object status fc rows1 fc2 p :
  saved_as cfg user object status fc rows1 fc2 p ->
  FlaggedContent.id fc2 = Some p
  /\ key_of fc2 = key_of fc
  /\ FlaggedContent.count fc2 = FlaggedContent.count fc
  /\ FlaggedContent.id (final_aggregate fc2) = Some p
  /\ key_of (final_aggregate fc2) = key_of fc.
Proof.
  intros (Hs & Hp & _ & _).
  destruct (add_status_keeps _ _ _ _ _ Hs) as (Hid & Hkey & _ & Hc & _).
  rewrite Hp in Hid. unfold final_aggregate.
  destruct (FlaggedContent.status fc2 =? 1); auto.
Qed.

Lemma add_outcome_well_keyed cfg user object creator comment status
  send_signal send_mails st r st' :
  (forall x, In x (flagged_contents st) ->
             exists p, FlaggedContent.id x = Some p) ->
  well_keyed st ->
  add_outcome cfg user object creator comment status send_signal send_mails
    st r st' ->
  well_keyed st'.
Proof.
  intros Hk (Hid & Hkey & Hflags) Hout.
  destruct Hout as [Hf Hm | fc rows1 e Hagg Hstop
                   | fc rows1 fc2 p e Hagg Hsaved st3 Href
                   | fc rows1 fc2 p r sent Hagg Hsaved st3 i final flag
                       Hlim Hc Hsent].
  - repeat split; assumption.
  - destruct (aggregate_of_keys _ _ _ _ _ _ _ Hid Hkey Hagg) as [I1 K1].
    repeat split; assumption.
  - destruct (aggregate_of_keys _ _ _ _ _ _ _ Hid Hkey Hagg) as [I1 K1].
    destruct (aggregate_of_facts _ _ _ _ _ _ _ Hk Hagg)
      as (Hin & _ & q & Hq & _).
    destruct (saved_as_keeps _ _ _ _ _ _ _ _ Hsaved) as (H2 & K2 & _).
    assert (q = p) as -> by (destruct Hsaved as (_ & Hp & _); congruence).
    unfold well_keyed, st3. simpl.
    rewrite (map_id_rewrite _ _ _ H2),
      (map_key_rewrite _ _ _ _ I1 Hin Hq K2).
    repeat split; assumption.
  - destruct (aggregate_of_keys _ _ _ _ _ _ _ Hid Hkey Hagg) as [I1 K1].
    destruct (aggregate_of_facts _ _ _ _ _ _ _ Hk Hagg)
      as (Hin & _ & q & Hq & _).
    destruct (saved_as_keeps _ _ _ _ _ _ _ _ Hsaved)
      as (_ & _ & _ & H2 & K2).
    assert (q = p) as -> by (destruct Hsaved as (_ & Hp & _); congruence).
    unfold well_keyed. subst final. simpl.
    rewrite (map_id_rewrite _ _ _ H2),
      (map_key_rewrite _ _ _ _ I1 Hin Hq K2).
    repeat split; try assumption.
    constructor; [apply next_id_not_in | assumption].
Qed.

Lemma reachable_keys st : reachable st -> well_keyed st.
Proof.
  induction 1 as [|cfg user object creator comment status ss sm st Hr IH].
  - repeat split; constructor.
  - destruct (add cfg user object creator comment status ss sm st)
      as [r st'] eqn:E.
    pose proof (consistent_keyed _ (reachable_consistent _ Hr)) as Hk.
    apply (add_cases _ _ _ _ _ _ _ _ _ _ _ Hk) in E.
    exact (add_outcome_well_keyed _ _ _ _ _ _ _ _ _ _ _ Hk IH E).
Qed.

(** X1.  In every store that calls of [add] have built, no two aggregates
    have the same key, no two aggregates stand for the same object
    ([unique_together] holds), and no two flags have the same key. *)
Theorem reachable_well_keyed (st : Store) :
  reachable st ->
  NoDup (map FlaggedContent.id (flagged_contents st))
  /\ NoDup (map key_of (flagged_contents st))
  /\ NoDup (map FlagInstance.row_id (flag_instances st)).
Proof. exact (reachable_keys st). Qed.

Lemma reachable_well_keyed_witness :
  reachable after_three_attempts
  /\ NoDup (map FlagInstance.row_id (flag_instances after_three_attempts))
  /\ map FlagInstance.row_id (flag_instances after_three_attempts)
     = [2%nat; 1%nat].
Proof.
  assert (R : reachable after_three_attempts)
    by (unfold after_three_attempts; do 3 apply reachable_add;
        apply reachable_empty).
  split; [exact R|]. split; [|reflexivity].
  exact (proj2 (proj2 (reachable_well_keyed after_three_attempts R))).
Defined.

(** ** [get_for_object] *)

Lemma filter_nil {A} (f : A -> bool) (l : list A) :
  (forall x, In x l -> f x = false) -> filter f l = [].
Proof.
  induction l as [|a l IH]; [reflexivity|].
  intros H. simpl. rewrite (H a (or_introl eq_refl)).
  apply IH. intros x Hx. apply H. now right.
Qed.

Lemma filter_for_object_unique rows x content_type object_id :
  NoDup (map key_of rows) ->
  In x rows ->
  key_of x = (content_type, object_id) ->
  filter (for_object content_type object_id) rows = [x].
Proof.
  intros Hnd Hin Hkey. induction rows as [|r rows IH]; [destruct Hin|].
  simpl in Hnd. inversion Hnd as [|k l Hnot Hnd']. subst.
  simpl. destruct Hin as [-> | Hin].
  - rewrite (proj2 (for_object_iff _ _ x) Hkey). f_equal.
    apply filter_nil. intros y Hy.
    destruct (for_object content_type object_id y) eqn:E; [|reflexivity].
    apply for_object_iff in E. exfalso. apply Hnot.
    rewrite Hkey, <- E. now apply in_map.
  - destruct (for_object content_type object_id r) eqn:E.
    + apply for_object_iff in E. exfalso. apply Hnot.
      rewrite E, <- Hkey. now apply in_map.
    + now apply IH.
Qed.

Lemma get_for_object_found object st fc :
  NoDup (map key_of (flagged_contents st)) ->
  In fc (flagged_contents st) ->
  key_of fc = (co_content_type object, co_id object) ->
  get_for_object object st = inl fc.
Proof.
  intros Hnd Hin Hkey. unfold get_for_object, Manager_get.
  now rewrite (filter_for_object_unique _ _ _ _ Hnd Hin Hkey).
Qed.

(** X2.  On a store built by [add], [get_for_object] never fails with
    [MultipleObjectsReturned]: it returns the aggregate of the object when
    there is one, and fails with [DoesNotExist] exactly when there is
    none. *)
Theorem get_for_object_spec (st : Store) (object : ContentObject) :
  reachable st ->
  (forall fc,
     get_for_object object st = inl fc
     <-> In fc (flagged_contents st)
         /\ key_of fc = (co_content_type object, co_id object))
  /\ (get_for_object object st = inr ObjectDoesNotExist
      <-> forall r, In r (flagged_contents st) ->
                    key_of r <> (co_content_type object, co_id object))
  /\ get_for_object object st <> inr MultipleObjectsReturned.
Proof.
  intros Hr. destruct (reachable_keys st Hr) as (_ & Hnd & _).
  assert (Hin : forall x,
            In x (filter (for_object (co_content_type object)
                                     (co_id object)) (flagged_contents st))
            <-> In x (flagged_contents st)
                /\ key_of x = (co_content_type object, co_id object)).
  { intros x. rewrite filter_In, for_object_iff. reflexivity. }
  unfold get_for_object, Manager_get in *.
  destruct (filter _ (flagged_contents st)) as [|x l] eqn:E.
  - split; [|split].
    + intros fc. split; [discriminate|]. intros H. now apply Hin in H.
    + split; [|reflexivity]. intros _ r Hr0 Hk.
      now apply (proj2 (Hin r)).
    + discriminate.
  - destruct (proj1 (Hin x) (or_introl eq_refl)) as [Hx Hkx].
    rewrite (filter_for_object_unique _ _ _ _ Hnd Hx Hkx) in E.
    injection E as <-. split; [|split].
    + intros fc. split.
      * intros H. injection H as <-. auto.
      * intros H. apply Hin in H. destruct H as [<- | []]. reflexivity.
    + split; [discriminate|]. intros H. now destruct (H x Hx).
    + discriminate.
Qed.

Lemma get_for_object_spec_witness :
  reachable after_three_attempts
  /\ get_for_object post_demo after_three_attempts
     <> inr MultipleObjectsReturned
  /\ get_for_object user_demo after_three_attempts = inr ObjectDoesNotExist.
Proof.
  assert (R : reachable after_three_attempts)
    by (unfold after_three_attempts; do 3 apply reachable_add;
        apply reachable_empty).
  split; [exact R|]. split.
  - exact (proj2 (proj2 (get_for_object_spec after_three_attempts post_demo
                           R))).
  - apply (proj1 (proj2 (get_for_object_spec after_three_attempts user_demo
                           R))).
    intros r [<- | []]. discriminate.
Defined.

Lemma in_rewrite_pk_new p x rows :
  existsb (has_pk p) rows = true ->
  In x (rewrite_pk p (fun _ => x) rows).
Proof.
  intros H. apply existsb_exists in H as (r & Hin & Hr).
  unfold rewrite_pk. apply in_map_iff. exists r. now rewrite Hr.
Qed.

(** X3.  What [get_or_create_for_object] and [add] return can be read
    back.  On a store built by [add]: after [get_or_create_for_object] has
    returned an aggregate, [get_for_object] returns that aggregate; after
    [add] has returned a flag, [get_for_object] returns the aggregate the
    flag holds, the flag has a key that no earlier flag has, and its row,
    with the key of that aggregate, the user, the comment and the status
    of the flag, is the newest row of the flag table. *)
Theorem add_read_back (cfg : Settings) (st : Store) (user : User)
  (object : ContentObject) (creator : option User) (comment : option string)
  (status : option Z) (send_signal send_mails : bool) :
  reachable st ->
  (forall fc created st1,
     get_or_create_for_object cfg object creator status st
     = (Return (fc, created), st1) ->
     get_for_object object st1 = inl fc)
  /\ (forall flag st',
        add cfg user object creator comment status send_signal send_mails st
        = (Return flag, st') ->
        get_for_object object st'
        = inl (FlagInstance.flagged_content flag)
        /\ exists i p,
             FlagInstance.id flag = Some i
             /\ FlaggedContent.id (FlagInstance.flagged_content flag) = Some p
             /\ ~ In i (map FlagInstance.row_id (flag_instances st))
             /\ flag_instances st'
                = FlagInstance.mk_row i p (FlagInstance.user flag)
                    (FlagInstance.comment flag) (FlagInstance.status flag)
                  :: flag_instances st
             /\ FlagInstance.user flag = user
             /\ FlagInstance.comment flag = comment).
Proof.
  intros Hr.
  pose proof (consistent_keyed _ (reachable_consistent _ Hr)) as Hk.
  destruct (reachable_keys st Hr) as (Hid & Hkey & _).
  split.
  - intros fc created st1 H.
    apply get_or_create_for_object_cases in H
      as [(_ & _ & H & _) | (fc0 & rows1 & c & Hagg & H & ->)];
      [discriminate|].
    injection H as <- <-.
    destruct (aggregate_of_keys _ _ _ _ _ _ _ Hid Hkey Hagg) as [_ K1].
    destruct (aggregate_of_facts _ _ _ _ _ _ _ Hk Hagg) as (Hin & Hkfc & _).
    now apply get_for_object_found.
  - intros flag0 st' H.
    apply (add_cases _ _ _ _ _ _ _ _ _ _ _ Hk) in H.
    inversion H as [ | | | fc rows1 fc2 p r sent Hagg Hsaved st3 i final flag
                           Hlim Hc Hsent Hres Hst ].
    subst st3 i final flag.
    destruct Hsent as [[Hflag _] | [Hflag _]]; [|discriminate].
    injection Hflag as ->.
    destruct (aggregate_of_keys _ _ _ _ _ _ _ Hid Hkey Hagg) as [I1 K1].
    destruct (aggregate_of_facts _ _ _ _ _ _ _ Hk Hagg)
      as (Hin & Hkfc & q & Hq & Hex).
    destruct (saved_as_keeps _ _ _ _ _ _ _ _ Hsaved)
      as (_ & _ & _ & H2 & K2).
    assert (q = p) as -> by (destruct Hsaved as (_ & Hp & _); congruence).
    split.
    + apply get_for_object_found; simpl.
      * now rewrite (map_key_rewrite _ _ _ _ I1 Hin Hq K2).
      * now apply in_rewrite_pk_new.
      * congruence.
    + simpl. eexists _, p. repeat split; try reflexivity.
      * exact H2.
      * apply next_id_not_in.
Qed.

Lemma add_read_back_witness :
  reachable after_three_attempts
  /\ moderation_demo = (Return moderation_flag_demo, snd moderation_demo)
  /\ get_for_object post_demo (snd moderation_demo)
     = inl (FlagInstance.flagged_content moderation_flag_demo)
  /\ FlagInstance.id moderation_flag_demo = Some 3%nat.
Proof.
  assert (R : reachable after_three_attempts)
    by (unfold after_three_attempts; do 3 apply reachable_add;
        apply reachable_empty).
  split; [exact R|]. split; [reflexivity|].
  destruct (proj2 (add_read_back (cfg_demo (Some 2) (Some 1))
                     after_three_attempts 3 post_demo None None (Some 2)
                     true true R)
              moderation_flag_demo (snd moderation_demo) eq_refl)
    as (Hget & _).
  split; [exact Hget | reflexivity].
Defined.

(** ** Limits and models under settings that stay the same *)

Lemma flaggable_key cfg r r' :
  key_of r' = key_of r -> flaggable cfg r -> flaggable cfg r'.
Proof.
  unfold flaggable. intros H. now rewrite (content_object_key cfg r' r H).
Qed.

Lemma count_flags_by_user_ext r r' user st st' :
  FlaggedContent.id r' = FlaggedContent.id r ->
  flag_instances st' = flag_instances st ->
  count_flags_by_user r' user st' = count_flags_by_user r user st.
Proof. unfold count_flags_by_user. now intros -> ->. Qed.

Lemma within_limits_ext cfg st st' r r' :
  key_of r' = key_of r ->
  FlaggedContent.id r' = FlaggedContent.id r ->
  FlaggedContent.count r' = FlaggedContent.count r ->
  flag_instances st' = flag_instances st ->
  within_limits cfg st r -> within_limits cfg st' r'.
Proof.
  intros Hk Hi Hc Hf [L U]. unfold within_limits.
  rewrite (content_settings_key cfg r' r Hk), Hc. split; [exact L|].
  intros user. rewrite (count_flags_by_user_ext r r' user st st' Hi Hf).
  apply U.
Qed.

Lemma count_flags_by_user_no_parent p r user st :
  flags_have_parent st ->
  FlaggedContent.id r = Some p ->
  existsb (has_pk p) (flagged_contents st) = false ->
  count_flags_by_user r user st = 0.
Proof.
  intros Hp Hid Hno. unfold count_flags_by_user. rewrite Hid.
  rewrite filter_nil; [reflexivity|].
  intros row Hrow. unfold by_user.
  destruct (Nat.eqb (FlagInstance.flagged_content_id row) p) eqn:E;
    [|reflexivity].
  apply Nat.eqb_eq in E. specialize (Hp row Hrow). rewrite E in Hp.
  congruence.
Qed.

Lemma count_flags_by_user_cons r user st row flags :
  flag_instances st = row :: flags ->
  count_flags_by_user r user st
  = match FlaggedContent.id r with
    | Some q =>
        Z.of_nat (length (filter (by_user q user) flags))
        + (if by_user q user row then 1 else 0)
    | None => 0
    end.
Proof.
  unfold count_flags_by_user. intros ->.
  destruct (FlaggedContent.id r) as [q|]; [|reflexivity].
  simpl. destruct (by_user q user row); simpl length; lia.
Qed.

Lemma assert_can_be_flagged_by_user_returns cfg fc user st :
  assert_can_be_flagged_by_user cfg fc user st = Return tt ->
  (truthy (LIMIT_FOR_OBJECT (content_settings cfg fc)) = true ->
   FlaggedContent.count fc < int_of (LIMIT_FOR_OBJECT (content_settings cfg fc)))
  /\ (truthy (LIMIT_SAME_OBJECT_FOR_USER (content_settings cfg fc)) = true ->
      count_flags_by_user fc user st
      < int_of (LIMIT_SAME_OBJECT_FOR_USER (content_settings cfg fc))).
Proof.
  unfold assert_can_be_flagged_by_user, assert_can_be_flagged, can_be_flagged.
  destruct (truthy (LIMIT_FOR_OBJECT _)) eqn:EL; simpl.
  - destruct (FlaggedContent.count fc <? int_of _) eqn:E1; simpl;
      [|discriminate].
    apply Z.ltb_lt in E1.
    destruct (truthy (LIMIT_SAME_OBJECT_FOR_USER _)) eqn:EU; simpl.
    + destruct (count_flags_by_user fc user st >=? int_of _) eqn:E2;
        [discriminate|].
      rewrite Z.geb_leb in E2. apply Z.leb_gt in E2. auto.
    + split; [auto | discriminate].
  - destruct (truthy (LIMIT_SAME_OBJECT_FOR_USER _)) eqn:EU; simpl.
    + destruct (count_flags_by_user fc user st >=? int_of _) eqn:E2;
        [discriminate|].
      rewrite Z.geb_leb in E2. apply Z.leb_gt in E2.
      split; [discriminate | auto].
    + split; discriminate.
Qed.

Lemma aggregate_of_rows_ok cfg object creator status st fc rows1 :
  consistent st ->
  rows_ok cfg st ->
  aggregate_of cfg object creator status st fc rows1 ->
  rows_ok cfg (with_flagged_contents st rows1).
Proof.
  intros Hc Hok [[_ ->] | (Hf & Hm & -> & ->)].
  - now rewrite with_flagged_contents_same.
  - intros r [<- | Hr].
    + split.
      * unfold flaggable. now rewrite (content_object_for cfg _ object).
      * split.
        -- intros _. simpl. lia.
        -- intros user _.
           match goal with
           | |- context [count_flags_by_user ?x ?u ?s] =>
               change (count_flags_by_user x u s)
                 with (count_flags_by_user x u st)
           end.
           rewrite (count_flags_by_user_no_parent
                      (next_id (FlaggedContent_ids (flagged_contents st)))
                      (new_aggregate object creator status
                         (flagged_contents st))
                      user st (proj2 Hc) eq_refl (next_id_fresh _))
             by reflexivity.
           lia.
    + destruct (Hok r Hr) as [F W]. split; [exact F|].
      now apply (within_limits_ext cfg st _ r r).
Qed.

Lemma add_outcome_rows_ok cfg user object creator comment status
  send_signal send_mails st r st' :
  consistent st ->
  rows_ok cfg st ->
  add_outcome cfg user object creator comment status send_signal send_mails
    st r st' ->
  rows_ok cfg st'.
Proof.
  intros Hc Hok Hout.
  pose proof (consistent_keyed _ Hc) as Hk.
  assert (Hsaved_ok : forall fc rows1 fc2 p,
            aggregate_of cfg object creator status st fc rows1 ->
            saved_as cfg user object status fc rows1 fc2 p ->
            flaggable cfg fc2
            /\ within_limits cfg st fc2
            /\ forall x, In x rows1 -> has_pk p x = false ->
                 flaggable cfg x /\ within_limits cfg st x
                 /\ exists q, FlaggedContent.id x = Some q /\ q <> p).
  { intros fc rows1 fc2 p Hagg Hsaved.
    pose proof (aggregate_of_rows_ok _ _ _ _ _ _ _ Hc Hok Hagg) as Hok1.
    destruct (aggregate_of_facts _ _ _ _ _ _ _ Hk Hagg)
      as (Hin & _ & q & Hq & _).
    destruct (saved_as_keeps _ _ _ _ _ _ _ _ Hsaved) as (H2 & K2 & C2 & _).
    assert (q = p) as -> by (destruct Hsaved as (_ & Hp & _); congruence).
    destruct (Hok1 fc Hin) as [F W].
    split; [exact (flaggable_key cfg fc fc2 K2 F)|]. split.
    - apply (within_limits_ext cfg (with_flagged_contents st rows1) st fc fc2);
        try assumption; [congruence | reflexivity].
    - intros x Hx Hnp. destruct (Hok1 x Hx) as [Fx Wx].
      split; [exact Fx|]. split.
      + now apply (within_limits_ext cfg (with_flagged_contents st rows1)
                     st x x).
      + assert (Hkx : exists q, FlaggedContent.id x = Some q).
        { destruct Hagg as [[_ ->] | (_ & _ & -> & ->)]; [now apply Hk|].
          destruct Hx as [<- | Hx]; [eexists; reflexivity | now apply Hk]. }
        destruct Hkx as (q & Hq'). exists q. split; [exact Hq'|].
        intros ->. apply has_pk_iff in Hq'. congruence. }
  destruct Hout as [Hf Hm | fc rows1 e Hagg Hstop
                   | fc rows1 fc2 p e Hagg Hsaved st3 Href
                   | fc rows1 fc2 p r sent Hagg Hsaved st3 i final flag
                       Hlim Hcc Hsent].
  - exact Hok.
  - exact (aggregate_of_rows_ok _ _ _ _ _ _ _ Hc Hok Hagg).
  - destruct (Hsaved_ok _ _ _ _ Hagg Hsaved) as (F2 & W2 & Hrest).
    intros x Hx. apply in_rewrite_pk in Hx as [[-> _] | [Hx Hnp]].
    + split; [exact F2|]. now apply (within_limits_ext cfg st st3 fc2 fc2).
    + destruct (Hrest x Hx Hnp) as (Fx & Wx & _).
      split; [exact Fx|]. now apply (within_limits_ext cfg st st3 x x).
  - subst final.
    destruct (Hsaved_ok _ _ _ _ Hagg Hsaved) as (F2 & W2 & Hrest).
    destruct (saved_as_keeps _ _ _ _ _ _ _ _ Hsaved)
      as (H2 & _ & _ & Hf2 & Kf).
    assert (Kf2 : key_of (final_aggregate fc2) = key_of fc2).
    { unfold final_aggregate.
      now destruct (FlaggedContent.status fc2 =? 1). }
    set (row := FlagInstance.mk_row i p user comment
                  (FlaggedContent.status fc2)).
    set (st' := mkStore (rewrite_pk p (fun _ => final_aggregate fc2) rows1)
                  (row :: flag_instances st) (outbox st ++ sent)).
    intros x Hx. simpl in Hx.
    apply in_rewrite_pk in Hx as [[-> _] | [Hx Hnp]].
    + split; [exact (flaggable_key cfg fc2 (final_aggregate fc2) Kf2 F2)|].
      destruct W2 as [WL WU]. unfold within_limits.
      rewrite (content_settings_key cfg (final_aggregate fc2) fc2 Kf2).
      split.
      * intros HL. unfold final_aggregate.
        destruct (FlaggedContent.status fc2 =? 1) eqn:E1; [|now apply WL].
        apply Z.eqb_eq in E1. simpl.
        destruct (assert_can_be_flagged_by_user_returns _ _ _ _ (Hlim E1))
          as [HcL _].
        specialize (HcL HL). lia.
      * intros u HU.
        rewrite (count_flags_by_user_cons (final_aggregate fc2) u st' row (flag_instances st)
                   eq_refl), Hf2.
        specialize (WU u HU). unfold count_flags_by_user in WU.
        rewrite H2 in WU.
        destruct (by_user p u row) eqn:Eb; [|lia].
        unfold by_user in Eb. simpl in Eb.
        apply andb_prop in Eb as [Eb E1]. apply andb_prop in Eb as [_ Eu].
        apply Z.eqb_eq in E1, Eu. subst u.
        destruct (assert_can_be_flagged_by_user_returns _ _ _ _ (Hlim E1))
          as [_ HcU].
        specialize (HcU HU). unfold count_flags_by_user in HcU.
        rewrite H2 in HcU. simpl in HcU. lia.
    + destruct (Hrest x Hx Hnp) as (Fx & [WL WU] & q & Hq & Hqp).
      split; [exact Fx|]. split; [exact WL|].
      intros u HU.
      rewrite (count_flags_by_user_cons x u st' row (flag_instances st)
                 eq_refl), Hq.
      specialize (WU u HU). unfold count_flags_by_user in WU.
      rewrite Hq in WU.
      replace (by_user q u row) with false; [lia|].
      unfold by_user. simpl. symmetry.
      replace (Nat.eqb p q) with false; [reflexivity|].
      symmetry. apply Nat.eqb_neq. congruence.
Qed.

Lemma reachable_with_rows_ok cfg st : reachable_with cfg st -> rows_ok cfg st.
Proof.
  induction 1 as [|user object creator comment status ss sm st Hr IH].
  - intros r [].
  - destruct (add cfg user object creator comment status ss sm st)
      as [r st'] eqn:E.
    pose proof (reachable_consistent _ (reachable_with_reachable _ _ Hr))
      as Hc.
    apply (add_cases _ _ _ _ _ _ _ _ _ _ _ (consistent_keyed _ Hc)) in E.
    exact (add_outcome_rows_ok _ _ _ _ _ _ _ _ _ _ _ Hc IH E).
Qed.

Lemma filter_length_le {A} (f g : A -> bool) (l : list A) :
  (forall x, f x = true -> g x = true) ->
  (length (filter f l) <= length (filter g l))%nat.
Proof.
  intros H. induction l as [|a l IH]; [simpl; lia|].
  simpl. destruct (f a) eqn:E.
  - rewrite (H a E). simpl. lia.
  - destruct (g a); simpl; lia.
Qed.

(** X4.  Under settings that stay the same, the count of an aggregate is
    never negative and never goes past the limit set for its object: with
    [LIMIT_FOR_OBJECT = limit], not 0, the count stays at or below [limit]
    (and at 0 if the limit is negative), whatever calls of [add] are
    made. *)
Theorem count_never_exceeds_limit (cfg : Settings) (st : Store) :
  reachable_with cfg st ->
  forall r, In r (flagged_contents st) ->
    0 <= FlaggedContent.count r
    /\ forall limit,
         LIMIT_FOR_OBJECT (content_settings cfg r) = Some limit ->
         limit <> 0 ->
         FlaggedContent.count r <= Z.max 0 limit.
Proof.
  intros Hr r Hin. split.
  - pose proof (reachable_consistent _ (reachable_with_reachable _ _ Hr))
      as [Hc _].
    destruct (Hc r Hin) as (p & _ & ->). unfold flags_of. lia.
  - intros limit HL Hnz.
    destruct (reachable_with_rows_ok cfg st Hr r Hin) as [_ [W _]].
    rewrite HL in W. simpl in W. apply W.
    now apply negb_true_iff, Z.eqb_neq.
Qed.

Lemma count_never_exceeds_limit_witness :
  reachable_with (cfg_demo (Some 2) (Some 1)) after_three_attempts
  /\ stored_count 1 after_three_attempts = 2
  /\ forall r, In r (flagged_contents after_three_attempts) ->
       FlaggedContent.count r <= 2.
Proof.
  assert (R : reachable_with (cfg_demo (Some 2) (Some 1))
                after_three_attempts)
    by (unfold after_three_attempts; do 3 apply reachable_with_add;
        apply reachable_with_empty).
  split; [exact R|]. split; [reflexivity|].
  intros r Hin.
  destruct (count_never_exceeds_limit _ _ R r Hin) as [_ H].
  apply (H 2); [reflexivity | discriminate].
Defined.

(** X5.  Under settings that stay the same, the number of status-1 flags
    of one user on an aggregate, as [count_flags_by_user] counts them, is
    at most the count of the aggregate and never goes past
    [LIMIT_SAME_OBJECT_FOR_USER] when that limit is set. *)
Theorem user_flags_never_exceed_limit (cfg : Settings) (st : Store) :
  reachable_with cfg st ->
  forall r user, In r (flagged_contents st) ->
    0 <= count_flags_by_user r user st <= FlaggedContent.count r
    /\ forall limit,
         LIMIT_SAME_OBJECT_FOR_USER (content_settings cfg r) = Some limit ->
         limit <> 0 ->
         count_flags_by_user r user st <= Z.max 0 limit.
Proof.
  intros Hr r user Hin. split.
  - pose proof (reachable_consistent _ (reachable_with_reachable _ _ Hr))
      as [Hc _].
    destruct (Hc r Hin) as (p & Hp & ->).
    unfold count_flags_by_user, flags_of. rewrite Hp. split; [lia|].
    apply inj_le, filter_length_le.
    intros row. unfold by_user, is_flag_of.
    intros H. apply andb_prop in H as [H ->]. apply andb_prop in H as [-> _].
    reflexivity.
  - intros limit HL Hnz.
    destruct (reachable_with_rows_ok cfg st Hr r Hin) as [_ [_ W]].
    specialize (W user). rewrite HL in W. simpl in W. apply W.
    now apply negb_true_iff, Z.eqb_neq.
Qed.

Lemma user_flags_never_exceed_limit_witness :
  reachable_with (cfg_demo (Some 2) (Some 1)) after_three_attempts
  /\ forall r user, In r (flagged_contents after_three_attempts) ->
       count_flags_by_user r user after_three_attempts <= 1.
Proof.
  assert (R : reachable_with (cfg_demo (Some 2) (Some 1))
                after_three_attempts)
    by (unfold after_three_attempts; do 3 apply reachable_with_add;
        apply reachable_with_empty).
  split; [exact R|].
  intros r user Hin.
  destruct (user_flags_never_exceed_limit _ _ R r user Hin) as [_ H].
  apply (H 1); [reflexivity | discriminate].
Defined.

(** X6.  Under settings that stay the same, every aggregate in the store
    is of a model that can be flagged: when [MODELS] is set, the object of
    the aggregate exists and its [app_label.model] is listed. *)
Theorem aggregates_are_of_flaggable_models (cfg : Settings) (st : Store) :
  reachable_with cfg st ->
  forall r, In r (flagged_contents st) ->
    model_can_be_flagged cfg (content_object cfg r) = true
    /\ forall models,
         MODELS cfg = Some models ->
         object_exists cfg (FlaggedContent.content_type r)
                           (FlaggedContent.object_id r) = true
         /\ In (fst (FlaggedContent.content_type r) ++ "."
                ++ snd (FlaggedContent.content_type r))%string models.
Proof.
  intros Hr r Hin.
  destruct (reachable_with_rows_ok cfg st Hr r Hin) as [F _].
  split; [exact F|]. intros models HM.
  unfold flaggable, model_can_be_flagged, content_object in F.
  rewrite HM in F.
  destruct (object_exists cfg _ _); [|discriminate].
  split; [reflexivity|]. simpl in F.
  destruct (FlaggedContent.content_type r) as [a m]. simpl.
  apply existsb_exists in F as (x & Hx & Heq).
  apply String.eqb_eq in Heq. now subst x.
Qed.

Lemma aggregates_are_of_flaggable_models_witness :
  reachable_with cfg_closed after_closed
  /\ length (flagged_contents after_closed) = 1%nat
  /\ forall r, In r (flagged_contents after_closed) ->
       In (fst (FlaggedContent.content_type r) ++ "."
           ++ snd (FlaggedContent.content_type r))%string ["auth.user"].
Proof.
  assert (R : reachable_with cfg_closed after_closed)
    by (unfold after_closed; do 2 apply reachable_with_add;
        apply reachable_with_empty).
  split; [exact R|]. split; [reflexivity|]. intros r Hin.
  exact (proj2 (proj2 (aggregates_are_of_flaggable_models cfg_closed
                         after_closed R r Hin) ["auth.user"] eq_refl)).
Defined.

(** ** What [add] sends, and what it leaves when it raises *)

Lemma unique_together_keyed rows1 fc fc2 p :
  NoDup (map key_of rows1) ->
  In fc rows1 ->
  FlaggedContent.id fc = Some p ->
  FlaggedContent.id fc2 = Some p ->
  key_of fc2 = key_of fc ->
  unique_together fc2 rows1 = true.
Proof.
  intros Hnd Hin Hp H2 Hk. unfold unique_together. apply forallb_forall.
  intros r Hr.
  destruct (for_object (FlaggedContent.content_type fc2)
                       (FlaggedContent.object_id fc2) r) eqn:E;
    [|reflexivity].
  apply for_object_iff in E.
  assert (r = fc) as ->.
  { apply (NoDup_map_inj key_of rows1); try assumption.
    rewrite E. exact Hk. }
  unfold same_pk. rewrite H2. simpl. now apply has_pk_iff.
Qed.

(** On a store built by [add] the save of the aggregate never runs into
    [unique_together]. *)
Lemma stopped_by_on_reachable cfg user object creator status st fc rows1 e :
  reachable st ->
  aggregate_of cfg object creator status st fc rows1 ->
  stopped_by cfg user object status fc rows1 e ->
  (e = IndexError /\ truthy status = true /\ STATUSES cfg = [])
  \/ (e = ModelCannotBeFlaggedException "This model cannot be flagged"
      /\ model_can_be_flagged cfg (content_object_of cfg object) = false).
Proof.
  intros Hr Hagg [[Hs _] | (fc2 & Hs & [[Hm ->] | (_ & Hu & _)])].
  - left. now apply add_status_raises in Hs.
  - right. auto.
  - exfalso.
    pose proof (consistent_keyed _ (reachable_consistent _ Hr)) as Hk.
    destruct (reachable_keys st Hr) as (Hid & Hkey & _).
    destruct (aggregate_of_keys _ _ _ _ _ _ _ Hid Hkey Hagg) as [_ K1].
    destruct (aggregate_of_facts _ _ _ _ _ _ _ Hk Hagg)
      as (Hin & _ & p & Hp & _).
    destruct (add_status_keeps _ _ _ _ _ Hs) as (H2 & K2 & _).
    rewrite Hp in H2.
    rewrite (unique_together_keyed _ _ _ _ K1 Hin Hp H2 K2) in Hu.
    discriminate.
Qed.

Lemma mail_of_cases cfg flag :
  mail_of cfg flag = []
  \/ exists from_email recipient_list,
       mail_of cfg flag = [send_mail from_email recipient_list flag]
       /\ recipient_list <> []
       /\ SEND_MAILS (content_settings cfg (FlagInstance.flagged_content flag))
          = true.
Proof.
  unfold mail_of.
  destruct (SEND_MAILS _) eqn:E; simpl; [|now left].
  destruct (SEND_MAILS_TO _) as [|a l]; simpl; [now left|].
  right. eexists _, _. repeat split. discriminate.
Qed.

(** X7.  One call of [add] sends at most one signal and then at most one
    mail, and only after it has stored the flag, which both carry: no
    signal unless [send_signal], no mail unless [send_mails] and
    [SEND_MAILS], and never a mail to an empty list of recipients.  What
    had been sent before stays as it was. *)
Theorem add_sends_at_most_one_signal_and_mail (cfg : Settings) (st : Store)
  (user : User) (object : ContentObject) (creator : option User)
  (comment : option string) (status : option Z)
  (send_signal send_mails : bool) :
  reachable st ->
  let st' := snd (add cfg user object creator comment status send_signal
                      send_mails st) in
  exists signals mails,
    outbox st' = outbox st ++ signals ++ mails
    /\ (signals = []
        \/ (send_signal = true
            /\ exists row flag,
                 flag_instances st' = row :: flag_instances st
                 /\ FlagInstance.id flag = Some (FlagInstance.row_id row)
                 /\ signals
                    = [content_flagged (FlagInstance.flagged_content flag)
                         flag]))
    /\ (mails = []
        \/ (send_mails = true
            /\ exists row flag from_email recipient_list,
                 flag_instances st' = row :: flag_instances st
                 /\ FlagInstance.id flag = Some (FlagInstance.row_id row)
                 /\ SEND_MAILS
                      (content_settings cfg (FlagInstance.flagged_content flag))
                    = true
                 /\ recipient_list <> []
                 /\ mails = [send_mail from_email recipient_list flag])).
Proof.
  intros Hr st'. subst st'.
  destruct (add cfg user object creator comment status send_signal
              send_mails st) as [r st'] eqn:E.
  pose proof (consistent_keyed _ (reachable_consistent _ Hr)) as Hk.
  apply (add_cases _ _ _ _ _ _ _ _ _ _ _ Hk) in E. simpl.
  destruct E as [Hf Hm | fc rows1 e Hagg Hstop
                | fc rows1 fc2 p e Hagg Hsaved st3 Href
                | fc rows1 fc2 p r sent Hagg Hsaved st3 i final flag
                    Hlim Hc Hsent];
    try solve [exists [], []; simpl; rewrite app_nil_r; auto].
  assert (Hsig : signal_of send_signal final flag = []
                 \/ (send_signal = true
                     /\ signal_of send_signal final flag
                        = [content_flagged final flag])).
  { unfold signal_of. destruct send_signal; auto. }
  assert (Hmail : forall b : bool,
            (if send_mails && b then mail_of cfg flag else []) = []
            \/ (send_mails = true
                /\ exists from_email recipient_list,
                     (if send_mails && b then mail_of cfg flag else [])
                     = [send_mail from_email recipient_list flag]
                     /\ recipient_list <> []
                     /\ SEND_MAILS (content_settings cfg final) = true)).
  { intros b. destruct send_mails; simpl; [|now left].
    destruct b; [|now left].
    destruct (mail_of_cases cfg flag) as [-> | (f & l & -> & Hl & Hs)];
      [now left|].
    right. split; [reflexivity|]. eauto. }
  destruct Hsent as [[_ ->] | (_ & -> & _)].
  - eexists _, _. simpl. split; [reflexivity|]. split.
    + destruct Hsig as [-> | [-> ->]]; [now left|].
      right. split; [reflexivity|]. eexists _, flag. repeat split.
    + destruct (Hmail (really_send_mails (content_settings cfg final)
                         (FlaggedContent.count final)))
        as [-> | (-> & f & l & -> & Hl & Hs)]; [now left|].
      right. split; [reflexivity|]. eexists _, flag, f, l.
      repeat split; assumption.
  - exists (signal_of send_signal final flag), []. simpl.
    split; [now rewrite app_nil_r|]. split; [|now left].
    destruct Hsig as [-> | [-> ->]]; [now left|].
    right. split; [reflexivity|]. eexists _, flag. repeat split.
Qed.

Lemma add_sends_at_most_one_signal_and_mail_witness :
  reachable after_three_attempts
  /\ length (outbox (snd moderation_demo)) = 2%nat
  /\ exists signals mails,
       outbox (snd moderation_demo)
       = outbox after_three_attempts ++ signals ++ mails
       /\ (length signals <= 1)%nat /\ (length mails <= 1)%nat.
Proof.
  assert (R : reachable after_three_attempts)
    by (unfold after_three_attempts; do 3 apply reachable_add;
        apply reachable_empty).
  split; [exact R|]. split; [reflexivity|].
  destruct (add_sends_at_most_one_signal_and_mail (cfg_demo (Some 2) (Some 1))
              after_three_attempts 3 post_demo None None (Some 2) true true
              R)
    as (signals & mails & Ho & Hs & Hm).
  exists signals, mails. split; [exact Ho|]. split.
  - destruct Hs as [-> | (_ & row & flag & _ & _ & ->)];
      [apply Nat.le_0_l | apply Nat.le_refl].
  - destruct Hm as [-> | (_ & row & flag & f & l & _ & _ & _ & _ & ->)];
      [apply Nat.le_0_l | apply Nat.le_refl].
Defined.

Lemma assert_can_be_flagged_by_user_raises cfg fc user st e :
  assert_can_be_flagged_by_user cfg fc user st = Raise e ->
  limit_error e = true.
Proof.
  unfold assert_can_be_flagged_by_user, assert_can_be_flagged.
  destruct (negb (can_be_flagged cfg fc)).
  - intros H. now injection H as <-.
  - destruct (negb (truthy _)); [discriminate|].
    destruct (_ >=? _); [|discriminate].
    intros H. now injection H as <-.
Qed.

(** The ways [add] raises on a store built by [add]. *)
Lemma add_raises_on_reachable cfg user object creator comment status
  send_signal send_mails st e st' :
  reachable st ->
  add cfg user object creator comment status send_signal send_mails st
  = (Raise e, st') ->
  (st' = st
   /\ e = ModelCannotBeFlaggedException "This model cannot be flagged"
   /\ model_can_be_flagged cfg (content_object_of cfg object) = false)
  \/ (exists fc rows1,
        aggregate_of cfg object creator status st fc rows1
        /\ st' = with_flagged_contents st rows1
        /\ e = IndexError /\ truthy status = true /\ STATUSES cfg = [])
  \/ (exists fc rows1 fc2 p,
        aggregate_of cfg object creator status st fc rows1
        /\ saved_as cfg user object status fc rows1 fc2 p
        /\ st' = with_flagged_contents st
                   (rewrite_pk p (fun _ => fc2) rows1)
        /\ (limit_error e = true /\ FlaggedContent.status fc2 = 1
            \/ comment_error e = true)
        /\ get_for_object object st' = inl fc2)
  \/ (exists row,
        e = AttributeError
        /\ content_object_of cfg object = None
        /\ flag_instances st' = row :: flag_instances st
        /\ FlagInstance.row_user row = user).
Proof.
  intros Hr H.
  pose proof (consistent_keyed _ (reachable_consistent _ Hr)) as Hk.
  destruct (reachable_keys st Hr) as (Hid & Hkey & _).
  apply (add_cases _ _ _ _ _ _ _ _ _ _ _ Hk) in H.
  inversion H as [Hf Hm He Hst
                 | fc rows1 e0 Hagg Hstop He Hst
                 | fc rows1 fc2 p e0 Hagg Hsaved st3 Href He Hst
                 | fc rows1 fc2 p r sent Hagg Hsaved st3 i final flag
                     Hlim Hc Hsent Hres Hst].
  - left. auto.
  - subst e0.
    destruct (stopped_by_on_reachable _ _ _ _ _ _ _ _ _ Hr Hagg Hstop)
      as [(-> & Ht & Hs) | (-> & Hm)].
    + right. left. exists fc, rows1. auto.
    + left. destruct Hagg as [[_ ->] | (_ & Hm' & _)]; [|congruence].
      now rewrite with_flagged_contents_same.
  - subst e0. right. right. left. exists fc, rows1, fc2, p.
    split; [exact Hagg|]. split; [exact Hsaved|]. split; [reflexivity|].
    split.
    + destruct Href as [[H1 Ha] | [_ Hcc]].
      * left. split; [|exact H1].
        exact (assert_can_be_flagged_by_user_raises _ _ _ _ _ Ha).
      * right. now apply check_comment_raises in Hcc.
    + destruct (aggregate_of_keys _ _ _ _ _ _ _ Hid Hkey Hagg) as [I1 K1].
      destruct (aggregate_of_facts _ _ _ _ _ _ _ Hk Hagg)
        as (Hin & Hkfc & q & Hq & Hex).
      destruct (saved_as_keeps _ _ _ _ _ _ _ _ Hsaved) as (H2 & K2 & _).
      assert (q = p) as -> by (destruct Hsaved as (_ & Hp & _); congruence).
      apply get_for_object_found; unfold st3; simpl.
      * now rewrite (map_key_rewrite _ _ _ _ I1 Hin Hq K2).
      * now apply in_rewrite_pk_new.
      * congruence.
  - subst r st'. destruct Hsent as [[Hx _] | (Hx & _ & Hgone)];
      [discriminate|].
    injection Hx as ->.
    right. right. right. eexists. simpl. repeat split. exact Hgone.
Qed.

(** X10.  A refused flag is not rolled back.  On a store built by [add],
    when [add] raises an exception of a limit or of the comment policy, no
    flag has been stored and nothing has been sent, but the aggregate of
    the object is in the store, created by this call if it was not there,
    and it already carries the status the call has given. *)
Theorem refused_add_keeps_the_aggregate (cfg : Settings) (st st' : Store)
  (user : User) (object : ContentObject) (creator : option User)
  (comment : option string) (status : option Z)
  (send_signal send_mails : bool) (e : Exception) :
  reachable st ->
  add cfg user object creator comment status send_signal send_mails st
  = (Raise e, st') ->
  limit_error e = true \/ comment_error e = true ->
  flag_instances st' = flag_instances st
  /\ outbox st' = outbox st
  /\ exists fc2,
       get_for_object object st' = inl fc2
       /\ FlaggedContent.count fc2 = stored_count (pk_of fc2) st
       /\ (truthy status = true ->
           FlaggedContent.status fc2 = int_of status)
       /\ (get_for_object object st = inr ObjectDoesNotExist ->
           FlaggedContent.count fc2 = 0
           /\ FlaggedContent.creator fc2 = creator
           /\ ~ In (FlaggedContent.id fc2)
                  (map FlaggedContent.id (flagged_contents st))).
Proof.
  intros Hr H He.
  pose proof (reachable_consistent _ Hr) as Hc.
  pose proof (consistent_keyed _ Hc) as Hk.
  destruct (reachable_keys st Hr) as (Hid & Hkey & _).
  destruct (add_raises_on_reachable _ _ _ _ _ _ _ _ _ _ _ Hr H)
    as [(_ & -> & _)
       | [(fc & rows1 & _ & _ & -> & _)
         | [(fc & rows1 & fc2 & p & Hagg & Hsaved & -> & _ & Hget)
           | (row & -> & _)]]];
    try (destruct He as [He | He]; discriminate).
  split; [reflexivity|]. split; [reflexivity|].
  exists fc2. split; [exact Hget|].
  destruct Hsaved as (Hs & Hp & _).
  destruct (add_status_keeps _ _ _ _ _ Hs)
    as (Hid2 & Hkey2 & Hcr2 & Hcount2 & Hstatus2 & _).
  assert (Hpk : pk_of fc2 = p) by (unfold pk_of; now rewrite Hid2, Hp).
  split; [|split].
  - rewrite Hpk, Hcount2.
    destruct Hagg as [[Hf ->] | (Hf & _ & -> & ->)].
    + apply find_some in Hf as [Hin _]. unfold stored_count.
      destruct (find (has_pk p) (flagged_contents st)) as [x|] eqn:Ex.
      * apply find_some in Ex as [Hx Hxp]. apply has_pk_iff in Hxp.
        f_equal. apply (NoDup_map_inj FlaggedContent.id _ _ _ Hid Hin Hx).
        congruence.
      * apply has_pk_iff in Hp. now rewrite (find_none _ _ Ex fc Hin) in Hp.
    + simpl. unfold stored_count.
      injection Hp as <-.
      destruct (find (has_pk _) (flagged_contents st)) as [x|] eqn:Ex;
        [|reflexivity].
      apply find_some in Ex as [Hx Hxp].
      pose proof (next_id_fresh (flagged_contents st)) as Hfresh.
      assert (Hex : existsb (has_pk (next_id (FlaggedContent_ids
                                                (flagged_contents st))))
                            (flagged_contents st) = true)
        by (apply existsb_exists; eauto).
      congruence.
  - intros Ht. now rewrite Hstatus2, Ht.
  - intros Hnone.
    destruct Hagg as [[Hf ->] | (Hf & _ & -> & ->)].
    + exfalso. apply find_some in Hf as [Hin Hfo].
      apply for_object_iff in Hfo.
      rewrite (get_for_object_found object st fc Hkey Hin Hfo) in Hnone.
      discriminate.
    + rewrite Hcount2, Hcr2, Hid2. simpl. split; [reflexivity|].
      split; [reflexivity|].
      intros Hin. apply in_map_iff in Hin as (x & Hx & Hin).
      pose proof (In_existsb_has_pk _ _ _ Hin Hx) as Hex.
      now rewrite next_id_fresh in Hex.
Qed.

Lemma refused_add_keeps_the_aggregate_witness :
  reachable after_three_attempts
  /\ unwanted_comment_demo
     = (Raise (FlagCommentException "You are not allowed to add a comment"),
        snd unwanted_comment_demo)
  /\ get_for_object user_demo after_three_attempts = inr ObjectDoesNotExist
  /\ flag_instances (snd unwanted_comment_demo)
     = flag_instances after_three_attempts
  /\ exists fc2,
       get_for_object user_demo (snd unwanted_comment_demo) = inl fc2
       /\ FlaggedContent.count fc2 = 0
       /\ FlaggedContent.creator fc2 = Some 9.
Proof.
  assert (R : reachable after_three_attempts)
    by (unfold after_three_attempts; do 3 apply reachable_add;
        apply reachable_empty).
  split; [exact R|]. split; [reflexivity|]. split; [reflexivity|].
  destruct (refused_add_keeps_the_aggregate (cfg_demo (Some 2) (Some 1))
              after_three_attempts (snd unwanted_comment_demo) 1 user_demo
              (Some 9) (Some "spam") None true true
              (FlagCommentException "You are not allowed to add a comment")
              R eq_refl (or_intror eq_refl))
    as (H1 & _ & fc2 & Hget & _ & _ & Hnew).
  split; [exact H1|]. exists fc2. split; [exact Hget|].
  destruct (Hnew eq_refl) as (Hc & Hcr & _). split; [exact Hc | exact Hcr].
Defined.

(** ** The aggregate and the flag that [add] returns *)

Lemma aggregate_before_get_for_object object st :
  NoDup (map key_of (flagged_contents st)) ->
  get_for_object object st
  = match aggregate_before object st with
    | Some fc => inl fc
    | None => inr ObjectDoesNotExist
    end.
Proof.
  intros Hnd. unfold aggregate_before.
  destruct (find _ (flagged_contents st)) as [fc|] eqn:E.
  - apply find_some in E as [Hin Hfo]. apply for_object_iff in Hfo.
    now apply get_for_object_found.
  - unfold get_for_object, Manager_get.
    rewrite filter_nil; [reflexivity|].
    intros x Hx. exact (find_none _ _ E x Hx).
Qed.

(** How [add] ends when it returns, on a store built by [add]. *)
Lemma add_returns_on_reachable cfg user object creator comment status
  send_signal send_mails st flag st' :
  reachable st ->
  add cfg user object creator comment status send_signal send_mails st
  = (Return flag, st') ->
  exists fc rows1 fc2 p,
    aggregate_of cfg object creator status st fc rows1
    /\ saved_as cfg user object status fc rows1 fc2 p
    /\ flag = FlagInstance.mk
                (Some (next_id (map FlagInstance.row_id (flag_instances st))))
                (final_aggregate fc2) user comment (FlaggedContent.status fc2)
    /\ flagged_contents st'
       = rewrite_pk p (fun _ => final_aggregate fc2) rows1
    /\ flag_instances st'
       = FlagInstance.mk_row
           (next_id (map FlagInstance.row_id (flag_instances st))) p user
           comment (FlaggedContent.status fc2)
         :: flag_instances st.
Proof.
  intros Hr H.
  pose proof (consistent_keyed _ (reachable_consistent _ Hr)) as Hk.
  apply (add_cases _ _ _ _ _ _ _ _ _ _ _ Hk) in H.
  inversion H as [ | | | fc rows1 fc2 p r sent Hagg Hsaved st3 i final flag0
                         Hlim Hc Hsent Hres Hst ].
  subst st3 i final flag0.
  destruct Hsent as [[Hflag _] | [Hflag _]]; [|discriminate].
  injection Hflag as ->.
  exists fc, rows1, fc2, p.
  split; [assumption|]. split; [assumption|].
  split; [reflexivity|]. subst st'. split; reflexivity.
Qed.

Lemma aggregate_of_before cfg object creator status st fc rows1 :
  aggregate_of cfg object creator status st fc rows1 ->
  FlaggedContent.status fc
  = match aggregate_before object st with
    | Some fc0 => FlaggedContent.status fc0
    | None => match status with Some s => s | None => 1 end
    end
  /\ FlaggedContent.count fc = count_before (aggregate_before object st)
  /\ FlaggedContent.creator fc
     = match aggregate_before object st with
       | Some fc0 => FlaggedContent.creator fc0
       | None => creator
       end
  /\ FlaggedContent.moderator fc
     = match aggregate_before object st with
       | Some fc0 => FlaggedContent.moderator fc0
       | None => None
       end.
Proof.
  unfold aggregate_before.
  intros [[-> _] | (-> & _ & -> & _)]; repeat split.
Qed.

(** X11.  What a call of [add] that returns has done to the aggregate, on
    a store built by [add].  The flag has the status of its aggregate.
    That status is the status given when one is given (and true), else the
    status the aggregate had, a new aggregate starting from the status
    given or from 1.  The moderator becomes the user exactly when a status
    is given that differs from the first of [STATUSES]; the creator is the
    one given only for a new aggregate; the count is the old count, plus
    one exactly when the status is 1. *)
Theorem add_returns (cfg : Settings) (st st' : Store) (user : User)
  (object : ContentObject) (creator : option User) (comment : option string)
  (status : option Z) (send_signal send_mails : bool)
  (flag : FlagInstance.t) :
  reachable st ->
  add cfg user object creator comment status send_signal send_mails st
  = (Return flag, st') ->
  let before := aggregate_before object st in
  let fc := FlagInstance.flagged_content flag in
  FlagInstance.status flag = FlaggedContent.status fc
  /\ FlaggedContent.status fc = status_for status before
  /\ FlaggedContent.moderator fc
     = (if truthy status
           && negb (int_of status =? fst (hd (0, "") (STATUSES cfg)))
        then Some user
        else match before with
             | Some fc0 => FlaggedContent.moderator fc0
             | None => None
             end)
  /\ FlaggedContent.creator fc
     = match before with
       | Some fc0 => FlaggedContent.creator fc0
       | None => creator
       end
  /\ FlaggedContent.count fc
     = count_before before + (if FlaggedContent.status fc =? 1 then 1 else 0)
  /\ key_of fc = (co_content_type object, co_id object)
  /\ (truthy status = true -> STATUSES cfg <> []).
Proof.
  intros Hr H before fc'.
  pose proof (consistent_keyed _ (reachable_consistent _ Hr)) as Hk.
  destruct (add_returns_on_reachable _ _ _ _ _ _ _ _ _ _ _ Hr H)
    as (fc & rows1 & fc2 & p & Hagg & (Hs & _) & -> & _).
  destruct (aggregate_of_before _ _ _ _ _ _ _ Hagg) as (B1 & B2 & B3 & B4).
  destruct (aggregate_of_facts _ _ _ _ _ _ _ Hk Hagg) as (_ & Hkey & _).
  destruct (add_status_keeps _ _ _ _ _ Hs) as (_ & K2 & C2 & N2 & S2 & M2).
  subst fc'. simpl FlagInstance.flagged_content. simpl FlagInstance.status.
  assert (F : FlaggedContent.status (final_aggregate fc2)
              = FlaggedContent.status fc2
              /\ FlaggedContent.moderator (final_aggregate fc2)
                 = FlaggedContent.moderator fc2
              /\ FlaggedContent.creator (final_aggregate fc2)
                 = FlaggedContent.creator fc2
              /\ key_of (final_aggregate fc2) = key_of fc2
              /\ FlaggedContent.count (final_aggregate fc2)
                 = FlaggedContent.count fc2
                   + (if FlaggedContent.status fc2 =? 1 then 1 else 0)).
  { unfold final_aggregate.
    destruct (FlaggedContent.status fc2 =? 1); simpl; repeat split; lia. }
  destruct F as (F1 & F2 & F3 & F4 & F5).
  rewrite F1, F2, F3, F4, F5.
  split; [reflexivity|].
  split; [unfold status_for; now rewrite S2, B1|].
  split; [now rewrite M2, B4|].
  split; [now rewrite C2, B3|].
  split; [now rewrite N2, B2|].
  split; [congruence|].
  intros Ht Hnil. unfold add_status in Hs. rewrite Ht, Hnil in Hs.
  discriminate.
Qed.

Lemma add_returns_witness :
  reachable after_three_attempts
  /\ moderation_demo = (Return moderation_flag_demo, snd moderation_demo)
  /\ let fc := FlagInstance.flagged_content moderation_flag_demo in
     FlagInstance.status moderation_flag_demo = FlaggedContent.status fc
     /\ FlaggedContent.status fc = 2
     /\ FlaggedContent.moderator fc = Some 3
     /\ FlaggedContent.creator fc = None
     /\ FlaggedContent.count fc = 2
     /\ key_of fc = (("blog", "post"), 7)
     /\ (truthy (Some 2) = true ->
         STATUSES (cfg_demo (Some 2) (Some 1)) <> []).
Proof.
  assert (R : reachable after_three_attempts)
    by (unfold after_three_attempts; do 3 apply reachable_add;
        apply reachable_empty).
  split; [exact R|]. split; [reflexivity|].
  exact (add_returns (cfg_demo (Some 2) (Some 1)) after_three_attempts
           (snd moderation_demo) 3 post_demo None None (Some 2) true true
           moderation_flag_demo R eq_refl).
Defined.

(** ** When [add_flag] takes a flag *)

Lemma assert_can_be_flagged_by_user_below cfg fc user st :
  returns (assert_can_be_flagged_by_user cfg fc user st)
  = below (LIMIT_FOR_OBJECT (content_settings cfg fc))
          (FlaggedContent.count fc)
    && below (LIMIT_SAME_OBJECT_FOR_USER (content_settings cfg fc))
             (count_flags_by_user fc user st).
Proof.
  unfold assert_can_be_flagged_by_user, assert_can_be_flagged, can_be_flagged,
    below.
  destruct (truthy (LIMIT_FOR_OBJECT _)); simpl.
  - destruct (FlaggedContent.count fc <? int_of _); simpl; [|reflexivity].
    destruct (truthy (LIMIT_SAME_OBJECT_FOR_USER _)); simpl; [|reflexivity].
    rewrite Z.geb_leb, Z.ltb_antisym.
    now destruct (_ <=? _).
  - destruct (truthy (LIMIT_SAME_OBJECT_FOR_USER _)); simpl; [|reflexivity].
    rewrite Z.geb_leb, Z.ltb_antisym.
    now destruct (_ <=? _).
Qed.

Lemma check_comment_returns cfg self :
  returns (check_comment cfg self)
  = Bool.eqb
      (ALLOW_COMMENTS (content_settings cfg (FlagInstance.flagged_content self)))
      (truthy_str (FlagInstance.comment self)).
Proof.
  unfold check_comment.
  now destruct (ALLOW_COMMENTS _), (truthy_str (FlagInstance.comment self)).
Qed.

(** The aggregate [add] has saved, seen from the store before the call. *)
Lemma saved_as_before cfg user object creator status st fc rows1 fc2 p :
  reachable st ->
  aggregate_of cfg object creator status st fc rows1 ->
  saved_as cfg user object status fc rows1 fc2 p ->
  content_settings cfg fc2 = get_for_model cfg (content_object_of cfg object)
  /\ FlaggedContent.status fc2
     = status_for status (aggregate_before object st)
  /\ FlaggedContent.count fc2 = count_before (aggregate_before object st)
  /\ count_flags_by_user fc2 user
       (with_flagged_contents st (rewrite_pk p (fun _ => fc2) rows1))
     = user_count_before (aggregate_before object st) user st
  /\ (truthy status = true -> STATUSES cfg <> []).
Proof.
  intros Hr Hagg Hsaved.
  pose proof (reachable_consistent _ Hr) as Hc.
  pose proof (consistent_keyed _ Hc) as Hk.
  destruct (aggregate_of_before _ _ _ _ _ _ _ Hagg) as (B1 & B2 & _).
  destruct (aggregate_of_facts _ _ _ _ _ _ _ Hk Hagg) as (_ & Hkey & _).
  destruct (saved_as_keeps _ _ _ _ _ _ _ _ Hsaved) as (Hid2 & K2 & C2 & _).
  destruct Hsaved as (Hs & Hp & _).
  destruct (add_status_keeps _ _ _ _ _ Hs) as (_ & _ & _ & _ & S2 & _).
  split.
  { unfold content_settings. f_equal. apply content_object_for. congruence. }
  split; [unfold status_for; now rewrite S2, B1|].
  split; [congruence|].
  split.
  - rewrite (count_flags_by_user_ext fc fc2 user st)
      by (reflexivity || congruence).
    unfold user_count_before, aggregate_before.
    destruct Hagg as [[-> _] | (-> & _ & -> & _)]; [reflexivity|].
    exact (count_flags_by_user_no_parent
             (next_id (FlaggedContent_ids (flagged_contents st)))
             (new_aggregate object creator status (flagged_contents st))
             user st (proj2 Hc) eq_refl (next_id_fresh _)).
  - intros Ht Hnil. unfold add_status in Hs. rewrite Ht, Hnil in Hs.
    discriminate.
Qed.

Lemma length_eqb_nil {A} (l : list A) :
  Nat.eqb (length l) 0 = true <-> l = [].
Proof. destruct l; simpl; split; congruence. Qed.

(** In the model, [add] returns exactly when [accepts] holds, if the
    object is there. *)
Lemma add_returns_iff_accepts cfg user object creator comment status
  send_signal send_mails st :
  reachable st ->
  object_exists cfg (co_content_type object) (co_id object) = true ->
  returns (fst (add cfg user object creator comment status send_signal
                    send_mails st))
  = accepts cfg user object comment status st.
Proof.
  intros Hr Hex.
  pose proof (consistent_keyed _ (reachable_consistent _ Hr)) as Hk.
  assert (Hobj : content_object_of cfg object = Some object)
    by (unfold content_object_of; now rewrite Hex).
  destruct (add cfg user object creator comment status send_signal
                send_mails st) as [r st'] eqn:H.
  apply (add_cases _ _ _ _ _ _ _ _ _ _ _ Hk) in H.
  unfold accepts. simpl fst.
  inversion H as [Hf Hm He Hst
                 | fc rows1 e0 Hagg Hstop He Hst
                 | fc rows1 fc2 p e0 Hagg Hsaved st3 Href He Hst
                 | fc rows1 fc2 p r0 sent Hagg Hsaved st3 i final flag
                     Hlim Hcc Hsent Hres Hst].
  - now rewrite Hm.
  - destruct (stopped_by_on_reachable _ _ _ _ _ _ _ _ _ Hr Hagg Hstop)
      as [(_ & Ht & Hs) | (_ & Hm)].
    + rewrite Ht, Hs. simpl. now rewrite andb_false_r.
    + now rewrite Hm.
  - destruct (saved_as_before _ _ _ _ _ _ _ _ _ _ Hr Hagg Hsaved)
      as (Hset & Hst2 & Hcnt & Hu & Hnn).
    rewrite <- Hset, <- Hst2, <- Hcnt, <- Hu. simpl returns.
    destruct Href as [[H1 Ha] | [_ Hc]].
    + pose proof (assert_can_be_flagged_by_user_below cfg fc2 user st3) as Hb.
      rewrite Ha in Hb. simpl in Hb. fold st3. rewrite <- Hb, H1. simpl.
      now rewrite andb_false_r.
    + pose proof (check_comment_returns cfg
                    (FlagInstance.mk None fc2 user comment
                       (FlaggedContent.status fc2))) as Hb.
      rewrite Hc in Hb. simpl in Hb. rewrite <- Hb.
      now rewrite andb_false_r.
  - destruct (saved_as_before _ _ _ _ _ _ _ _ _ _ Hr Hagg Hsaved)
      as (Hset & Hst2 & Hcnt & Hu & Hnn).
    rewrite <- Hset, <- Hst2, <- Hcnt, <- Hu.
    destruct Hsent as [[-> _] | (_ & _ & Hgone)]; [|congruence].
    simpl returns. symmetry.
    destruct Hsaved as (_ & _ & Hm & _). rewrite Hm. simpl.
    pose proof (check_comment_returns cfg
                  (FlagInstance.mk None fc2 user comment
                     (FlaggedContent.status fc2))) as Hb.
    rewrite Hcc in Hb. simpl in Hb. rewrite <- Hb, andb_true_r.
    apply andb_true_intro. split.
    + destruct (truthy status) eqn:Ht; [|reflexivity]. simpl.
      destruct (Nat.eqb (length (STATUSES cfg)) 0) eqn:E; [|reflexivity].
      apply length_eqb_nil in E. now apply Hnn in E.
    + destruct (FlaggedContent.status fc2 =? 1) eqn:E1; [|reflexivity].
      simpl. apply Z.eqb_eq in E1.
      pose proof (assert_can_be_flagged_by_user_below cfg fc2 user st3) as Hb'.
      rewrite (Hlim E1) in Hb'. simpl in Hb'. symmetry. exact Hb'.
Qed.

(** ** The exceptions of [add] and [add_flag] *)

Lemma assert_can_be_flagged_by_user_raise_cases cfg fc user st e :
  assert_can_be_flagged_by_user cfg fc user st = Raise e ->
  (e = ContentFlaggedEnoughException "Flag limit raised"
   /\ below (LIMIT_FOR_OBJECT (content_settings cfg fc))
            (FlaggedContent.count fc) = false)
  \/ (e = ContentAlreadyFlaggedByUserException
            (already_flagged_message (count_flags_by_user fc user st))
      /\ below (LIMIT_FOR_OBJECT (content_settings cfg fc))
               (FlaggedContent.count fc) = true
      /\ below (LIMIT_SAME_OBJECT_FOR_USER (content_settings cfg fc))
               (count_flags_by_user fc user st) = false).
Proof.
  unfold assert_can_be_flagged_by_user, assert_can_be_flagged, can_be_flagged,
    below.
  destruct (truthy (LIMIT_FOR_OBJECT _)); simpl.
  - destruct (FlaggedContent.count fc <? int_of _); simpl.
    + destruct (truthy (LIMIT_SAME_OBJECT_FOR_USER _)); simpl;
        [|discriminate].
      rewrite Z.geb_leb, Z.ltb_antisym.
      destruct (_ <=? _); [|discriminate].
      intros H. injection H as <-. right. auto.
    + intros H. injection H as <-. left. auto.
  - destruct (truthy (LIMIT_SAME_OBJECT_FOR_USER _)); simpl; [|discriminate].
    rewrite Z.geb_leb, Z.ltb_antisym.
    destruct (_ <=? _); [|discriminate].
    intros H. injection H as <-. right. auto.
Qed.

Lemma check_comment_raise_cases cfg self e :
  check_comment cfg self = Raise e ->
  (exists msg, e = FlagCommentException msg)
  /\ ALLOW_COMMENTS (content_settings cfg (FlagInstance.flagged_content self))
     = negb (truthy_str (FlagInstance.comment self)).
Proof.
  unfold check_comment.
  destruct (ALLOW_COMMENTS _), (truthy_str (FlagInstance.comment self));
    simpl; try discriminate; intros H; injection H as <-; eauto.
Qed.

(** Why [add] has raised, read from the store before the call. *)
Lemma add_refusal_on_reachable cfg user object creator comment status
  send_signal send_mails st e st' :
  reachable st ->
  add cfg user object creator comment status send_signal send_mails st
  = (Raise e, st') ->
  let settings := get_for_model cfg (content_object_of cfg object) in
  let before := aggregate_before object st in
  (e = ModelCannotBeFlaggedException "This model cannot be flagged"
   /\ model_can_be_flagged cfg (content_object_of cfg object) = false
   /\ st' = st)
  \/ e = IndexError
  \/ e = AttributeError
  \/ (flag_instances st' = flag_instances st
      /\ outbox st' = outbox st
      /\ ((e = ContentFlaggedEnoughException "Flag limit raised"
           /\ status_for status before = 1
           /\ below (LIMIT_FOR_OBJECT settings) (count_before before) = false)
          \/ (e = ContentAlreadyFlaggedByUserException
                    (already_flagged_message
                       (user_count_before before user st))
              /\ status_for status before = 1
              /\ below (LIMIT_FOR_OBJECT settings) (count_before before)
                 = true
              /\ below (LIMIT_SAME_OBJECT_FOR_USER settings)
                       (user_count_before before user st) = false)
          \/ ((exists msg, e = FlagCommentException msg)
              /\ ALLOW_COMMENTS settings = negb (truthy_str comment)
              /\ (status_for status before = 1 ->
                  below (LIMIT_FOR_OBJECT settings) (count_before before)
                  = true
                  /\ below (LIMIT_SAME_OBJECT_FOR_USER settings)
                           (user_count_before before user st) = true)))).
Proof.
  intros Hr H settings before. subst settings before.
  pose proof (consistent_keyed _ (reachable_consistent _ Hr)) as Hk.
  apply (add_cases _ _ _ _ _ _ _ _ _ _ _ Hk) in H.
  inversion H as [Hf Hm He Hst
                 | fc rows1 e0 Hagg Hstop He Hst
                 | fc rows1 fc2 p e0 Hagg Hsaved st3 Href He Hst
                 | fc rows1 fc2 p r sent Hagg Hsaved st3 i final flag
                     Hlim Hc Hsent Hres Hst].
  - left. auto.
  - subst e0.
    destruct (stopped_by_on_reachable _ _ _ _ _ _ _ _ _ Hr Hagg Hstop)
      as [(-> & _) | (-> & Hm)].
    + right. now left.
    + left. split; [reflexivity|]. split; [exact Hm|].
      destruct Hagg as [[_ ->] | (_ & Hm' & _)]; [|congruence].
      now rewrite with_flagged_contents_same.
  - subst e0. right. right. right.
    split; [reflexivity|]. split; [reflexivity|].
    destruct (saved_as_before _ _ _ _ _ _ _ _ _ _ Hr Hagg Hsaved)
      as (Hset & Hst2 & Hcnt & Hu & _).
    rewrite <- Hset, <- Hst2, <- Hcnt, <- Hu.
    destruct Href as [[H1 Ha] | [Hl Hcc]].
    + destruct (assert_can_be_flagged_by_user_raise_cases _ _ _ _ _ Ha)
        as [(-> & B) | (-> & B1 & B2)].
      * left. auto.
      * right. left. auto.
    + right. right.
      destruct (check_comment_raise_cases _ _ _ Hcc) as [Hm Ha].
      split; [exact Hm|]. split; [exact Ha|].
      intros H1. specialize (Hl H1).
      pose proof (assert_can_be_flagged_by_user_below cfg fc2 user st3) as Hb.
      rewrite Hl in Hb. simpl in Hb. symmetry in Hb.
      now apply andb_prop in Hb.
  - subst r. destruct Hsent as [[Hx _] | (Hx & _)]; [discriminate|].
    injection Hx as ->. right. right. now left.
Qed.

(** What a call of [add_flag] that raises leaves as it was. *)
Lemma add_flag_raises_keeps cfg flagger content_type object_id creator
  comment status send_signal send_mails st e st' :
  reachable st ->
  add_flag cfg flagger content_type object_id creator comment status
           send_signal send_mails st = (Raise e, st') ->
  flag_instances st' = flag_instances st
  /\ outbox st' = outbox st
  /\ (forall p, stored_count p st' = stored_count p st).
Proof.
  intros Hr. unfold add_flag.
  destruct (object_exists cfg content_type object_id) eqn:Eo.
  - intros H.
    assert (Hr' : reachable st').
    { replace st' with (snd (add cfg flagger
                               (mkContentObject content_type object_id)
                               creator comment status send_signal
                               send_mails st)) by now rewrite H.
      now apply reachable_add. }
    assert (Hflags : flag_instances st' = flag_instances st
                     /\ outbox st' = outbox st).
    { destruct (add_raises_on_reachable _ _ _ _ _ _ _ _ _ _ _ Hr H)
        as [(-> & _)
           | [(fc & rows1 & _ & -> & _)
             | [(fc & rows1 & fc2 & p & _ & _ & -> & _)
               | (row & _ & Hgone & _)]]]; auto.
      unfold content_object_of in Hgone. simpl in Hgone.
      rewrite Eo in Hgone. discriminate. }
    destruct Hflags as (F & O). split; [exact F|]. split; [exact O|].
    intros p.
    rewrite !stored_count_flags by now apply reachable_consistent.
    now rewrite F.
  - unfold raise. intros H. injection H as _ <-. auto.
Qed.

(** X8.  Each exception of [flag.exceptions] that [add] raises tells why
    the flag was refused, in terms of the store before the call, and no
    flag has been stored and nothing has been sent.  On a store built by
    [add]: [ModelCannotBeFlaggedException] means that the model cannot be
    flagged, and then nothing at all has been written;
    [ContentFlaggedEnoughException] means that the flag would have had
    status 1 and the count of the aggregate had reached
    [LIMIT_FOR_OBJECT]; [ContentAlreadyFlaggedByUserException] means that
    the flag would have had status 1, the per-object limit was not reached
    and the status-1 flags of the user on the aggregate had reached
    [LIMIT_SAME_OBJECT_FOR_USER], and its message is pluralised on their
    number; [FlagCommentException] means that the comment is there when
    none is allowed or missing when one is wanted, and that for a flag of
    status 1 both limits had let the flag through.  Nothing is said of any
    other exception. *)
Theorem add_raises (cfg : Settings) (st st' : Store) (user : User)
  (object : ContentObject) (creator : option User) (comment : option string)
  (status : option Z) (send_signal send_mails : bool) (e : Exception) :
  reachable st ->
  add cfg user object creator comment status send_signal send_mails st
  = (Raise e, st') ->
  let settings := get_for_model cfg (content_object_of cfg object) in
  let before := aggregate_before object st in
  match e with
  | ModelCannotBeFlaggedException _ =>
      model_can_be_flagged cfg (content_object_of cfg object) = false
      /\ st' = st
  | ContentFlaggedEnoughException _ =>
      status_for status before = 1
      /\ below (LIMIT_FOR_OBJECT settings) (count_before before) = false
      /\ flag_instances st' = flag_instances st
      /\ outbox st' = outbox st
  | ContentAlreadyFlaggedByUserException msg =>
      status_for status before = 1
      /\ below (LIMIT_FOR_OBJECT settings) (count_before before) = true
      /\ below (LIMIT_SAME_OBJECT_FOR_USER settings)
               (user_count_before before user st) = false
      /\ msg = already_flagged_message (user_count_before before user st)
      /\ flag_instances st' = flag_instances st
      /\ outbox st' = outbox st
  | FlagCommentException _ =>
      ALLOW_COMMENTS settings = negb (truthy_str comment)
      /\ (status_for status before = 1 ->
          below (LIMIT_FOR_OBJECT settings) (count_before before) = true
          /\ below (LIMIT_SAME_OBJECT_FOR_USER settings)
                   (user_count_before before user st) = true)
      /\ flag_instances st' = flag_instances st
      /\ outbox st' = outbox st
  | _ => True
  end.
Proof.
  intros Hr H settings before.
  destruct (add_refusal_on_reachable _ _ _ _ _ _ _ _ _ _ _ Hr H)
    as [(-> & Hm & ->)
       | [-> | [-> | (F & O & [(-> & S1 & B)
                              | [(-> & S1 & B1 & B2)
                                | ((msg & ->) & A & L)]])]]].
  - auto.
  - exact I.
  - exact I.
  - auto.
  - repeat split; assumption.
  - auto.
Qed.

Lemma add_raises_witness :
  reachable after_three_attempts
  /\ one_too_many_demo
     = (Raise (ContentFlaggedEnoughException "Flag limit raised"),
        snd one_too_many_demo)
  /\ status_for None (aggregate_before post_demo after_three_attempts) = 1
  /\ below (Some 2)
           (count_before (aggregate_before post_demo after_three_attempts))
     = false
  /\ flag_instances (snd one_too_many_demo)
     = flag_instances after_three_attempts
  /\ outbox (snd one_too_many_demo) = outbox after_three_attempts.
Proof.
  assert (R : reachable after_three_attempts)
    by (unfold after_three_attempts; do 3 apply reachable_add;
        apply reachable_empty).
  split; [exact R|]. split; [reflexivity|].
  exact (add_raises (cfg_demo (Some 2) (Some 1)) after_three_attempts
           (snd one_too_many_demo) 3 post_demo None None None true true
           (ContentFlaggedEnoughException "Flag limit raised") R eq_refl).
Defined.

(** X9.  [add_flag] on an object that does not exist raises [DoesNotExist]
    and leaves the store as it was.  On a store built by [add], when
    [add_flag] raises an exception of [flag.exceptions]
    ([ModelCannotBeFlaggedException], an exception of a limit or
    [FlagCommentException]), the object was there, and no flag has been
    stored, no count has changed and nothing has been sent. *)
Theorem add_flag_raises (cfg : Settings) (st st' : Store) (flagger : User)
  (content_type : ContentType) (object_id : Z) (creator : option User)
  (comment : option string) (status : option Z)
  (send_signal send_mails : bool) (e : Exception) :
  reachable st ->
  add_flag cfg flagger content_type object_id creator comment status
           send_signal send_mails st = (Raise e, st') ->
  (object_exists cfg content_type object_id = false ->
   e = DoesNotExist /\ st' = st)
  /\ ((exists msg, e = ModelCannotBeFlaggedException msg)
      \/ limit_error e = true \/ comment_error e = true ->
      object_exists cfg content_type object_id = true
      /\ flag_instances st' = flag_instances st
      /\ outbox st' = outbox st
      /\ forall p, stored_count p st' = stored_count p st).
Proof.
  intros Hr H. split.
  - intros Eo. unfold add_flag in H. rewrite Eo in H. unfold raise in H.
    injection H as <- <-. auto.
  - intros He.
    destruct (add_flag_raises_keeps _ _ _ _ _ _ _ _ _ _ _ _ Hr H)
      as (F & O & C).
    split; [|auto].
    unfold add_flag in H.
    destruct (object_exists cfg content_type object_id); [reflexivity|].
    unfold raise in H. injection H as <- _.
    destruct He as [(msg & He) | [He | He]]; discriminate.
Qed.

Lemma add_flag_raises_witness :
  let call := add_flag (cfg_demo (Some 2) (Some 1)) 3 ("blog", "post") 7
                None None None true true after_three_attempts in
  reachable after_three_attempts
  /\ call = (Raise (ContentFlaggedEnoughException "Flag limit raised"),
             snd call)
  /\ flag_instances (snd call) = flag_instances after_three_attempts
  /\ outbox (snd call) = outbox after_three_attempts
  /\ forall p, stored_count p (snd call) = stored_count p after_three_attempts.
Proof.
  intros call.
  assert (R : reachable after_three_attempts)
    by (unfold after_three_attempts; do 3 apply reachable_add;
        apply reachable_empty).
  split; [exact R|]. split; [reflexivity|].
  destruct (add_flag_raises (cfg_demo (Some 2) (Some 1)) after_three_attempts
              (snd call) 3 ("blog", "post") 7 None None None true true
              (ContentFlaggedEnoughException "Flag limit raised") R eq_refl)
    as (_ & H).
  destruct (H (or_intror (or_introl eq_refl))) as (_ & H1 & H2 & H3).
  split; [exact H1|]. split; [exact H2 | exact H3].
Defined.

(** X12.  [add_flag] returns a flag only if the object exists, its model
    can be flagged, a status given finds [STATUSES] filled, the comment is
    there exactly when the settings of the model want one, and, if the
    flag gets status 1, the count of the aggregate and the number of
    status-1 flags of the user are below the limits that are set.  All of
    it is read from the store before the call, on a store built by [add].
    When one of these fails, [add_flag] raises, and no flag has been
    stored, no count has changed and nothing has been sent. *)
Theorem add_flag_returns_only_if_accepts (cfg : Settings) (st : Store)
  (flagger : User) (content_type : ContentType) (object_id : Z)
  (content_creator : option User) (comment : option string)
  (status : option Z) (send_signal send_mails : bool) :
  reachable st ->
  let call := add_flag cfg flagger content_type object_id content_creator
                       comment status send_signal send_mails st in
  let accepted :=
    object_exists cfg content_type object_id
    && accepts cfg flagger (mkContentObject content_type object_id) comment
               status st in
  (returns (fst call) = true -> accepted = true)
  /\ (accepted = false ->
      returns (fst call) = false
      /\ flag_instances (snd call) = flag_instances st
      /\ outbox (snd call) = outbox st
      /\ forall p, stored_count p (snd call) = stored_count p st).
Proof.
  intros Hr call accepted.
  assert (Hiff : returns (fst call) = accepted).
  { subst call accepted. unfold add_flag.
    destruct (object_exists cfg content_type object_id) eqn:Hex.
    - simpl andb. now apply add_returns_iff_accepts.
    - reflexivity. }
  split; [now rewrite Hiff|].
  intros Hacc. rewrite Hacc in Hiff. split; [exact Hiff|].
  destruct call as [[flag|e] st'] eqn:E; [discriminate|]. simpl snd.
  exact (add_flag_raises_keeps _ _ _ _ _ _ _ _ _ _ _ _ Hr E).
Qed.

Lemma add_flag_returns_only_if_accepts_witness :
  let cfg := cfg_demo (Some 2) (Some 1) in
  let call := add_flag cfg 3 ("blog", "post") 7 None None None true true
                after_three_attempts in
  reachable after_three_attempts
  /\ accepts cfg 3 post_demo None None after_three_attempts = false
  /\ accepts cfg 3 post_demo None (Some 2) after_three_attempts = true
  /\ returns (fst call) = false
  /\ flag_instances (snd call) = flag_instances after_three_attempts
  /\ outbox (snd call) = outbox after_three_attempts.
Proof.
  intros cfg call.
  assert (R : reachable after_three_attempts)
    by (unfold after_three_attempts; do 3 apply reachable_add;
        apply reachable_empty).
  split; [exact R|]. split; [reflexivity|]. split; [reflexivity|].
  destruct (proj2 (add_flag_returns_only_if_accepts cfg after_three_attempts
                     3 ("blog", "post") 7 None None None true true R)
              eq_refl)
    as (H1 & H2 & H3 & _).
  split; [exact H1|]. split; [exact H2 | exact H3].
Defined.

(** ** [filter_for_model] *)

Lemma insert_by_id_perm r l : Permutation (r :: l) (insert_by_id r l).
Proof.
  induction l as [|x l IH]; [apply Permutation_refl|].
  simpl. destruct (Nat.leb (pk_of x) (pk_of r)); [apply Permutation_refl|].
  eapply perm_trans; [apply perm_swap|]. now apply perm_skip.
Qed.

Lemma order_by_id_desc_perm rows : Permutation rows (order_by_id_desc rows).
Proof.
  induction rows as [|r rows IH]; [apply Permutation_refl|].
  simpl. eapply perm_trans; [|apply insert_by_id_perm]. now apply perm_skip.
Qed.

Lemma insert_by_id_sorted r l :
  StronglySorted (fun a b => (pk_of b <= pk_of a)%nat) l ->
  StronglySorted (fun a b => (pk_of b <= pk_of a)%nat) (insert_by_id r l).
Proof.
  induction 1 as [|x l Hs IH Hall]; simpl.
  - constructor; constructor.
  - destruct (Nat.leb (pk_of x) (pk_of r)) eqn:E.
    + apply Nat.leb_le in E. constructor; [now constructor|].
      constructor; [exact E|].
      eapply Forall_impl; [|exact Hall]. simpl. intros a Ha. lia.
    + apply Nat.leb_gt in E. constructor; [exact IH|].
      eapply Permutation_Forall; [apply insert_by_id_perm|].
      constructor; [lia | exact Hall].
Qed.

Lemma order_by_id_desc_sorted rows :
  StronglySorted (fun a b => (pk_of b <= pk_of a)%nat) (order_by_id_desc rows).
Proof.
  induction rows as [|r rows IH]; [constructor|].
  simpl. now apply insert_by_id_sorted.
Qed.

Lemma sorted_strictly l :
  StronglySorted (fun a b => (pk_of b <= pk_of a)%nat) l ->
  NoDup (map pk_of l) ->
  StronglySorted (fun a b => (pk_of b < pk_of a)%nat) l.
Proof.
  induction 1 as [|x l Hs IH Hall]; [constructor|].
  simpl. intros Hnd. inversion Hnd as [|k m Hnot Hnd']. subst.
  constructor; [now apply IH|].
  rewrite Forall_forall in *. intros y Hy.
  specialize (Hall y Hy).
  assert (pk_of y <> pk_of x).
  { intros Heq. apply Hnot. rewrite <- Heq. now apply in_map. }
  lia.
Qed.

Lemma NoDup_map_filter {A B} (f : A -> B) (g : A -> bool) (l : list A) :
  NoDup (map f l) -> NoDup (map f (filter g l)).
Proof.
  induction l as [|x l IH]; [constructor|].
  simpl. intros Hnd. inversion Hnd as [|k m Hnot Hnd']. subst.
  destruct (g x); [|now apply IH].
  simpl. constructor; [|now apply IH].
  intros Hin. apply Hnot. apply in_map_iff in Hin as (y & Hy & Hiny).
  apply filter_In in Hiny as [Hiny _]. rewrite <- Hy. now apply in_map.
Qed.

Lemma NoDup_map_ext_in {A B C} (f : A -> B) (g : A -> C) (l : list A) :
  (forall a b, In a l -> In b l -> g a = g b -> f a = f b) ->
  NoDup (map f l) -> NoDup (map g l).
Proof.
  induction l as [|x l IH]; [constructor|].
  simpl. intros Hinj Hnd. inversion Hnd as [|k m Hnot Hnd']. subst.
  constructor.
  - intros Hin. apply Hnot. apply in_map_iff in Hin as (y & Hy & Hiny).
    rewrite <- (Hinj y x); [now apply in_map | now right | now left | exact Hy].
  - apply IH; [|exact Hnd']. intros a b Ha Hb. apply Hinj; now right.
Qed.

Lemma content_type_eqb_eq a b : content_type_eqb a b = true <-> a = b.
Proof.
  unfold content_type_eqb. destruct a as [a m], b as [a' m']. simpl.
  rewrite andb_true_iff, !String.eqb_eq. split.
  - now intros [-> ->].
  - intros H. injection H as -> ->. auto.
Qed.

(** X13.  [filter_for_model] on a store built by [add]: the queryset holds
    exactly the aggregates of the model, by strictly descending key, and
    with [only_object_ids] their object ids in the same order.  No object
    id comes twice, and an id is in the list exactly when [get_for_object]
    finds an aggregate for the object of that model with that id. *)
Theorem filter_for_model_spec (st : Store) (model : ContentObject) :
  reachable st ->
  exists rows,
    filter_for_model (Some model) false st = Some (Aggregates rows)
    /\ filter_for_model (Some model) true st
       = Some (ObjectIds (map FlaggedContent.object_id rows))
    /\ (forall r, In r rows
                  <-> In r (flagged_contents st)
                      /\ FlaggedContent.content_type r
                         = co_content_type model)
    /\ StronglySorted (fun a b => (pk_of b < pk_of a)%nat) rows
    /\ NoDup (map FlaggedContent.object_id rows)
    /\ (forall object_id,
          In object_id (map FlaggedContent.object_id rows)
          <-> exists fc,
                get_for_object
                  (mkContentObject (co_content_type model) object_id) st
                = inl fc).
Proof.
  intros Hr.
  pose proof (consistent_keyed _ (reachable_consistent _ Hr)) as Hk.
  destruct (reachable_keys st Hr) as (Hid & Hkey & _).
  unfold filter_for_model. simpl.
  set (same := fun r => content_type_eqb (FlaggedContent.content_type r)
                                         (co_content_type model)).
  set (rows := order_by_id_desc (filter same (flagged_contents st))).
  assert (Hperm : Permutation (filter same (flagged_contents st)) rows)
    by apply order_by_id_desc_perm.
  assert (Hin : forall r, In r rows
                          <-> In r (flagged_contents st)
                              /\ FlaggedContent.content_type r
                                 = co_content_type model).
  { intros r. split.
    - intros H. apply (Permutation_in _ (Permutation_sym Hperm)) in H.
      apply filter_In in H as [H1 H2]. now apply content_type_eqb_eq in H2.
    - intros [H1 H2]. apply (Permutation_in _ Hperm). apply filter_In.
      split; [exact H1|]. now apply content_type_eqb_eq. }
  exists rows. split; [reflexivity|]. split; [reflexivity|].
  split; [exact Hin|].
  assert (Hpk : NoDup (map pk_of (flagged_contents st))).
  { apply (NoDup_map_ext_in FlaggedContent.id pk_of); [|exact Hid].
    intros a b Ha Hb. unfold pk_of.
    destruct (Hk a Ha) as (p & ->), (Hk b Hb) as (q & ->). congruence. }
  split.
  { apply sorted_strictly; [apply order_by_id_desc_sorted|].
    eapply Permutation_NoDup; [apply Permutation_map; exact Hperm|].
    now apply NoDup_map_filter. }
  assert (Hoid : NoDup (map FlaggedContent.object_id rows)).
  { eapply Permutation_NoDup; [apply Permutation_map; exact Hperm|].
    apply (NoDup_map_ext_in key_of FlaggedContent.object_id);
      [|now apply NoDup_map_filter].
    intros a b Ha Hb Heq. apply filter_In in Ha as [_ Ha], Hb as [_ Hb].
    apply content_type_eqb_eq in Ha, Hb. unfold key_of. congruence. }
  split; [exact Hoid|].
  intros oid. rewrite in_map_iff. split.
  - intros (r & <- & Hrin). apply Hin in Hrin as [Hrin Hct].
    exists r. apply get_for_object_found; [exact Hkey | exact Hrin|].
    unfold key_of. simpl. now rewrite Hct.
  - intros (fc & Hget). unfold get_for_object, Manager_get in Hget.
    simpl in Hget. revert Hget.
    destruct (filter (for_object (co_content_type model) oid)
                     (flagged_contents st)) as [|x [|y l]] eqn:E;
      try discriminate.
    intros _.
    assert (Hx : In x (filter (for_object (co_content_type model) oid)
                              (flagged_contents st)))
      by (rewrite E; now left).
    apply filter_In in Hx as [Hx Hfo]. apply for_object_iff in Hfo.
    unfold key_of in Hfo. injection Hfo as Hct Ho.
    exists x. split; [exact Ho|]. apply Hin. auto.
Qed.

Lemma filter_for_model_spec_witness :
  reachable after_three_objects
  /\ filter_for_model (Some post_demo) true after_three_objects
     = Some (ObjectIds [8; 7])
  /\ exists rows,
       filter_for_model (Some post_demo) false after_three_objects
       = Some (Aggregates rows)
       /\ NoDup (map FlaggedContent.object_id rows)
       /\ StronglySorted (fun a b => (pk_of b < pk_of a)%nat) rows.
Proof.
  assert (R : reachable after_three_objects)
    by (unfold after_three_objects; do 3 apply reachable_add;
        apply reachable_empty).
  split; [exact R|]. split; [reflexivity|].
  destruct (filter_for_model_spec after_three_objects post_demo R)
    as (rows & H1 & _ & _ & Hs & Hnd & _).
  exists rows. split; [exact H1|]. split; [exact Hnd | exact Hs].
Defined.

(** ** [get_status_display] *)

Lemma dict_get_step_skip (key : Z) (pairs : list (Z * string)) found :
  ~ In key (map fst pairs) ->
  fold_left (fun found pair =>
               if fst pair =? key then Some (snd pair) else found)
            pairs found = found.
Proof.
  revert found. induction pairs as [|[k v] pairs IH]; [reflexivity|].
  simpl. intros found Hnot.
  destruct (k =? key) eqn:E.
  - apply Z.eqb_eq in E. exfalso. apply Hnot. now left.
  - apply IH. intros H. apply Hnot. now right.
Qed.

Lemma dict_get_step_sound (key : Z) (pairs : list (Z * string)) found label :
  fold_left (fun found pair =>
               if fst pair =? key then Some (snd pair) else found)
            pairs found = Some label ->
  found = Some label \/ In (key, label) pairs.
Proof.
  revert found. induction pairs as [|[k v] pairs IH]; [now left|].
  simpl. intros found H. apply IH in H as [H | H]; [|now right; right].
  destruct (k =? key) eqn:E; [|now left].
  apply Z.eqb_eq in E. injection H as ->. subst k. right. now left.
Qed.

Lemma dict_get_step_none (key : Z) (pairs : list (Z * string)) found :
  fold_left (fun found pair =>
               if fst pair =? key then Some (snd pair) else found)
            pairs found = None ->
  ~ In key (map fst pairs).
Proof.
  revert found. induction pairs as [|[k v] pairs IH]; [intros _ _ []|].
  simpl. intros found H [Hk | Hin].
  - subst k. rewrite Z.eqb_refl in H.
    destruct (in_dec Z.eq_dec key (map fst pairs)) as [Hin | Hnot].
    + exact (IH _ H Hin).
    + rewrite (dict_get_step_skip _ _ _ Hnot) in H. discriminate.
  - exact (IH _ H Hin).
Qed.

(** X14.  [get_status_display] looks the status of the aggregate up in
    the pairs of [STATUSES]: a label it returns stands in a pair with the
    status; the [KeyError] comes exactly when no pair has the status; and
    of several pairs with the status the last one gives the label. *)
Theorem get_status_display_spec (statuses : list (Z * string))
  (self : FlaggedContent.t) :
  (forall label,
     get_status_display statuses self = Some label ->
     In (FlaggedContent.status self, label) statuses)
  /\ (get_status_display statuses self = None
      <-> ~ In (FlaggedContent.status self) (map fst statuses))
  /\ (forall before label after,
        statuses = before ++ (FlaggedContent.status self, label) :: after ->
        ~ In (FlaggedContent.status self) (map fst after) ->
        get_status_display statuses self = Some label).
Proof.
  unfold get_status_display, dict_get. split; [|split].
  - intros label H. apply dict_get_step_sound in H as [H | H];
      [discriminate | exact H].
  - split.
    + apply dict_get_step_none.
    + apply dict_get_step_skip.
  - intros before label after -> Hnot.
    rewrite fold_left_app. simpl. rewrite Z.eqb_refl.
    now apply dict_get_step_skip.
Qed.

Lemma get_status_display_spec_witness :
  get_status_display statuses_demo (fc_demo 0) = Some "flagged again"
  /\ In (1, "flagged again") statuses_demo.
Proof.
  assert (H : get_status_display statuses_demo (fc_demo 0)
              = Some "flagged again").
  { exact (proj2 (proj2 (get_status_display_spec statuses_demo (fc_demo 0)))
             [(1, "flagged"); (2, "moderated")] "flagged again" [] eq_refl
             (fun H => H)). }
  split; [exact H|].
  exact (proj1 (get_status_display_spec statuses_demo (fc_demo 0)) _ H).
Defined.

(** ** What [add] leaves alone *)

Lemma filter_map_same {A} (keep : A -> bool) (h : A -> A) (l : list A) :
  (forall r, In r l ->
             keep (h r) = keep r /\ (keep r = true -> h r = r)) ->
  filter keep (map h l) = filter keep l.
Proof.
  induction l as [|a l IH]; [reflexivity|].
  intros H. simpl.
  destruct (H a (or_introl eq_refl)) as [H1 H2]. rewrite H1.
  rewrite IH by (intros r Hr; apply H; now right).
  destruct (keep a); [|reflexivity]. now rewrite H2.
Qed.

Lemma filter_others_rewrite content_type object_id p x fc rows :
  NoDup (map FlaggedContent.id rows) ->
  In fc rows ->
  FlaggedContent.id fc = Some p ->
  key_of fc = (content_type, object_id) ->
  key_of x = (content_type, object_id) ->
  filter (fun r => negb (for_object content_type object_id r))
         (rewrite_pk p (fun _ => x) rows)
  = filter (fun r => negb (for_object content_type object_id r)) rows.
Proof.
  intros Hnd Hin Hid Hkey Hx. unfold rewrite_pk.
  apply filter_map_same. intros r Hr.
  destruct (has_pk p r) eqn:E; [|auto].
  apply has_pk_iff in E.
  assert (r = fc) as -> by (apply (NoDup_map_inj _ _ _ _ Hnd Hr Hin);
                            congruence).
  rewrite (proj2 (for_object_iff _ _ x) Hx).
  rewrite (proj2 (for_object_iff _ _ fc) Hkey). split; [reflexivity|].
  discriminate.
Qed.

Lemma aggregate_of_others cfg object creator status st fc rows1 :
  aggregate_of cfg object creator status st fc rows1 ->
  filter (fun r => negb (for_object (co_content_type object) (co_id object) r))
         rows1
  = filter (fun r => negb (for_object (co_content_type object)
                                      (co_id object) r))
           (flagged_contents st).
Proof.
  intros [[_ ->] | (_ & _ & -> & ->)]; [reflexivity|].
  simpl. unfold for_object at 1. simpl.
  assert (H : content_type_eqb (co_content_type object)
                               (co_content_type object) = true)
    by now apply content_type_eqb_eq.
  now rewrite H, Z.eqb_refl.
Qed.

(** X15.  A call of [add] for an object touches nothing of the other
    objects, whether it returns or raises.  On a store built by [add]: the
    aggregates of all other objects are after the call what they were
    before, in the same order; every flag row that was stored is still
    there, unchanged; and at most one row has come on top, which is of the
    user and the comment given and points to the aggregate of the
    object. *)
Theorem add_leaves_the_other_objects (cfg : Settings) (st : Store)
  (user : User) (object : ContentObject) (creator : option User)
  (comment : option string) (status : option Z)
  (send_signal send_mails : bool) :
  reachable st ->
  let st' := snd (add cfg user object creator comment status send_signal
                      send_mails st) in
  filter (fun r => negb (for_object (co_content_type object) (co_id object) r))
         (flagged_contents st')
  = filter (fun r => negb (for_object (co_content_type object)
                                      (co_id object) r))
           (flagged_contents st)
  /\ (flag_instances st' = flag_instances st
      \/ exists row fc,
           flag_instances st' = row :: flag_instances st
           /\ FlagInstance.row_user row = user
           /\ FlagInstance.row_comment row = comment
           /\ get_for_object object st' = inl fc
           /\ FlaggedContent.id fc
              = Some (FlagInstance.flagged_content_id row)).
Proof.
  intros Hr st'. subst st'.
  pose proof (consistent_keyed _ (reachable_consistent _ Hr)) as Hk.
  destruct (reachable_keys st Hr) as (Hid & Hkey & _).
  destruct (add cfg user object creator comment status send_signal
              send_mails st) as [r st'] eqn:E.
  apply (add_cases _ _ _ _ _ _ _ _ _ _ _ Hk) in E. simpl snd.
  destruct E as [Hf Hm | fc rows1 e Hagg Hstop
                | fc rows1 fc2 p e Hagg Hsaved st3 Href
                | fc rows1 fc2 p r sent Hagg Hsaved st3 i final flag
                    Hlim Hc Hsent].
  - split; [reflexivity | now left].
  - split; [|now left]. simpl.
    exact (aggregate_of_others _ _ _ _ _ _ _ Hagg).
  - destruct (aggregate_of_keys _ _ _ _ _ _ _ Hid Hkey Hagg) as [I1 K1].
    destruct (aggregate_of_facts _ _ _ _ _ _ _ Hk Hagg)
      as (Hin & Hkfc & q & Hq & Hex).
    destruct (saved_as_keeps _ _ _ _ _ _ _ _ Hsaved) as (H2 & K2 & _).
    assert (q = p) as -> by (destruct Hsaved as (_ & Hp & _); congruence).
    split; [|now left]. subst st3. simpl.
    rewrite (filter_others_rewrite _ _ p fc2 fc rows1 I1 Hin Hq Hkfc)
      by congruence.
    exact (aggregate_of_others _ _ _ _ _ _ _ Hagg).
  - destruct (aggregate_of_keys _ _ _ _ _ _ _ Hid Hkey Hagg) as [I1 K1].
    destruct (aggregate_of_facts _ _ _ _ _ _ _ Hk Hagg)
      as (Hin & Hkfc & q & Hq & Hex).
    destruct (saved_as_keeps _ _ _ _ _ _ _ _ Hsaved)
      as (H2 & K2 & _ & H3 & K3).
    assert (q = p) as -> by (destruct Hsaved as (_ & Hp & _); congruence).
    subst final. simpl. split.
    + rewrite (filter_others_rewrite _ _ p (final_aggregate fc2) fc rows1
                 I1 Hin Hq Hkfc) by congruence.
      exact (aggregate_of_others _ _ _ _ _ _ _ Hagg).
    + right. eexists. exists (final_aggregate fc2).
      split; [reflexivity|]. split; [reflexivity|]. split; [reflexivity|].
      split; [|exact H3].
      apply get_for_object_found; simpl.
      * now rewrite (map_key_rewrite _ _ _ _ I1 Hin Hq K3).
      * now apply in_rewrite_pk_new.
      * congruence.
Qed.

Lemma add_leaves_the_other_objects_witness :
  reachable after_three_objects
  /\ filter (fun r => negb (for_object ("auth", "user") 3 r))
            (flagged_contents
               (snd (add (cfg_demo None None) 2 user_demo None None (Some 2)
                         true true after_three_objects)))
     = filter (fun r => negb (for_object ("auth", "user") 3 r))
              (flagged_contents after_three_objects)
  /\ length (filter (fun r => negb (for_object ("auth", "user") 3 r))
                    (flagged_contents after_three_objects)) = 2%nat.
Proof.
  assert (R : reachable after_three_objects)
    by (unfold after_three_objects; do 3 apply reachable_add;
        apply reachable_empty).
  split; [exact R|]. split; [|reflexivity].
  exact (proj1 (add_leaves_the_other_objects (cfg_demo None None)
                  after_three_objects 2 user_demo None None (Some 2) true
                  true R)).
Defined.
